(** * UniversalTelegramBot: a shallow embedding of the request/response
    engine and of the update processor (src/UniversalTelegramBot.cpp).

    The transport ([Client]), the JSON library and the clock are outside
    the file that is verified. The transport appears here as an explicit
    world: a connection flag, a script of the outcomes of [connect], a
    schedule of incoming bytes, a log of the operations issued. The JSON
    library and the macros of the header are the fields of the class
    [Platform]. The clock is folded into the schedule. Output on [Serial]
    is left out.

    Functions of the source that read or change the bot take the state
    [Bot] and return the new one; a result is an [option] where the source
    can leave defined behaviour (a write beyond [messages], the scan of the
    array of [getUpdateIdFromResponse]). *)

From Stdlib Require Import ZArith Ascii String List Lia Bool Sorted DecimalString.
From stdpp Require Import base list strings.

Local Open Scope string_scope.
Local Open Scope list_scope.
Local Open Scope Z_scope.

(** ** Arduino [String] operations used by the source

    A [String] is the sequence of its characters. The searches of the
    library work on the C string behind it; they agree with the definitions
    below on strings that hold no NUL character. *)

Module WString.

Definition CR : ascii := "013"%char.
Definition LF : ascii := "010"%char.
Definition NUL : ascii := "000"%char.
Definition CRLF : string := String CR (String LF EmptyString).

(** [String(long)] and [String += long]: decimal text. *)
Definition of_Z (z : Z) : string := NilZero.string_of_int (Z.to_int z).

(** [s += c]. *)
Definition push (s : string) (c : ascii) : string := s +:+ String c EmptyString.

Definition is_digit (c : ascii) : bool :=
  let n := nat_of_ascii c in (48 <=? n)%nat && (n <=? 57)%nat.

Definition digit_val (c : ascii) : Z := Z.of_nat (nat_of_ascii c) - 48.

(** C [isspace] in the "C" locale. *)
Definition is_space (c : ascii) : bool :=
  let n := nat_of_ascii c in (n =? 32)%nat || ((9 <=? n)%nat && (n <=? 13)%nat).

Definition to_lower_char (c : ascii) : ascii :=
  let n := nat_of_ascii c in
  if (65 <=? n)%nat && (n <=? 90)%nat then ascii_of_nat (n + 32) else c.

Fixpoint toLowerCase (s : string) : string :=
  match s with
  | EmptyString => EmptyString
  | String c r => String (to_lower_char c) (toLowerCase r)
  end.

(** [s.indexOf(needle, from)]: [None] stands for the -1 of the source.
    The library answers -1 at once when [from >= len]. *)
Definition indexOf (s needle : string) (from : nat) : option nat :=
  if (String.length s <=? from)%nat then None else String.index from needle s.

(** [s.substring(left, right)]: swaps the bounds when [left > right],
    yields the empty string when [left >= len], clips [right] to [len]. *)
Definition substring (s : string) (left right : nat) : string :=
  let (l, r) := if (right <? left)%nat then (right, left) else (left, right) in
  if (String.length s <=? l)%nat then EmptyString
  else String.substring l (Nat.min r (String.length s) - l) s.

(** [s.remove(index)] with [index] the result of an [indexOf]: everything
    from [index] on is dropped; the -1 of a failed search, taken as an
    unsigned index, lies beyond the end and leaves the string as it is. *)
Definition remove_from (s : string) (index : option nat) : string :=
  match index with
  | Some i => if (String.length s <=? i)%nat then s else String.substring 0 i s
  | None => s
  end.

(** The target's [long] (ESP8266 and ESP32 are ILP32). *)
Definition LONG_MAX : Z := 2147483647.
Definition LONG_MIN : Z := -2147483648.

Definition clamp_long (z : Z) : Z := Z.max LONG_MIN (Z.min LONG_MAX z).

(** Two's-complement wrap-around of a [long] result. *)
Definition wrap_long (z : Z) : Z := (z + 2147483648) mod 4294967296 - 2147483648.

(** [atol] as the C library of the target implements it ([strtol] in base
    10): white space, an optional sign, digits, saturation at the bounds of
    [long]. The scan runs over the characters of a memory area and stops
    at the first character that is not part of the number; [None] when the
    area ends before such a character was met (the scan would leave it). *)
Fixpoint atol_digits (neg : bool) (acc : Z) (l : list ascii) : option Z :=
  match l with
  | [] => None
  | c :: r =>
      if is_digit c then atol_digits neg (10 * acc + digit_val c) r
      else Some (clamp_long (if neg then - acc else acc))
  end.

Definition atol_sign (l : list ascii) : option Z :=
  match l with
  | [] => None
  | c :: r =>
      if Ascii.eqb c "-" then atol_digits true 0 r
      else if Ascii.eqb c "+" then atol_digits false 0 r
      else atol_digits false 0 l
  end.

Fixpoint atol_area (l : list ascii) : option Z :=
  match l with
  | [] => None
  | c :: r => if is_space c then atol_area r else atol_sign l
  end.

(** [s.toInt()]: [atol] on the NUL-terminated buffer of the string. *)
Definition toInt (s : string) : Z :=
  default 0 (atol_area (list_ascii_of_string s ++ [NUL])).

End WString.

(** ** JSON documents (the value model of the JSON collaborator)

    Only what the source asks of a document is defined here: key presence,
    member access, array size and elements. Parsing, serialisation and the
    numeric conversions are fields of the class [Platform]. *)

#[warnings="-register-all"]
Inductive Json : Type :=
| JNull
| JBool (b : bool)
| JInt (z : Z)
| JReal (literal : string)
| JStr (s : string)
| JArr (elements : list Json)
| JObj (members : list (string * Json)).

Module JsonOps.

Fixpoint assoc (k : string) (kvs : list (string * Json)) : option Json :=
  match kvs with
  | [] => None
  | (k', v) :: r => if String.eqb k k' then Some v else assoc k r
  end.

(** [v.containsKey(k)]; a value that is not an object has no key. *)
Definition containsKey (v : Json) (k : string) : bool :=
  match v with
  | JObj kvs => match assoc k kvs with Some _ => true | None => false end
  | _ => false
  end.

(** [v[k]]: the member, or null when [v] is not an object or lacks [k]. *)
Definition member (v : Json) (k : string) : Json :=
  match v with
  | JObj kvs => default JNull (assoc k kvs)
  | _ => JNull
  end.

(** [v.size()] together with [v[i]] for [i] below it: the elements of an
    array; an object has as many positions as members, and an integer
    index into it yields null. *)
Definition items (v : Json) : list Json :=
  match v with
  | JArr l => l
  | JObj kvs => map (fun _ => JNull) kvs
  | _ => []
  end.

(** [v | false]. *)
Definition as_bool_or_false (v : Json) : bool :=
  match v with JBool b => b | _ => false end.

End JsonOps.

(** ** The transport *)

(** What the reading loop of [readHTTPAnswer] meets each time it tests its
    deadline: either the deadline has passed, or it has not and the burst of
    bytes (possibly none) that [available]/[read] hand out before
    [available] answers 0. The clock itself is not modelled; a schedule
    that ends stands for a deadline that has passed. *)
Inductive tick : Type :=
| Data (bytes : list ascii)
| Deadline.

Inductive op : Type :=
| OpConnect (ok : bool)
| OpWrite (data : string)
| OpStop.

(** [connected] changes through [connect] and [stop] only; [connect_script]
    lists the outcomes of the coming calls of [connect] (none left: the
    transport refuses); [oplog] is the history of the operations issued. *)
Record Client : Type := mkClient {
  connected : bool;
  connect_script : list bool;
  rx : list tick;
  oplog : list op
}.

Module ClientOps.

Definition connect (c : Client) : bool * Client :=
  match connect_script c with
  | [] => (false, mkClient false [] (rx c) (oplog c ++ [OpConnect false]))
  | ok :: r => (ok, mkClient ok r (rx c) (oplog c ++ [OpConnect ok]))
  end.

Definition stop (c : Client) : Client :=
  mkClient false (connect_script c) (rx c) (oplog c ++ [OpStop]).

(** A run of [print]/[println]/[write] calls, one log entry each. *)
Definition write_all (ds : list string) (c : Client) : Client :=
  mkClient (connected c) (connect_script c) (rx c) (oplog c ++ map OpWrite ds).

Definition print (d : string) : list string := [d].
(** [println(d)] is [print(d)] followed by the line end. *)
Definition println (d : string) : list string := [d; WString.CRLF].
Definition println0 : list string := [WString.CRLF].

Definition set_rx (c : Client) (r : list tick) : Client :=
  mkClient (connected c) (connect_script c) r (oplog c).

End ClientOps.

(** ** readHTTPAnswer (source lines 100-159) *)

Record reader : Type := mkReader {
  ch_count : Z;
  finishedHeaders : bool;
  currentLineIsBlank : bool;
  responseReceived : bool;
  toRead : Z;
  headers : string;
  body : string
}.

Module Reader.
Import WString.

(** Lines 117-123: the value after the first [content-length] of the
    lower-cased header text, up to the next carriage return. *)
Definition content_length (hdrs : string) : option Z :=
  let headerLC := toLowerCase hdrs in
  match indexOf headerLC "content-length" 0 with
  | None => None
  | Some ind1 =>
      match indexOf headerLC (String CR EmptyString) (ind1 + 15) with
      | None => None
      | Some ind2 => Some (toInt (substring headerLC (ind1 + 15) ind2))
      end
  end.

(** The body of the inner [while (client->available())] loop for one
    character. *)
Definition read_char (maxMessageLength : Z) (r : reader) (c : ascii) : reader :=
  let r1 :=
    if negb (finishedHeaders r) then
      if currentLineIsBlank r && Ascii.eqb c LF then
        match content_length (headers r) with
        | Some n =>
            mkReader (ch_count r) true (currentLineIsBlank r)
                     (responseReceived r) n EmptyString (body r)
        | None =>
            mkReader (ch_count r) true (currentLineIsBlank r)
                     (responseReceived r) (toRead r) (headers r) (body r)
        end
      else
        mkReader (ch_count r) false (currentLineIsBlank r)
                 (responseReceived r) (toRead r) (push (headers r) c) (body r)
    else
      if ch_count r <? maxMessageLength then
        let n := ch_count r + 1 in
        mkReader n true (currentLineIsBlank r)
                 (if 0 <? toRead r then n =? toRead r else true)
                 (toRead r) (headers r) (push (body r) c)
      else r in
  mkReader (ch_count r1) (finishedHeaders r1)
           (if Ascii.eqb c LF then true
            else if Ascii.eqb c CR then currentLineIsBlank r1 else false)
           (responseReceived r1) (toRead r1) (headers r1) (body r1).

(** The bytes fed to the loop one after the other. *)
Definition feed (maxMessageLength : Z) (bytes : list ascii) (r : reader) : reader :=
  fold_left (read_char maxMessageLength) bytes r.

(** The header text that stands in front of the blank line of a byte
    sequence, gathered as lines 113-133 and 142-143 do; [None] while no
    blank line was met. *)
Fixpoint header_text (bytes : list ascii) (blank : bool) (acc : string)
  : option string :=
  match bytes with
  | [] => None
  | c :: rest =>
      if blank && Ascii.eqb c LF then Some acc
      else header_text rest
             (if Ascii.eqb c LF then true
              else if Ascii.eqb c CR then blank else false)
             (push acc c)
  end.

(** All the bytes of a schedule. *)
Definition flatten (sched : list tick) : list ascii :=
  concat (map (fun t => match t with Data bytes => bytes | Deadline => [] end) sched).

Definition init (body0 : string) : reader :=
  mkReader 0 false true false 0 EmptyString body0.

(** The outer [while] loop over the schedule of the transport. *)
Fixpoint loop (maxMessageLength : Z) (sched : list tick) (r : reader)
  : reader * list tick :=
  match sched with
  | [] => (r, [])
  | Deadline :: rest => (r, rest)
  | Data bytes :: rest =>
      let r' := feed maxMessageLength bytes r in
      if responseReceived r' then (r', rest) else loop maxMessageLength rest r'
  end.

(** The final values of the locals of [readHTTPAnswer] and the transport
    it leaves; [body0] is the string passed by reference. *)
Definition run (maxMessageLength : Z) (body0 : string) (c : Client)
  : reader * Client :=
  let (r, rest) := loop maxMessageLength (rx c) (init body0) in
  (r, ClientOps.set_rx c rest).

End Reader.

(** [readHTTPAnswer(body)]: the returned flag, the string left in [body]. *)
Definition readHTTPAnswer (maxMessageLength : Z) (body0 : string) (c : Client)
  : bool * string * Client :=
  let (r, c') := Reader.run maxMessageLength body0 c in
  (responseReceived r, body r, c').

(** What every state of the loop satisfies, [len0] being the length of the
    string that [readHTTPAnswer] was given. *)
Record reader_inv (maxLen : Z) (len0 : nat) (r : reader) : Prop := mkReaderInv {
  inv_body : Z.of_nat (String.length (body r)) = Z.of_nat len0 + ch_count r;
  inv_low : 0 <= ch_count r;
  inv_high : ch_count r = 0 \/ ch_count r <= maxLen;
  inv_flag : responseReceived r
             = if 0 <? toRead r then ch_count r =? toRead r else 0 <? ch_count r;
  inv_headers : finishedHeaders r = false -> ch_count r = 0
}.

(** ** What the source takes from outside

    The JSON library (ArduinoJson: parsing, serialisation, the [as<T>]
    conversions, the [float] of the target) and the two macros of the
    header that the source uses. *)

Class Platform : Type := {
  float : Type;
  float_zero : float;
  as_float : Json -> float;
  as_int : Json -> Z;
  as_long : Json -> Z;
  serializeJson : Json -> string;
  (** [deserializeJson(doc, input)] on a fresh [doc]: the value of [doc]
      when it reports no error, [None] when it reports one. *)
  deserializeJson : string -> option Json;
  (** What [doc] holds when [deserializeJson(doc, input)] has reported an
      error on a text that is not empty: what was read before the error. *)
  deserializeJson_partial : string -> Json;
  TELEGRAM_HOST : string;
  HANDLE_MESSAGES : nat
}.

Section Model.
Context {P : Platform}.

(** [v.as<String>()]: the characters of a string value, the serialised
    text of any other value. *)
Definition as_String (v : Json) : string :=
  match v with
  | JStr s => s
  | _ => serializeJson v
  end.

(** [measureJson]. *)
Definition measureJson (v : Json) : Z :=
  Z.of_nat (String.length (serializeJson v)).

(** ** The message record and the state of the bot

    [telegramMessage] is the struct of the header, with the fields the
    source assigns. *)

Record telegramMessage : Type := mkMessage {
  text : string;
  chat_id : string;
  chat_title : string;
  from_id : string;
  from_name : string;
  date : string;
  type : string;
  file_caption : string;
  file_path : string;
  file_name : string;
  hasDocument : bool;
  file_size : Z;
  longitude : float;
  latitude : float;
  update_id : Z;
  message_id : Z;
  reply_to_message_id : Z;
  reply_to_text : string;
  query_id : string;
  contact_phone_number : string;
  contact_name : string;
  contact_id : string
}.

(** Assignments to one field of a record. *)
Definition set_text (v : string) (m : telegramMessage) : telegramMessage :=
  mkMessage v (chat_id m) (chat_title m) (from_id m) (from_name m) (date m)
    (type m) (file_caption m) (file_path m) (file_name m) (hasDocument m)
    (file_size m) (longitude m) (latitude m) (update_id m) (message_id m)
    (reply_to_message_id m) (reply_to_text m) (query_id m)
    (contact_phone_number m) (contact_name m) (contact_id m).
Definition set_chat_id (v : string) (m : telegramMessage) : telegramMessage :=
  mkMessage (text m) v (chat_title m) (from_id m) (from_name m) (date m)
    (type m) (file_caption m) (file_path m) (file_name m) (hasDocument m)
    (file_size m) (longitude m) (latitude m) (update_id m) (message_id m)
    (reply_to_message_id m) (reply_to_text m) (query_id m)
    (contact_phone_number m) (contact_name m) (contact_id m).
Definition set_chat_title (v : string) (m : telegramMessage) : telegramMessage :=
  mkMessage (text m) (chat_id m) v (from_id m) (from_name m) (date m) (type
    m) (file_caption m) (file_path m) (file_name m) (hasDocument m)
    (file_size m) (longitude m) (latitude m) (update_id m) (message_id m)
    (reply_to_message_id m) (reply_to_text m) (query_id m)
    (contact_phone_number m) (contact_name m) (contact_id m).
Definition set_from_id (v : string) (m : telegramMessage) : telegramMessage :=
  mkMessage (text m) (chat_id m) (chat_title m) v (from_name m) (date m)
    (type m) (file_caption m) (file_path m) (file_name m) (hasDocument m)
    (file_size m) (longitude m) (latitude m) (update_id m) (message_id m)
    (reply_to_message_id m) (reply_to_text m) (query_id m)
    (contact_phone_number m) (contact_name m) (contact_id m).
Definition set_from_name (v : string) (m : telegramMessage) : telegramMessage :=
  mkMessage (text m) (chat_id m) (chat_title m) (from_id m) v (date m) (type
    m) (file_caption m) (file_path m) (file_name m) (hasDocument m)
    (file_size m) (longitude m) (latitude m) (update_id m) (message_id m)
    (reply_to_message_id m) (reply_to_text m) (query_id m)
    (contact_phone_number m) (contact_name m) (contact_id m).
Definition set_date (v : string) (m : telegramMessage) : telegramMessage :=
  mkMessage (text m) (chat_id m) (chat_title m) (from_id m) (from_name m) v
    (type m) (file_caption m) (file_path m) (file_name m) (hasDocument m)
    (file_size m) (longitude m) (latitude m) (update_id m) (message_id m)
    (reply_to_message_id m) (reply_to_text m) (query_id m)
    (contact_phone_number m) (contact_name m) (contact_id m).
Definition set_type (v : string) (m : telegramMessage) : telegramMessage :=
  mkMessage (text m) (chat_id m) (chat_title m) (from_id m) (from_name m)
    (date m) v (file_caption m) (file_path m) (file_name m) (hasDocument m)
    (file_size m) (longitude m) (latitude m) (update_id m) (message_id m)
    (reply_to_message_id m) (reply_to_text m) (query_id m)
    (contact_phone_number m) (contact_name m) (contact_id m).
Definition set_file_caption (v : string) (m : telegramMessage) : telegramMessage :=
  mkMessage (text m) (chat_id m) (chat_title m) (from_id m) (from_name m)
    (date m) (type m) v (file_path m) (file_name m) (hasDocument m)
    (file_size m) (longitude m) (latitude m) (update_id m) (message_id m)
    (reply_to_message_id m) (reply_to_text m) (query_id m)
    (contact_phone_number m) (contact_name m) (contact_id m).
Definition set_file_path (v : string) (m : telegramMessage) : telegramMessage :=
  mkMessage (text m) (chat_id m) (chat_title m) (from_id m) (from_name m)
    (date m) (type m) (file_caption m) v (file_name m) (hasDocument m)
    (file_size m) (longitude m) (latitude m) (update_id m) (message_id m)
    (reply_to_message_id m) (reply_to_text m) (query_id m)
    (contact_phone_number m) (contact_name m) (contact_id m).
Definition set_file_name (v : string) (m : telegramMessage) : telegramMessage :=
  mkMessage (text m) (chat_id m) (chat_title m) (from_id m) (from_name m)
    (date m) (type m) (file_caption m) (file_path m) v (hasDocument m)
    (file_size m) (longitude m) (latitude m) (update_id m) (message_id m)
    (reply_to_message_id m) (reply_to_text m) (query_id m)
    (contact_phone_number m) (contact_name m) (contact_id m).
Definition set_hasDocument (v : bool) (m : telegramMessage) : telegramMessage :=
  mkMessage (text m) (chat_id m) (chat_title m) (from_id m) (from_name m)
    (date m) (type m) (file_caption m) (file_path m) (file_name m) v
    (file_size m) (longitude m) (latitude m) (update_id m) (message_id m)
    (reply_to_message_id m) (reply_to_text m) (query_id m)
    (contact_phone_number m) (contact_name m) (contact_id m).
Definition set_file_size (v : Z) (m : telegramMessage) : telegramMessage :=
  mkMessage (text m) (chat_id m) (chat_title m) (from_id m) (from_name m)
    (date m) (type m) (file_caption m) (file_path m) (file_name m)
    (hasDocument m) v (longitude m) (latitude m) (update_id m) (message_id
    m) (reply_to_message_id m) (reply_to_text m) (query_id m)
    (contact_phone_number m) (contact_name m) (contact_id m).
Definition set_longitude (v : float) (m : telegramMessage) : telegramMessage :=
  mkMessage (text m) (chat_id m) (chat_title m) (from_id m) (from_name m)
    (date m) (type m) (file_caption m) (file_path m) (file_name m)
    (hasDocument m) (file_size m) v (latitude m) (update_id m) (message_id
    m) (reply_to_message_id m) (reply_to_text m) (query_id m)
    (contact_phone_number m) (contact_name m) (contact_id m).
Definition set_latitude (v : float) (m : telegramMessage) : telegramMessage :=
  mkMessage (text m) (chat_id m) (chat_title m) (from_id m) (from_name m)
    (date m) (type m) (file_caption m) (file_path m) (file_name m)
    (hasDocument m) (file_size m) (longitude m) v (update_id m) (message_id
    m) (reply_to_message_id m) (reply_to_text m) (query_id m)
    (contact_phone_number m) (contact_name m) (contact_id m).
Definition set_update_id (v : Z) (m : telegramMessage) : telegramMessage :=
  mkMessage (text m) (chat_id m) (chat_title m) (from_id m) (from_name m)
    (date m) (type m) (file_caption m) (file_path m) (file_name m)
    (hasDocument m) (file_size m) (longitude m) (latitude m) v (message_id
    m) (reply_to_message_id m) (reply_to_text m) (query_id m)
    (contact_phone_number m) (contact_name m) (contact_id m).
Definition set_message_id (v : Z) (m : telegramMessage) : telegramMessage :=
  mkMessage (text m) (chat_id m) (chat_title m) (from_id m) (from_name m)
    (date m) (type m) (file_caption m) (file_path m) (file_name m)
    (hasDocument m) (file_size m) (longitude m) (latitude m) (update_id m) v
    (reply_to_message_id m) (reply_to_text m) (query_id m)
    (contact_phone_number m) (contact_name m) (contact_id m).
Definition set_reply_to_message_id (v : Z) (m : telegramMessage) : telegramMessage :=
  mkMessage (text m) (chat_id m) (chat_title m) (from_id m) (from_name m)
    (date m) (type m) (file_caption m) (file_path m) (file_name m)
    (hasDocument m) (file_size m) (longitude m) (latitude m) (update_id m)
    (message_id m) v (reply_to_text m) (query_id m) (contact_phone_number m)
    (contact_name m) (contact_id m).
Definition set_reply_to_text (v : string) (m : telegramMessage) : telegramMessage :=
  mkMessage (text m) (chat_id m) (chat_title m) (from_id m) (from_name m)
    (date m) (type m) (file_caption m) (file_path m) (file_name m)
    (hasDocument m) (file_size m) (longitude m) (latitude m) (update_id m)
    (message_id m) (reply_to_message_id m) v (query_id m)
    (contact_phone_number m) (contact_name m) (contact_id m).
Definition set_query_id (v : string) (m : telegramMessage) : telegramMessage :=
  mkMessage (text m) (chat_id m) (chat_title m) (from_id m) (from_name m)
    (date m) (type m) (file_caption m) (file_path m) (file_name m)
    (hasDocument m) (file_size m) (longitude m) (latitude m) (update_id m)
    (message_id m) (reply_to_message_id m) (reply_to_text m) v
    (contact_phone_number m) (contact_name m) (contact_id m).
Definition set_contact_phone_number (v : string) (m : telegramMessage) : telegramMessage :=
  mkMessage (text m) (chat_id m) (chat_title m) (from_id m) (from_name m)
    (date m) (type m) (file_caption m) (file_path m) (file_name m)
    (hasDocument m) (file_size m) (longitude m) (latitude m) (update_id m)
    (message_id m) (reply_to_message_id m) (reply_to_text m) (query_id m) v
    (contact_name m) (contact_id m).
Definition set_contact_name (v : string) (m : telegramMessage) : telegramMessage :=
  mkMessage (text m) (chat_id m) (chat_title m) (from_id m) (from_name m)
    (date m) (type m) (file_caption m) (file_path m) (file_name m)
    (hasDocument m) (file_size m) (longitude m) (latitude m) (update_id m)
    (message_id m) (reply_to_message_id m) (reply_to_text m) (query_id m)
    (contact_phone_number m) v (contact_id m).
Definition set_contact_id (v : string) (m : telegramMessage) : telegramMessage :=
  mkMessage (text m) (chat_id m) (chat_title m) (from_id m) (from_name m)
    (date m) (type m) (file_caption m) (file_path m) (file_name m)
    (hasDocument m) (file_size m) (longitude m) (latitude m) (update_id m)
    (message_id m) (reply_to_message_id m) (reply_to_text m) (query_id m)
    (contact_phone_number m) (contact_name m) v.

(** [stack_junk] is the indeterminate content of the automatic array
    [updateId] of [getUpdateIdFromResponse], by offset. The capacity of
    [messages] is the length of the list ([HANDLE_MESSAGES] in the header).
    [longPoll] and [waitForResponse] set the deadline of [readHTTPAnswer],
    which the schedule of the transport decides here; [longPoll] is also
    part of the request of [getUpdates]. *)
Record Bot : Type := mkBot {
  client : Client;
  _token : string;
  maxMessageLength : Z;
  longPoll : Z;
  waitForResponse : Z;
  last_message_received : Z;
  messages : list telegramMessage;
  last_sent_message_id : Z;
  stack_junk : nat -> ascii
}.

Definition set_client (c : Client) (b : Bot) : Bot :=
  mkBot c (_token b) (maxMessageLength b) (longPoll b) (waitForResponse b)
        (last_message_received b) (messages b) (last_sent_message_id b)
        (stack_junk b).

Definition set_last_message_received (v : Z) (b : Bot) : Bot :=
  mkBot (client b) (_token b) (maxMessageLength b) (longPoll b)
        (waitForResponse b) v (messages b) (last_sent_message_id b)
        (stack_junk b).

Definition set_messages (v : list telegramMessage) (b : Bot) : Bot :=
  mkBot (client b) (_token b) (maxMessageLength b) (longPoll b)
        (waitForResponse b) (last_message_received b) v
        (last_sent_message_id b) (stack_junk b).

Definition set_last_sent_message_id (v : Z) (b : Bot) : Bot :=
  mkBot (client b) (_token b) (maxMessageLength b) (longPoll b)
        (waitForResponse b) (last_message_received b) (messages b) v
        (stack_junk b).

(** [b'] is [b] with another state of the transport. *)
Definition only_client (b b' : Bot) : Prop := exists c, b' = set_client c b.

(** ** The request/response engine *)

(** [buildCommand] (lines 55-64); [BOT_CMD(STR)] is [buildCommand(F(STR))]. *)
Definition buildCommand (b : Bot) (cmd : string) : string :=
  "bot" +:+ _token b +:+ "/" +:+ cmd.

(** [closeClient] (lines 860-867). *)
Definition closeClient (b : Bot) : Bot :=
  if connected (client b) then set_client (ClientOps.stop (client b)) b else b.

(** Lines 70-79, 166-175 and 221-230: connect unless connected. *)
Definition ensure_connection (b : Bot) : Bot :=
  if connected (client b) then b
  else set_client (snd (ClientOps.connect (client b))) b.

(** The exchange once the request is written: [readHTTPAnswer(body)] on a
    fresh [body]. *)
Definition exchange (request : list string) (b : Bot) : string * Bot :=
  let c := ClientOps.write_all request (client b) in
  let '(_, answer, c') := readHTTPAnswer (maxMessageLength b) EmptyString c in
  (answer, set_client c' b).

(** [sendGetToTelegram] (lines 66-98). *)
Definition sendGetToTelegram (command : string) (b : Bot) : string * Bot :=
  let b1 := ensure_connection b in
  if connected (client b1) then
    exchange (ClientOps.print "GET /"
              ++ ClientOps.print command
              ++ ClientOps.println " HTTP/1.1"
              ++ ClientOps.println ("Host:" +:+ TELEGRAM_HOST)
              ++ ClientOps.println "Accept: application/json"
              ++ ClientOps.println "Cache-Control: no-cache"
              ++ ClientOps.println0) b1
  else (EmptyString, b1).

(** [sendPostToTelegram] (lines 161-206). *)
Definition sendPostToTelegram (command : string) (payload : Json) (b : Bot)
  : string * Bot :=
  let b1 := ensure_connection b in
  if connected (client b1) then
    let length := measureJson payload in
    let out := serializeJson payload in
    exchange (ClientOps.print "POST /"
              ++ ClientOps.print command
              ++ ClientOps.println " HTTP/1.1"
              ++ ClientOps.println ("Host:" +:+ TELEGRAM_HOST)
              ++ ClientOps.println "Content-Type: application/json"
              ++ ClientOps.print "Content-Length:"
              ++ ClientOps.println (WString.of_Z length)
              ++ ClientOps.println0
              ++ ClientOps.println out) b1
  else (EmptyString, b1).

(** The data source of an upload: what the callbacks hand out until
    [moreDataAvailableCallback] answers false, byte by byte
    ([getNextByteCallback] given) or buffer by buffer. *)
Inductive DataSource : Type :=
| ByByte (bytes : list ascii)
| ByBuffer (chunks : list string).

Definition DQ : string := String "034"%char EmptyString.

Definition boundary : string := "------------------------b8f610217e83e29b".

(** Lines 289-309: single bytes are gathered in a block of 512 bytes that is
    written when full; what remains is written after the loop. [buffer]
    holds the [count] bytes gathered so far. *)
Fixpoint send_by_byte (bytes buffer : list ascii) : list string :=
  match bytes with
  | [] => if (0 <? length buffer)%nat then [string_of_list_ascii buffer] else []
  | x :: rest =>
      let buffer' := buffer ++ [x] in
      if (length buffer' =? 512)%nat
      then string_of_list_ascii buffer' :: send_by_byte rest []
      else send_by_byte rest buffer'
  end.

Definition send_data (src : DataSource) : list string :=
  match src with
  | ByBuffer chunks => chunks
  | ByByte bytes => send_by_byte bytes []
  end.

(** [sendMultipartFormDataToTelegram] (lines 208-322). *)
Definition sendMultipartFormDataToTelegram
    (command binaryPropertyName fileName contentType chat_id : string)
    (fileSize : Z) (src : DataSource) (b : Bot) : string * Bot :=
  let b1 := ensure_connection b in
  let '(answer, b2) :=
    if connected (client b1) then
      let start_request :=
        "--" +:+ boundary
        +:+ WString.CRLF +:+ "content-disposition: form-data; name=" +:+ DQ
        +:+ "chat_id" +:+ DQ +:+ WString.CRLF +:+ WString.CRLF
        +:+ chat_id
        +:+ WString.CRLF +:+ "--" +:+ boundary
        +:+ WString.CRLF +:+ "content-disposition: form-data; name=" +:+ DQ
        +:+ binaryPropertyName
        +:+ DQ +:+ "; filename=" +:+ DQ
        +:+ fileName
        +:+ DQ +:+ WString.CRLF +:+ "Content-Type: "
        +:+ contentType
        +:+ WString.CRLF +:+ WString.CRLF in
      let end_request :=
        WString.CRLF +:+ "--" +:+ boundary +:+ "--" +:+ WString.CRLF in
      let contentLength :=
        WString.wrap_long (fileSize + Z.of_nat (String.length start_request)
                           + Z.of_nat (String.length end_request)) in
      exchange (ClientOps.print "POST /"
                ++ ClientOps.print (buildCommand b1 command)
                ++ ClientOps.println " HTTP/1.1"
                ++ ClientOps.println ("Host: " +:+ TELEGRAM_HOST)
                ++ ClientOps.println "User-Agent: arduino/1.0"
                ++ ClientOps.println "Accept: */*"
                ++ ClientOps.print "Content-Length: "
                ++ ClientOps.println (WString.of_Z contentLength)
                ++ ClientOps.print "Content-Type: multipart/form-data; boundary="
                ++ ClientOps.println boundary
                ++ ClientOps.println0
                ++ ClientOps.print start_request
                ++ send_data src
                ++ ClientOps.print end_request) b1
    else (EmptyString, b1) in
  (answer, closeClient b2).

(** The value of a fresh [doc] after [deserializeJson(doc, input)] for a
    caller that does not look at the error: the parsed value, or what was
    read before the error; on the empty text nothing was read. *)
Definition document_of (input : string) : Json :=
  match deserializeJson input with
  | Some doc => doc
  | None =>
      if String.eqb input EmptyString then JNull
      else deserializeJson_partial input
  end.

(** [checkForOkResponse] (lines 817-827). The error that [deserializeJson]
    returns is dropped (line 820): [doc] is read as the parser left it. *)
Definition checkForOkResponse (response : string) (b : Bot) : bool * Bot :=
  let doc := document_of response in
  let last_id :=
    as_int (JsonOps.member (JsonOps.member doc "result") "message_id") in
  let b' := if 0 <? last_id then set_last_sent_message_id last_id b else b in
  (JsonOps.as_bool_or_false (JsonOps.member doc "ok"), b').

(** [getFile] (lines 869-887): the path and the size written through the
    two references on success, nothing written otherwise. *)
Definition getFile (file_id : string) (b : Bot) : option (string * Z) * Bot :=
  let command := buildCommand b "getFile?file_id=" +:+ file_id in
  let (response, b1) := sendGetToTelegram command b in
  let b2 := closeClient b1 in
  match deserializeJson response with
  | Some doc =>
      if JsonOps.containsKey doc "result" then
        let result := JsonOps.member doc "result" in
        (Some ("https://api.telegram.org/file/"
               +:+ buildCommand b2 (as_String (JsonOps.member result "file_path")),
               as_long (JsonOps.member result "file_size")), b2)
      else (None, b2)
  | None => (None, b2)
  end.

(** [deleteMessage] (lines 633-661). *)
Definition deleteMessage (chat_id : string) (message_id : Z) (b : Bot)
  : bool * Bot :=
  if message_id =? 0 then (false, b)
  else
    let payload := JObj [("chat_id", JStr chat_id); ("message_id", JInt message_id)] in
    let (response, b1) :=
      sendPostToTelegram (buildCommand b "deleteMessage") payload b in
    let (sent, b2) := checkForOkResponse response b1 in
    (sent, closeClient b2).

(** ** The update processor *)

(** A run of assignments to the fields of one record, in source order. *)
Definition assign (fs : list (telegramMessage -> telegramMessage))
    (m : telegramMessage) : telegramMessage :=
  fold_left (fun m f => f m) fs m.

(** Lines 479-490. *)
Definition reset_slot (uid : Z) : list (telegramMessage -> telegramMessage) :=
  [ set_update_id uid;
    set_text EmptyString;
    set_from_id EmptyString;
    set_from_name EmptyString;
    set_longitude float_zero;
    set_latitude float_zero;
    set_reply_to_message_id 0;
    set_reply_to_text EmptyString;
    set_query_id EmptyString;
    set_contact_phone_number EmptyString;
    set_contact_name EmptyString;
    set_contact_id EmptyString ].

Definition str_at (v : Json) (k1 k2 : string) : string :=
  as_String (JsonOps.member (JsonOps.member v k1) k2).

(** Lines 493-525: the [message] branch. The [document] sub-key fetches the
    file's metadata with [getFile] before the record is complete. *)
Definition decode_message (message : Json) (m : telegramMessage) (b : Bot)
  : telegramMessage * Bot :=
  let m := assign
    [ set_type "message";
      set_from_id (str_at message "from" "id");
      set_from_name (str_at message "from" "first_name");
      set_date (as_String (JsonOps.member message "date"));
      set_chat_id (str_at message "chat" "id");
      set_chat_title (str_at message "chat" "title");
      set_hasDocument false;
      set_message_id (as_int (JsonOps.member message "message_id")) ] m in
  let '(m, b) :=
    if JsonOps.containsKey message "text" then
      (set_text (as_String (JsonOps.member message "text")) m, b)
    else if JsonOps.containsKey message "location" then
      let location := JsonOps.member message "location" in
      (assign [ set_longitude (as_float (JsonOps.member location "longitude"));
                set_latitude (as_float (JsonOps.member location "latitude")) ] m,
       b)
    else if JsonOps.containsKey message "document" then
      let file_id := str_at message "document" "file_id" in
      let m := assign
        [ set_file_caption (as_String (JsonOps.member message "caption"));
          set_file_name (str_at message "document" "file_name") ] m in
      match getFile file_id b with
      | (Some (path, size), b') =>
          (assign [ set_file_path path; set_file_size size;
                    set_hasDocument true ] m, b')
      | (None, b') => (set_hasDocument false m, b')
      end
    else if JsonOps.containsKey message "contact" then
      (assign
         [ set_contact_phone_number (str_at message "contact" "phone_number");
           set_contact_name (str_at message "contact" "first_name");
           set_contact_id (str_at message "contact" "user_id") ] m, b)
    else (m, b) in
  let m :=
    if JsonOps.containsKey message "reply_to_message" then
      let reply := JsonOps.member message "reply_to_message" in
      assign [ set_reply_to_message_id (as_int (JsonOps.member reply "message_id"));
               set_reply_to_text (as_String (JsonOps.member reply "text")) ] m
    else m in
  (m, b).

(** Lines 528-534. *)
Definition decode_channel_post (message : Json) : list (telegramMessage -> telegramMessage) :=
  [ set_type "channel_post";
    set_text (as_String (JsonOps.member message "text"));
    set_date (as_String (JsonOps.member message "date"));
    set_chat_id (str_at message "chat" "id");
    set_chat_title (str_at message "chat" "title");
    set_message_id (as_int (JsonOps.member message "message_id")) ].

(** Lines 537-547. *)
Definition decode_callback_query (message : Json) : list (telegramMessage -> telegramMessage) :=
  let original := JsonOps.member message "message" in
  [ set_type "callback_query";
    set_from_id (str_at message "from" "id");
    set_from_name (str_at message "from" "first_name");
    set_text (as_String (JsonOps.member message "data"));
    set_date (as_String (JsonOps.member message "date"));
    set_chat_id (str_at original "chat" "id");
    set_reply_to_text (as_String (JsonOps.member original "text"));
    set_chat_title EmptyString;
    set_query_id (as_String (JsonOps.member message "id"));
    set_message_id (as_int (JsonOps.member original "message_id")) ].

(** Lines 550-565. *)
Definition decode_edited_message (message : Json) (m : telegramMessage)
  : telegramMessage :=
  let m := assign
    [ set_type "edited_message";
      set_from_id (str_at message "from" "id");
      set_from_name (str_at message "from" "first_name");
      set_date (as_String (JsonOps.member message "date"));
      set_chat_id (str_at message "chat" "id");
      set_chat_title (str_at message "chat" "title");
      set_message_id (as_int (JsonOps.member message "message_id")) ] m in
  if JsonOps.containsKey message "text" then
    set_text (as_String (JsonOps.member message "text")) m
  else if JsonOps.containsKey message "location" then
    let location := JsonOps.member message "location" in
    assign [ set_longitude (as_float (JsonOps.member location "longitude"));
             set_latitude (as_float (JsonOps.member location "latitude")) ] m
  else m.

(** Lines 492-566: the dispatch on the key of the element, first match
    first. *)
Definition decode (result : Json) (m : telegramMessage) (b : Bot)
  : telegramMessage * Bot :=
  if JsonOps.containsKey result "message" then
    decode_message (JsonOps.member result "message") m b
  else if JsonOps.containsKey result "channel_post" then
    (assign (decode_channel_post (JsonOps.member result "channel_post")) m, b)
  else if JsonOps.containsKey result "callback_query" then
    (assign (decode_callback_query (JsonOps.member result "callback_query")) m, b)
  else if JsonOps.containsKey result "edited_message" then
    (decode_edited_message (JsonOps.member result "edited_message") m, b)
  else (m, b).

Definition update_id_of (result : Json) : Z :=
  as_long (JsonOps.member result "update_id").

(** [processResult] (lines 474-570). [None]: [messageIndex] lies beyond the
    array [messages], where the writes of the source are undefined. *)
Definition processResult (result : Json) (messageIndex : nat) (b : Bot)
  : option (bool * Bot) :=
  let uid := update_id_of result in
  if negb (last_message_received b =? uid) then
    let b := set_last_message_received uid b in
    match messages b !! messageIndex with
    | None => None
    | Some slot =>
        let '(m, b) := decode result (assign (reset_slot uid) slot) b in
        Some (true, set_messages (<[messageIndex := m]> (messages b)) b)
    end
  else Some (false, b).

(** [getUpdateIdFromResponse] (lines 909-933). The array [updateId] has 20
    elements and is not initialised; each run of digits met after the
    position of the scan is copied to its start. [None]: a run longer than
    the array, or an [atol] that runs through the whole array. *)
Definition updateId_size : nat := 20.

Definition store (buf : nat -> ascii) (i : nat) (c : ascii) : nat -> ascii :=
  fun j => if (j =? i)%nat then c else buf j.

(** The scan with [str] standing on the characters [s], inside the inner
    loop at index [i]. *)
Fixpoint scan_digits (s : list ascii) (i : nat) (buf : nat -> ascii)
  : option (nat -> ascii) :=
  match s with
  | [] => Some buf
  | c :: rest =>
      if WString.is_digit c then
        if (i <? updateId_size)%nat then scan_digits rest (S i) (store buf i c)
        else None
      else if Ascii.eqb c WString.CR then Some buf
      else scan_digits rest 0 buf
  end.

Definition scan_updateId (s : list ascii) (buf : nat -> ascii)
  : option (nat -> ascii) :=
  match s with
  | [] => Some buf
  | c :: rest =>
      if Ascii.eqb c WString.CR then Some buf else scan_digits rest 0 buf
  end.

Definition getUpdateIdFromResponse (junk : nat -> ascii) (response : string)
  : option Z :=
  let response :=
    WString.remove_from response
      (WString.indexOf response (String WString.LF EmptyString) 0) in
  match scan_updateId (list_ascii_of_string response) junk with
  | None => None
  | Some updateId => WString.atol_area (map updateId (seq 0 updateId_size))
  end.

(** The loop of lines 424-427. *)
Fixpoint process_results (results : list Json) (newMessageIndex : nat) (b : Bot)
  : option (nat * Bot) :=
  match results with
  | [] => Some (newMessageIndex, b)
  | result :: rest =>
      match processResult result newMessageIndex b with
      | None => None
      | Some (true, b') => process_results rest (S newMessageIndex) b'
      | Some (false, b') => process_results rest newMessageIndex b'
      end
  end.

(** Lines 383-391. *)
Definition getUpdates_command (offset : Z) (b : Bot) : string :=
  buildCommand b "getUpdates?offset=" +:+ WString.of_Z offset
  +:+ "&limit=" +:+ WString.of_Z (Z.of_nat HANDLE_MESSAGES)
  +:+ (if 0 <? longPoll b then "&timeout=" +:+ WString.of_Z (longPoll b)
       else EmptyString).

(** [(unsigned) maxMessageLength]. *)
Definition as_unsigned (z : Z) : Z := z mod 4294967296.

(** [getUpdates] (lines 378-472). The function calls itself on a response
    that fills the buffer and does not parse; [fuel] bounds the depth of
    these calls. *)
Fixpoint getUpdates_fuel (fuel : nat) (offset : Z) (b : Bot)
  : option (nat * Bot) :=
  match fuel with
  | O => None
  | S fuel' =>
      let (response, b1) := sendGetToTelegram (getUpdates_command offset b) b in
      match getUpdateIdFromResponse (stack_junk b1) response with
      | None => None
      | Some updateId =>
          if String.eqb response EmptyString then Some (O, closeClient b1)
          else
            match deserializeJson response with
            | Some doc =>
                let results := JsonOps.items (JsonOps.member doc "result") in
                if JsonOps.containsKey doc "result"
                   && (0 <? length results)%nat
                then process_results results 0 b1
                else Some (O, closeClient b1)
            | None =>
                let b2 := closeClient b1 in
                if Z.of_nat (String.length response)
                   =? as_unsigned (maxMessageLength b2)
                then getUpdates_fuel fuel' (WString.wrap_long (updateId + 1)) b2
                else Some (O, b2)
            end
      end
  end.

(** Every self-call follows a response that is not empty, for which at least
    one entry of the schedule of the transport was used up. *)
Definition getUpdates (offset : Z) (b : Bot) : option (nat * Bot) :=
  getUpdates_fuel (S (length (rx (client b)))) offset b.

End Model.

(** ** Observations on a sequence of polls *)

Section Polls.
Context {P : Platform}.

(** The single-watermark filter of [processResult] over the identifiers of
    the elements met, in order: an element is decoded when its identifier
    differs from the watermark, which then takes that identifier. *)
Fixpoint deliver (watermark : Z) (ids : list Z) : list Z :=
  match ids with
  | [] => []
  | i :: rest =>
      if watermark =? i then deliver watermark rest else i :: deliver i rest
  end.

Definition watermark_after (watermark : Z) (ids : list Z) : Z :=
  fold_left (fun _ i => i) ids watermark.

Definition maximum (first : Z) (others : list Z) : Z :=
  fold_left Z.max others first.

(** What one poll shows: the identifiers of the elements of the result
    array of its response, the count it returns, and the identifiers found
    in the first [count] records of [messages] when it returns. *)
Record poll_view : Type := mkView {
  seen : list Z;
  count : nat;
  delivered : list Z
}.

Definition ids_of (doc : Json) : list Z :=
  map update_id_of (JsonOps.items (JsonOps.member doc "result")).

(** The identifiers of the elements that a call of [getUpdates] steps
    through (lines 424-427): those of the result array of the response it
    ends up decoding, the one of a self-call included; none when it decodes
    nothing. *)
Fixpoint seen_fuel (fuel : nat) (offset : Z) (b : Bot) : list Z :=
  match fuel with
  | O => []
  | S fuel' =>
      let (response, b1) := sendGetToTelegram (getUpdates_command offset b) b in
      match getUpdateIdFromResponse (stack_junk b1) response with
      | None => []
      | Some updateId =>
          if String.eqb response EmptyString then []
          else
            match deserializeJson response with
            | Some doc => ids_of doc
            | None =>
                let b2 := closeClient b1 in
                if Z.of_nat (String.length response)
                   =? as_unsigned (maxMessageLength b2)
                then seen_fuel fuel' (WString.wrap_long (updateId + 1)) b2
                else []
            end
      end
  end.

Definition seen_by (offset : Z) (b : Bot) : list Z :=
  seen_fuel (S (length (rx (client b)))) offset b.

(** A sequence of calls of [getUpdates]; between two calls the caller may
    do anything that leaves the watermark alone (read the records, send
    replies). *)
Inductive polls : Bot -> list poll_view -> Bot -> Prop :=
| polls_done b : polls b [] b
| polls_call b offset n b2 b3 views b' :
    getUpdates offset b = Some (n, b2) ->
    last_message_received b3 = last_message_received b2 ->
    polls b3 views b' ->
    polls b (mkView (seen_by offset b) n (map update_id (take n (messages b2)))
             :: views) b'.

(** The same sequence computed, the caller doing nothing in between. *)
Fixpoint run_polls (offsets : list Z) (b : Bot) : option (list poll_view * Bot) :=
  match offsets with
  | [] => Some ([], b)
  | offset :: rest =>
      match getUpdates offset b with
      | Some (n, b2) =>
          match run_polls rest b2 with
          | Some (views, b') =>
              Some (mkView (seen_by offset b) n
                           (map update_id (take n (messages b2))) :: views, b')
          | None => None
          end
      | None => None
      end
  end.

End Polls.

(** ** Test doubles: a table-driven JSON library and small bots *)

Module Fixture.

Definition serialize (v : Json) : string :=
  match v with
  | JNull => "null"
  | JBool true => "true"
  | JBool false => "false"
  | JInt z => WString.of_Z z
  | JReal l => l
  | JStr s => DQ +:+ s +:+ DQ
  | JArr _ => "[]"
  | JObj _ => "{}"
  end.

Definition number (v : Json) : Z :=
  match v with JInt z => z | _ => 0 end.

(** A JSON library that knows the texts of [table] and fails on any
    other text, leaving a null document. *)
Definition platform (table : list (string * Json)) : Platform :=
  {| float := Z; float_zero := 0; as_float := number; as_int := number;
     as_long := number; serializeJson := serialize;
     deserializeJson := fun s => JsonOps.assoc s table;
     deserializeJson_partial := fun _ => JNull;
     TELEGRAM_HOST := "api.telegram.org"; HANDLE_MESSAGES := 3 |}.

Definition text_update (i : Z) (t : string) : Json :=
  JObj [("update_id", JInt i); ("message", JObj [("text", JStr t)])].

Definition batch (updates : list Json) : Json :=
  JObj [("ok", JBool true); ("result", JArr updates)].

(** An answer with an empty header block and the body [s]. *)
Definition answer (s : string) : tick :=
  Data (WString.LF :: list_ascii_of_string s).

Definition blank `{Platform} : telegramMessage :=
  mkMessage EmptyString EmptyString EmptyString EmptyString EmptyString
            EmptyString EmptyString EmptyString EmptyString EmptyString
            false 0 float_zero float_zero 0 0 0 EmptyString EmptyString
            EmptyString EmptyString EmptyString.

Definition zeroed : nat -> ascii := fun _ => WString.NUL.

(** A bot with three records, not connected, whose transport accepts
    every connect of a short run and delivers [sched]. *)
Definition bot_with `{Platform} (records : list telegramMessage)
    (maxLen watermark : Z) (sched : list tick) : Bot :=
  mkBot (mkClient false [true; true; true; true] sched []) "T" maxLen 0 1500
        watermark records 0 zeroed.

Definition bot `{Platform} : Z -> Z -> list tick -> Bot :=
  bot_with [blank; blank; blank].

(** The record a document message left behind. *)
Definition document_slot `{Platform} : telegramMessage :=
  assign [ set_type "message"; set_hasDocument true; set_file_name "a.pdf";
           set_file_path "https://api.telegram.org/file/botT/a.pdf";
           set_file_size 10 ] blank.

Definition channel_post_update : Json :=
  JObj [("update_id", JInt 2); ("channel_post", JObj [("text", JStr "news")])].

Definition callback_query_update : Json :=
  JObj [("update_id", JInt 9);
        ("callback_query",
         JObj [("id", JStr "q1"); ("data", JStr "pressed");
               ("message", JObj [("message_id", JInt 4);
                                 ("chat", JObj [("id", JInt 77)]);
                                 ("text", JStr "choose")])])].

(** An element that carries a [message] next to its [callback_query]. *)
Definition callback_and_message : Json :=
  JObj [("update_id", JInt 9);
        ("message", JObj [("chat", JObj [("id", JInt 11)]);
                          ("text", JStr "plain")]);
        ("callback_query",
         JObj [("id", JStr "q1"); ("data", JStr "pressed");
               ("message", JObj [("message_id", JInt 4);
                                 ("chat", JObj [("id", JInt 77)]);
                                 ("text", JStr "choose")])])].

Definition table : list (string * Json) :=
  [ ("A", batch [text_update 5 "a"]);
    ("B", batch [text_update 3 "b"]);
    ("C", batch [text_update 3 "c"; text_update 5 "d"]);
    ("D", batch [text_update 1 "e"; text_update 2 "f"]);
    ("E", batch [text_update 7 "g"; text_update 7 "h"]);
    ("F", batch [text_update 8 "i"]) ].

Definition std : Platform := platform table.

(** The bot that a run of polls leaves. *)
Definition final `{Platform} (offsets : list Z) (b : Bot) : Bot :=
  match run_polls offsets b with
  | Some (_, b') => b'
  | None => b
  end.

(** A bot whose buffer takes three characters, and an answer of three
    characters that the library does not parse. *)
Definition oversized_bot : Bot :=
  bot (H := std) 3 100 [answer "#42"].

Definition after_oversized_answer : Bot :=
  snd (sendGetToTelegram (P := std)
         (getUpdates_command (P := std) 0 oversized_bot) oversized_bot).

(** An answer with a status line, a content-length of 5 and its body. *)
Definition hello_answer : list ascii :=
  list_ascii_of_string
    ("HTTP/1.1 200 OK" +:+ WString.CRLF +:+ "Content-Length: 5" +:+ WString.CRLF
     +:+ WString.CRLF +:+ "hello").

(** An answer that announces a body of length 0 and has none. *)
Definition empty_body_answer : list ascii :=
  list_ascii_of_string
    ("HTTP/1.1 200 OK" +:+ WString.CRLF +:+ "Content-Length: 0" +:+ WString.CRLF
     +:+ WString.CRLF).

End Fixture.

(** ** The helpers built on the engine

    The loops of the helpers run while the clock shows less than 8000 ms
    since their start. As for [readHTTPAnswer] the clock is not modelled:
    [budget] is the number of times it lets the test of such a loop pass.
    Arguments that the header gives a default take it at the call. *)

(** The bytes that follow the first blank line of a byte sequence, the line
    being found as lines 114 and 142-143 find it. *)
Fixpoint body_bytes (bytes : list ascii) (blank : bool) : list ascii :=
  match bytes with
  | [] => []
  | c :: rest =>
      if blank && Ascii.eqb c WString.LF then rest
      else body_bytes rest
             (if Ascii.eqb c WString.LF then true
              else if Ascii.eqb c WString.CR then blank else false)
  end.

(** *** readHTTPAnswer in the words of the specification

    The reading is described over the bytes read so far, without the
    locals of the loop. *)

(** The body bytes accumulated: those behind the first blank line, up to
    [maxMessageLength] of them. *)
Definition accumulated (maxMessageLength : Z) (bytes : list ascii) : list ascii :=
  take (Z.to_nat maxMessageLength) (body_bytes bytes true).

(** The content-length found in the headers, once the blank line was met. *)
Definition found_content_length (bytes : list ascii) : option Z :=
  match Reader.header_text bytes true EmptyString with
  | Some h => Reader.content_length h
  | None => None
  end.

(** Completion: with a positive content-length found, the count of body
    bytes accumulated equals it; otherwise one body byte at least was
    accumulated. *)
Definition completion (maxMessageLength : Z) (bytes : list ascii) : bool :=
  let count := Z.of_nat (length (accumulated maxMessageLength bytes)) in
  match found_content_length bytes with
  | Some n => if 0 <? n then count =? n else 0 <? count
  | None => 0 <? count
  end.

(** Where the reading ends. Completion is tested each time the transport
    has handed out the bytes it had; the reading ends at the first test
    that holds, or at the deadline. [seen]: the bytes read before. The
    result: the bytes read in all, and what is left of the schedule. *)
Fixpoint reading (maxMessageLength : Z) (sched : list tick) (seen : list ascii)
  : list ascii * list tick :=
  match sched with
  | [] => (seen, [])
  | Deadline :: rest => (seen, rest)
  | Data bytes :: rest =>
      if completion maxMessageLength (seen ++ bytes) then (seen ++ bytes, rest)
      else reading maxMessageLength rest (seen ++ bytes)
  end.

(** [doc[k] = v] on the members of an object. *)
Fixpoint assoc_set (k : string) (v : Json) (kvs : list (string * Json))
  : list (string * Json) :=
  match kvs with
  | [] => [(k, v)]
  | (k', v') :: r =>
      if String.eqb k k' then (k, v) :: r else (k', v') :: assoc_set k v r
  end.

(** [doc[k] = v]; a document that is not an object becomes one. *)
Definition set_member (k : string) (v : Json) (doc : Json) : Json :=
  match doc with
  | JObj kvs => JObj (assoc_set k v kvs)
  | _ => JObj [(k, v)]
  end.

(** An assignment under an [if]. *)
Definition when (c : bool) (f : Json -> Json) : Json -> Json :=
  if c then f else fun doc => doc.

(** A fresh [JsonDocument] after a run of assignments, in source order. *)
Definition build (steps : list (Json -> Json)) : Json :=
  fold_left (fun doc f => f doc) steps JNull.

Definition nonempty (s : string) : bool := negb (String.eqb s EmptyString).

Section Helpers.
Context {P : Platform}.

(** [serialized(text)] of the JSON library: the value that is written as
    [text] itself. *)
Variable serialized : string -> Json.

(** [b] and [b'] agree on the fields that neither the engine nor the update
    processor assigns. *)
Definition same_settings (b b' : Bot) : Prop :=
  _token b' = _token b
  /\ maxMessageLength b' = maxMessageLength b
  /\ longPoll b' = longPoll b
  /\ waitForResponse b' = waitForResponse b
  /\ last_sent_message_id b' = last_sent_message_id b
  /\ stack_junk b' = stack_junk b.

(** The elements for which [processResult] calls [getFile] (line 512): a
    [message] with a [document] and neither [text] nor [location]. *)
Definition fetches_file (result : Json) : bool :=
  let message := JsonOps.member result "message" in
  JsonOps.containsKey result "message"
  && negb (JsonOps.containsKey message "text")
  && negb (JsonOps.containsKey message "location")
  && JsonOps.containsKey message "document".

(** [updateToken] (lines 47-49) and [getToken] (lines 51-53). *)
Definition updateToken (token : string) (b : Bot) : Bot :=
  mkBot (client b) token (maxMessageLength b) (longPoll b) (waitForResponse b)
        (last_message_received b) (messages b) (last_sent_message_id b)
        (stack_junk b).

Definition getToken (b : Bot) : string := _token b.

(** What [checkForOkResponse] reads in a response: the document as the
    parser left it, the error dropped. *)
Definition ok_of (response : string) : bool :=
  JsonOps.as_bool_or_false (JsonOps.member (document_of response) "ok").

Definition message_id_of (response : string) : Z :=
  as_int (JsonOps.member (JsonOps.member (document_of response) "result")
                         "message_id").

(** The loop shared by the helpers (lines 358-366, 586-599, 731-738,
    755-763 and 838-853): send, check the answer, leave on the first
    acknowledgement. [response] is the variable that holds the last
    answer. *)
Fixpoint send_loop (budget : nat) (attempt : Bot -> string * Bot)
    (response : string) (b : Bot) : bool * string * Bot :=
  match budget with
  | O => (false, response, b)
  | S budget' =>
      let (response', b1) := attempt b in
      let (sent, b2) := checkForOkResponse response' b1 in
      if sent then (true, response', b2)
      else send_loop budget' attempt response' b2
  end.

(** [getMe] (lines 325-340). [Some (name, userName)]: the function returns
    true and assigns the two members; [None]: it returns false and leaves
    them. *)
Definition getMe (b : Bot) : option (string * string) * Bot :=
  let (response, b1) := sendGetToTelegram (buildCommand b "getMe") b in
  let b2 := closeClient b1 in
  match deserializeJson response with
  | Some doc =>
      if JsonOps.containsKey doc "result" then
        let result := JsonOps.member doc "result" in
        (Some (as_String (JsonOps.member result "first_name"),
               as_String (JsonOps.member result "username")), b2)
      else (None, b2)
  | None => (None, b2)
  end.

(** [setMyCommands] (lines 348-370). *)
Definition setMyCommands (commandArray : string) (budget : nat) (b : Bot)
  : bool * Bot :=
  let payload := build [ set_member "commands" (serialized commandArray) ] in
  let '(sent, _, b1) :=
    send_loop budget
      (fun b => sendPostToTelegram (buildCommand b "setMyCommands") payload b)
      EmptyString b in
  (sent, closeClient b1).

(** [sendSimpleMessage] (lines 576-603). *)
Definition sendSimpleMessage (chat_id text parse_mode : string) (budget : nat)
    (b : Bot) : bool * Bot :=
  let '(sent, _, b1) :=
    if nonempty text then
      send_loop budget
        (fun b => sendGetToTelegram
                    (buildCommand b "sendMessage?chat_id=" +:+ chat_id
                     +:+ "&text=" +:+ text
                     +:+ "&parse_mode=" +:+ parse_mode) b)
        EmptyString b
    else (false, EmptyString, b) in
  (sent, closeClient b1).

(** [sendPostMessage] (lines 720-743). *)
Definition sendPostMessage (payload : Json) (edit : bool) (budget : nat)
    (b : Bot) : bool * Bot :=
  let '(sent, _, b1) :=
    if JsonOps.containsKey payload "text" then
      send_loop budget
        (fun b => sendPostToTelegram
                    (if edit then buildCommand b "editMessageText"
                     else buildCommand b "sendMessage") payload b)
        EmptyString b
    else (false, EmptyString, b) in
  (sent, closeClient b1).

(** [sendMessage] (lines 605-626); [message_id] is handed on as the [bool]
    [edit]. *)
Definition sendMessage (chat_id text parse_mode : string) (message_id : Z)
    (disable_web_page_preview disable_notification : bool) (budget : nat)
    (b : Bot) : bool * Bot :=
  let payload := build
    [ set_member "chat_id" (JStr chat_id);
      set_member "text" (JStr text);
      when (negb (message_id =? 0)) (set_member "message_id" (JInt message_id));
      when (nonempty parse_mode) (set_member "parse_mode" (JStr parse_mode));
      when disable_web_page_preview
           (set_member "disable_web_page_preview" (JBool disable_web_page_preview));
      when disable_notification
           (set_member "disable_notification" (JBool disable_notification)) ] in
  sendPostMessage payload (negb (message_id =? 0)) budget b.

(** [sendMessageWithReplyKeyboard] (lines 663-693). *)
Definition sendMessageWithReplyKeyboard (chat_id text parse_mode keyboard : string)
    (resize oneTime selective : bool) (budget : nat) (b : Bot) : bool * Bot :=
  let replyMarkup := fold_left (fun doc f => f doc)
    [ (if String.eqb keyboard EmptyString
       then set_member "remove_keyboard" (JBool true)
       else set_member "keyboard" (serialized keyboard));
      when resize (set_member "resize_keyboard" (JBool resize));
      when oneTime (set_member "one_time_keyboard" (JBool oneTime));
      when selective (set_member "selective" (JBool selective)) ] (JObj []) in
  let payload := build
    [ set_member "chat_id" (JStr chat_id);
      set_member "text" (JStr text);
      when (nonempty parse_mode) (set_member "parse_mode" (JStr parse_mode));
      set_member "reply_markup" replyMarkup ] in
  sendPostMessage payload false budget b.

(** [sendMessageWithInlineKeyboard] (lines 695-714). *)
Definition sendMessageWithInlineKeyboard (chat_id text parse_mode keyboard : string)
    (message_id : Z) (budget : nat) (b : Bot) : bool * Bot :=
  let replyMarkup := JObj [("inline_keyboard", serialized keyboard)] in
  let payload := build
    [ set_member "chat_id" (JStr chat_id);
      set_member "text" (JStr text);
      when (negb (message_id =? 0)) (set_member "message_id" (JInt message_id));
      when (nonempty parse_mode) (set_member "parse_mode" (JStr parse_mode));
      set_member "reply_markup" replyMarkup ] in
  sendPostMessage payload (negb (message_id =? 0)) budget b.

(** [sendPostPhoto] (lines 745-768): the last answer is returned. *)
Definition sendPostPhoto (payload : Json) (budget : nat) (b : Bot)
  : string * Bot :=
  let '(_, response, b1) :=
    if JsonOps.containsKey payload "photo" then
      send_loop budget
        (fun b => sendPostToTelegram (buildCommand b "sendPhoto") payload b)
        EmptyString b
    else (false, EmptyString, b) in
  (response, closeClient b1).

(** [sendPhotoByBinary] (lines 770-788). *)
Definition sendPhotoByBinary (chat_id contentType : string) (fileSize : Z)
    (src : DataSource) (b : Bot) : string * Bot :=
  sendMultipartFormDataToTelegram "sendPhoto" "photo" "img.jpg" contentType
    chat_id fileSize src b.

(** [sendPhoto] (lines 790-815). *)
Definition sendPhoto (chat_id photo caption : string) (disable_notification : bool)
    (reply_to_message_id : Z) (keyboard : string) (budget : nat) (b : Bot)
  : string * Bot :=
  let payload := build
    [ set_member "chat_id" (JStr chat_id);
      set_member "photo" (JStr photo);
      when (0 <? String.length caption)%nat (set_member "caption" (JStr caption));
      when disable_notification
           (set_member "disable_notification" (JBool disable_notification));
      when (negb (reply_to_message_id =? 0))
           (set_member "reply_to_message_id" (JInt reply_to_message_id));
      when (0 <? String.length keyboard)%nat
           (set_member "reply_markup" (JObj [("keyboard", serialized keyboard)])) ] in
  sendPostPhoto payload budget b.

(** [sendChatAction] (lines 829-858). *)
Definition sendChatAction (chat_id text : string) (budget : nat) (b : Bot)
  : bool * Bot :=
  let '(sent, _, b1) :=
    if nonempty text then
      send_loop budget
        (fun b => sendGetToTelegram
                    (buildCommand b "sendChatAction?chat_id=" +:+ chat_id
                     +:+ "&action=" +:+ text) b)
        EmptyString b
    else (false, EmptyString, b) in
  (sent, closeClient b1).

(** [answerCallbackQuery] (lines 889-907). *)
Definition answerCallbackQuery (query_id text : string) (show_alert : bool)
    (url : string) (cache_time : Z) (b : Bot) : bool * Bot :=
  let payload := build
    [ set_member "callback_query_id" (JStr query_id);
      set_member "show_alert" (JBool show_alert);
      set_member "cache_time" (JInt cache_time);
      when (0 <? String.length text)%nat (set_member "text" (JStr text));
      when (0 <? String.length url)%nat (set_member "url" (JStr url)) ] in
  let (response, b1) :=
    sendPostToTelegram (buildCommand b "answerCallbackQuery") payload b in
  let (answer, b2) := checkForOkResponse response b1 in
  (answer, closeClient b2).

End Helpers.

(** ** One answer per burst

    The requests that [sendGetToTelegram] and [sendPostToTelegram] write
    once connected, and what [readHTTPAnswer] makes of an answer that
    arrives in one burst. *)

Section Requests.
Context {P : Platform}.

(** Lines 81-91. *)
Definition get_request (command : string) : list string :=
  ClientOps.print "GET /"
  ++ ClientOps.print command
  ++ ClientOps.println " HTTP/1.1"
  ++ ClientOps.println ("Host:" +:+ TELEGRAM_HOST)
  ++ ClientOps.println "Accept: application/json"
  ++ ClientOps.println "Cache-Control: no-cache"
  ++ ClientOps.println0.

(** Lines 177-199. *)
Definition post_request (command : string) (payload : Json) : list string :=
  ClientOps.print "POST /"
  ++ ClientOps.print command
  ++ ClientOps.println " HTTP/1.1"
  ++ ClientOps.println ("Host:" +:+ TELEGRAM_HOST)
  ++ ClientOps.println "Content-Type: application/json"
  ++ ClientOps.print "Content-Length:"
  ++ ClientOps.println (WString.of_Z (measureJson payload))
  ++ ClientOps.println0
  ++ ClientOps.println (serializeJson payload).

(** The body that [readHTTPAnswer], given an empty [body], returns when the
    bytes of one burst complete the answer; [None] when after them it would
    go on reading. *)
Definition burst_response (maxMessageLength : Z) (bytes : list ascii)
  : option string :=
  let r := Reader.feed maxMessageLength bytes (Reader.init EmptyString) in
  if responseReceived r then Some (body r) else None.

(** A burst that completes an answer which [checkForOkResponse] takes,
    or does not take, as an acknowledgement: by the [ok] of the document
    that the parser leaves, whether the text parsed or not. *)
Definition acknowledges (maxMessageLength : Z) (bytes : list ascii) : bool :=
  match burst_response maxMessageLength bytes with
  | Some response => ok_of response
  | None => false
  end.

Definition declines (maxMessageLength : Z) (bytes : list ascii) : bool :=
  match burst_response maxMessageLength bytes with
  | Some response => negb (ok_of response)
  | None => false
  end.

(** The payload of [sendMessage] (lines 609-623). *)
Definition sendMessage_payload (chat_id text parse_mode : string) (message_id : Z)
    (disable_web_page_preview disable_notification : bool) : Json :=
  build
    [ set_member "chat_id" (JStr chat_id);
      set_member "text" (JStr text);
      when (negb (message_id =? 0)) (set_member "message_id" (JInt message_id));
      when (nonempty parse_mode) (set_member "parse_mode" (JStr parse_mode));
      when disable_web_page_preview
           (set_member "disable_web_page_preview" (JBool disable_web_page_preview));
      when disable_notification
           (set_member "disable_notification" (JBool disable_notification)) ].

(** The payload of [sendPhoto] (lines 796-812). *)
Definition sendPhoto_payload (serialized : string -> Json)
    (chat_id photo caption : string) (disable_notification : bool)
    (reply_to_message_id : Z) (keyboard : string) : Json :=
  build
    [ set_member "chat_id" (JStr chat_id);
      set_member "photo" (JStr photo);
      when (0 <? String.length caption)%nat (set_member "caption" (JStr caption));
      when disable_notification
           (set_member "disable_notification" (JBool disable_notification));
      when (negb (reply_to_message_id =? 0))
           (set_member "reply_to_message_id" (JInt reply_to_message_id));
      when (0 <? String.length keyboard)%nat
           (set_member "reply_markup" (JObj [("keyboard", serialized keyboard)])) ].

End Requests.

(** ** More test doubles: answers to the helpers and other kinds of update *)

Module Scenario.

Definition acknowledgement : Json :=
  JObj [("ok", JBool true); ("result", JObj [("message_id", JInt 12)])].

Definition refusal : Json := JObj [("ok", JBool false)].

Definition file_answer : Json :=
  JObj [("ok", JBool true);
        ("result", JObj [("file_path", JStr "docs/a.pdf"); ("file_size", JInt 10)])].

Definition me_answer : Json :=
  JObj [("ok", JBool true);
        ("result", JObj [("first_name", JStr "Rover"); ("username", JStr "rover_bot")])].

Definition four_updates : Json :=
  Fixture.batch [ Fixture.text_update 1 "a"; Fixture.text_update 2 "b";
                  Fixture.text_update 3 "c"; Fixture.text_update 4 "d" ].

Definition table : list (string * Json) :=
  [ ("ok", acknowledgement); ("no", refusal); ("file", file_answer);
    ("me", me_answer); ("four", four_updates);
    ("A", Fixture.batch [Fixture.text_update 5 "a"]) ].

(** What the parser had read of an acknowledgement when the text ended. *)
Definition cut_acknowledgement : Json :=
  JObj [("ok", JBool true); ("result", JObj [("message_id", JInt 42)])].

(** A JSON library that knows the texts of [table], fails on any other
    text, and on the text [cut] leaves what it had read. *)
Definition std : Platform :=
  {| float := Z; float_zero := 0; as_float := Fixture.number;
     as_int := Fixture.number; as_long := Fixture.number;
     serializeJson := Fixture.serialize;
     deserializeJson := fun s => JsonOps.assoc s table;
     deserializeJson_partial :=
       fun s => default JNull (JsonOps.assoc s [("cut", cut_acknowledgement)]);
     TELEGRAM_HOST := "api.telegram.org"; HANDLE_MESSAGES := 3 |}.

(** [serialized(text)] kept as the raw text. *)
Definition raw (text : string) : Json := JReal text.

(** A bot whose transport answers with the given texts, one burst each. *)
Definition bot (answers : list string) : Bot :=
  Fixture.bot (H := std) 1500 0 (map Fixture.answer answers).

(** A bot whose transport refuses every connect. *)
Definition offline_bot : Bot :=
  set_client (mkClient false [false; false; false] [] [])
             (Fixture.bot (H := std) 1500 0 []).

(** The bot that a poll at offset 0 leaves. *)
Definition after_poll (b : Bot) : Bot :=
  match getUpdates (P := std) 0 b with
  | Some (_, b') => b'
  | None => b
  end.

(** A connected transport that delivers [hello_answer], then times out. *)
Definition hello_client : Client :=
  mkClient true [] [Data Fixture.hello_answer; Deadline] [].

(** The header block of [hello_answer] as [readHTTPAnswer] collects it. *)
Definition hello_headers : string :=
  "HTTP/1.1 200 OK" +:+ WString.CRLF +:+ "Content-Length: 5" +:+ WString.CRLF
  +:+ String WString.CR EmptyString.

(** An element of a kind that the dispatch does not know. *)
Definition poll_update : Json :=
  JObj [("update_id", JInt 3); ("poll", JObj [("id", JStr "p1")])].

Definition edited_update : Json :=
  JObj [("update_id", JInt 4);
        ("edited_message",
         JObj [("message_id", JInt 40); ("from", JObj [("id", JInt 7)]);
               ("chat", JObj [("id", JInt 70)]); ("text", JStr "fixed")])].

Definition location_update : Json :=
  JObj [("update_id", JInt 6);
        ("message",
         JObj [("message_id", JInt 60);
               ("from", JObj [("id", JInt 7); ("first_name", JStr "Ann")]);
               ("chat", JObj [("id", JInt 70)]);
               ("location", JObj [("longitude", JInt 13); ("latitude", JInt 52)])])].

Definition document_update : Json :=
  JObj [("update_id", JInt 8);
        ("message",
         JObj [("message_id", JInt 80); ("caption", JStr "report");
               ("document", JObj [("file_id", JStr "F1"); ("file_name", JStr "a.pdf")])])].

(** A run of 21 digits. *)
Definition long_run : list ascii := replicate 21 "1"%char.

End Scenario.

(** * Properties *)

(** ** Strings *)

Lemma length_append (s1 s2 : string) :
  String.length (s1 +:+ s2) = (String.length s1 + String.length s2)%nat.
Proof. induction s1 as [|c s1 IH]; simpl; [reflexivity | now rewrite IH]. Qed.

Lemma length_push (s : string) (c : ascii) :
  String.length (WString.push s c) = S (String.length s).
Proof. unfold WString.push. rewrite length_append. simpl. lia. Qed.

Lemma string_eqb_empty (s : string) :
  String.eqb s EmptyString = false <-> s <> EmptyString.
Proof. destruct s; simpl; split; congruence. Qed.

(** ** The reader *)

Section ReaderFacts.
Variable maxLen : Z.
Variable len0 : nat.

Lemma reader_inv_init (body0 : string) :
  String.length body0 = len0 -> reader_inv maxLen len0 (Reader.init body0).
Proof. intros <-. constructor; simpl; auto; lia. Qed.

Lemma reader_inv_char (r : reader) (c : ascii) :
  reader_inv maxLen len0 r -> reader_inv maxLen len0 (Reader.read_char maxLen r c).
Proof.
  intros [Hb Hl Hh Hf Hhd]. unfold Reader.read_char.
  destruct (finishedHeaders r) eqn:Hfin; simpl.
  - destruct (ch_count r <? maxLen) eqn:Hlt; simpl.
    + apply Z.ltb_lt in Hlt. constructor; simpl.
      * rewrite length_push. lia.
      * lia.
      * right; lia.
      * destruct (0 <? toRead r); [reflexivity|].
        symmetry. apply Z.ltb_lt. lia.
      * discriminate.
    + constructor; simpl; auto. congruence.
  - specialize (Hhd eq_refl).
    assert (Hoff : responseReceived r = false).
    { rewrite Hf, Hhd. destruct (0 <? toRead r) eqn:E; [|reflexivity].
      apply Z.ltb_lt in E. apply Z.eqb_neq. lia. }
    destruct (currentLineIsBlank r && Ascii.eqb c WString.LF); simpl.
    + destruct (Reader.content_length (headers r)) as [n|]; simpl.
      * constructor; simpl; auto; try lia.
        rewrite Hoff, Hhd. destruct (0 <? n) eqn:E; [|reflexivity].
        apply Z.ltb_lt in E. symmetry. apply Z.eqb_neq. lia.
      * constructor; simpl; auto.
    + constructor; simpl; auto.
Qed.

Lemma reader_inv_feed (bytes : list ascii) (r : reader) :
  reader_inv maxLen len0 r -> reader_inv maxLen len0 (Reader.feed maxLen bytes r).
Proof.
  revert r. induction bytes as [|c bytes IH]; intros r Hr; simpl; [exact Hr|].
  apply IH, reader_inv_char, Hr.
Qed.

(** Once the blank line is behind, the value parsed stays. *)
Lemma feed_body (bytes : list ascii) (r : reader) :
  finishedHeaders r = true ->
  finishedHeaders (Reader.feed maxLen bytes r) = true
  /\ toRead (Reader.feed maxLen bytes r) = toRead r.
Proof.
  revert r. induction bytes as [|c bytes IH]; intros r Hfin; simpl; [auto|].
  assert (Hstep : finishedHeaders (Reader.read_char maxLen r c) = true
                  /\ toRead (Reader.read_char maxLen r c) = toRead r).
  { unfold Reader.read_char. rewrite Hfin. simpl.
    destruct (ch_count r <? maxLen); simpl; auto. }
  destruct Hstep as [H1 H2]. destruct (IH _ H1) as [H3 H4].
  split; [exact H3 | congruence].
Qed.

(** [toRead] is the value of the content-length of the header text, 0 when
    the text has none or no blank line was met. *)
Lemma feed_headers (bytes : list ascii) (r : reader) :
  finishedHeaders r = false -> toRead r = 0 ->
  match Reader.header_text bytes (currentLineIsBlank r) (headers r) with
  | Some h =>
      finishedHeaders (Reader.feed maxLen bytes r) = true
      /\ toRead (Reader.feed maxLen bytes r) = default 0 (Reader.content_length h)
  | None =>
      finishedHeaders (Reader.feed maxLen bytes r) = false
      /\ toRead (Reader.feed maxLen bytes r) = 0
  end.
Proof.
  revert r. induction bytes as [|c bytes IH]; intros r Hfin Hto; simpl; [auto|].
  destruct (currentLineIsBlank r && Ascii.eqb c WString.LF) eqn:Hend.
  - assert (Hstep : finishedHeaders (Reader.read_char maxLen r c) = true
                    /\ toRead (Reader.read_char maxLen r c)
                       = default 0 (Reader.content_length (headers r))).
    { unfold Reader.read_char. rewrite Hfin, Hend. simpl.
      destruct (Reader.content_length (headers r)); simpl; auto. }
    destruct Hstep as [H1 H2]. destruct (feed_body bytes _ H1) as [H3 H4].
    split; [exact H3 | congruence].
  - specialize (IH (Reader.read_char maxLen r c)).
    unfold Reader.read_char in IH at 1 2 3 4. rewrite Hfin, Hend in IH.
    simpl in IH. apply IH; auto.
Qed.

(** The loop feeds a prefix of the bytes of the schedule and leaves the
    rest. *)
Lemma loop_feed (sched : list tick) (r : reader) :
  exists bytes,
    fst (Reader.loop maxLen sched r) = Reader.feed maxLen bytes r
    /\ Reader.flatten sched
       = bytes ++ Reader.flatten (snd (Reader.loop maxLen sched r)).
Proof.
  revert r. induction sched as [|t sched IH]; intros r.
  - exists []. split; reflexivity.
  - destruct t as [bytes|]; simpl.
    + destruct (responseReceived (Reader.feed maxLen bytes r)) eqn:Hdone.
      * exists bytes. split; reflexivity.
      * destruct (IH (Reader.feed maxLen bytes r)) as (more & H1 & H2).
        exists (bytes ++ more). split.
        -- rewrite H1. unfold Reader.feed. now rewrite fold_left_app.
        -- unfold Reader.flatten in *. simpl. rewrite H2.
           now rewrite <- app_assoc.
    + exists []. split; reflexivity.
Qed.

End ReaderFacts.

(** ** The connection *)

Section Connection.
Context {P : Platform}.

Lemma closeClient_disconnects (b : Bot) : connected (client (closeClient b)) = false.
Proof.
  unfold closeClient. destruct (connected (client b)) eqn:E; [reflexivity | exact E].
Qed.

(** An exchange writes and reads; it neither connects nor stops. *)
Lemma exchange_client (request : list string) (b : Bot) :
  let b' := snd (exchange request b) in
  connected (client b') = connected (client b)
  /\ connect_script (client b') = connect_script (client b)
  /\ oplog (client b') = oplog (client b) ++ map OpWrite request.
Proof.
  unfold exchange, readHTTPAnswer, Reader.run. simpl.
  destruct (Reader.loop _ _ _) as [r rest]. simpl. auto.
Qed.

Lemma stop_not_written (request : list string) : OpStop ∉ map OpWrite request.
Proof.
  intros Hin. apply list_elem_of_fmap in Hin as (d & Hd & _). discriminate.
Qed.

Lemma ensure_connection_log (b : Bot) :
  exists ops, oplog (client (ensure_connection b)) = oplog (client b) ++ ops
              /\ OpStop ∉ ops.
Proof.
  unfold ensure_connection. destruct (connected (client b)).
  - exists []. rewrite app_nil_r. split; [reflexivity | apply not_elem_of_nil].
  - unfold ClientOps.connect. destruct (connect_script (client b)) as [|ok r]; simpl.
    + exists [OpConnect false]. split; [reflexivity|].
      intros Hin. apply list_elem_of_singleton in Hin. discriminate.
    + exists [OpConnect ok]. split; [reflexivity|].
      intros Hin. apply list_elem_of_singleton in Hin. discriminate.
Qed.

(** What holds of a function that connects unless connected and then, if
    connected, runs one exchange. *)
Lemma connect_then_exchange (request : list string) (b : Bot) :
  let b1 := ensure_connection b in
  let b' := snd (if connected (client b1) then exchange request b1
                 else (EmptyString, b1)) in
  connected (client b') = connected (client b1)
  /\ exists ops, oplog (client b') = oplog (client b) ++ ops /\ OpStop ∉ ops.
Proof.
  cbv zeta. destruct (ensure_connection_log b) as (ops & Hlog & Hno).
  destruct (connected (client (ensure_connection b))) eqn:Hc.
  - destruct (exchange_client request (ensure_connection b)) as (H1 & _ & H3).
    split; [congruence|]. exists (ops ++ map OpWrite request). split.
    + rewrite H3, Hlog. now rewrite app_assoc.
    + intros Hin. apply elem_of_app in Hin as [Hin|Hin]; [auto|].
      now apply stop_not_written in Hin.
  - simpl. split; [exact Hc|]. exists ops. auto.
Qed.

(** C9. [sendMultipartFormDataToTelegram] returns with the transport
    disconnected, whatever the exchange gave. [sendGetToTelegram] and
    [sendPostToTelegram] issue no [stop]: at their return the transport is
    connected exactly when it was connected after their connect step (it
    was connected before, or [connect] succeeded). *)
Theorem connection_after_send (b : Bot) :
  (forall command binaryPropertyName fileName contentType chat_id fileSize src,
      connected (client (snd (sendMultipartFormDataToTelegram
                                command binaryPropertyName fileName contentType
                                chat_id fileSize src b))) = false)
  /\ (forall command,
         let b' := snd (sendGetToTelegram command b) in
         connected (client b') = connected (client (ensure_connection b))
         /\ exists ops, oplog (client b') = oplog (client b) ++ ops /\ OpStop ∉ ops)
  /\ (forall command payload,
         let b' := snd (sendPostToTelegram command payload b) in
         connected (client b') = connected (client (ensure_connection b))
         /\ exists ops, oplog (client b') = oplog (client b) ++ ops /\ OpStop ∉ ops).
Proof.
  split; [|split].
  - intros. unfold sendMultipartFormDataToTelegram.
    destruct (if connected (client (ensure_connection b)) then _ else _) as [a b2].
    simpl. apply closeClient_disconnects.
  - intros command. unfold sendGetToTelegram. apply connect_then_exchange.
  - intros command payload. unfold sendPostToTelegram. apply connect_then_exchange.
Qed.

(** With any other [message_id] the transport is used: the log grows. *)
Lemma deleteMessage_uses_transport (chat_id : string) (message_id : Z) (b : Bot) :
  message_id <> 0 ->
  (length (oplog (client b))
   < length (oplog (client (snd (deleteMessage chat_id message_id b)))))%nat.
Proof.
  intros Hid. unfold deleteMessage.
  apply Z.eqb_neq in Hid. rewrite Hid.
  set (payload := JObj _). set (command := buildCommand b "deleteMessage").
  assert (Hpost : (length (oplog (client b))
                   < length (oplog (client (snd (sendPostToTelegram command payload b)))))%nat).
  { unfold sendPostToTelegram, ensure_connection, ClientOps.connect.
    destruct (connected (client b)) eqn:Hc.
    - rewrite Hc.
      match goal with |- context [exchange ?req b] =>
        destruct (exchange_client req b) as (_ & _ & Hlog) end.
      rewrite Hlog, length_app. simpl. lia.
    - destruct (connect_script (client b)) as [|[|] script]; simpl.
      + rewrite length_app. simpl. lia.
      + match goal with |- context [exchange ?req ?b1] =>
          destruct (exchange_client req b1) as (_ & _ & Hlog) end.
        rewrite Hlog. simpl. rewrite !length_app. simpl. lia.
      + rewrite length_app. simpl. lia. }
  destruct (sendPostToTelegram command payload b) as [response b1]. simpl in Hpost.
  unfold checkForOkResponse.
  match goal with |- context [if ?c then _ else _] => destruct c end; simpl;
    unfold closeClient; simpl;
    destruct (connected (client b1)); simpl; try rewrite length_app; simpl; lia.
Qed.

(** C10. With [message_id] 0, [deleteMessage] answers false and leaves the
    whole state as it was: the transport (connection, script of connects,
    schedule, log of operations), the watermark, the identifier of the last
    message sent and the records. *)
Theorem deleteMessage_zero (chat_id : string) (b : Bot) :
  deleteMessage chat_id 0 b = (false, b).
Proof. unfold deleteMessage. rewrite Z.eqb_refl. reflexivity. Qed.

End Connection.

(** ** What the engine leaves alone, and what it uses up *)

Section Frame.
Context {P : Platform}.

Lemma only_client_refl (b : Bot) : only_client b b.
Proof. exists (client b). now destruct b. Qed.

Lemma only_client_trans (b1 b2 b3 : Bot) :
  only_client b1 b2 -> only_client b2 b3 -> only_client b1 b3.
Proof. intros [c ->] [c' ->]. now exists c'. Qed.

Lemma only_client_set (c : Client) (b : Bot) : only_client b (set_client c b).
Proof. now exists c. Qed.

Lemma only_client_fields (b b' : Bot) :
  only_client b b' ->
  last_message_received b' = last_message_received b
  /\ messages b' = messages b
  /\ maxMessageLength b' = maxMessageLength b
  /\ stack_junk b' = stack_junk b.
Proof. intros [c ->]. auto. Qed.

Lemma closeClient_only_client (b : Bot) : only_client b (closeClient b).
Proof.
  unfold closeClient. destruct (connected (client b));
    [apply only_client_set | apply only_client_refl].
Qed.

Lemma closeClient_rx (b : Bot) : rx (client (closeClient b)) = rx (client b).
Proof. unfold closeClient. now destruct (connected (client b)). Qed.

Lemma ensure_connection_only_client (b : Bot) : only_client b (ensure_connection b).
Proof.
  unfold ensure_connection. destruct (connected (client b));
    [apply only_client_refl | apply only_client_set].
Qed.

Lemma ensure_connection_rx (b : Bot) :
  rx (client (ensure_connection b)) = rx (client b).
Proof.
  unfold ensure_connection, ClientOps.connect.
  destruct (connected (client b)); [reflexivity|].
  now destruct (connect_script (client b)).
Qed.

Lemma exchange_only_client (request : list string) (b : Bot) :
  only_client b (snd (exchange request b)).
Proof.
  unfold exchange. destruct (readHTTPAnswer _ _ _) as [[flag a] c'].
  apply only_client_set.
Qed.

Lemma sendGetToTelegram_only_client (command : string) (b : Bot) :
  only_client b (snd (sendGetToTelegram command b)).
Proof.
  unfold sendGetToTelegram.
  destruct (connected (client (ensure_connection b))).
  - eapply only_client_trans;
      [apply ensure_connection_only_client | apply exchange_only_client].
  - apply ensure_connection_only_client.
Qed.

Lemma getFile_only_client (file_id : string) (b : Bot) :
  only_client b (snd (getFile file_id b)).
Proof.
  unfold getFile.
  pose proof (sendGetToTelegram_only_client
                (buildCommand b "getFile?file_id=" +:+ file_id) b) as Hget.
  destruct (sendGetToTelegram _ b) as [response b1]. simpl in Hget.
  assert (Hall : only_client b (closeClient b1)).
  { eapply only_client_trans; [exact Hget | apply closeClient_only_client]. }
  destruct (deserializeJson response) as [doc|]; [|exact Hall].
  destruct (JsonOps.containsKey doc "result"); exact Hall.
Qed.

(** The loop never lengthens the schedule, and shortens it whenever it
    changes the state of the reader. *)
Lemma loop_consumes (maxLen : Z) (sched : list tick) (r : reader) :
  (length (snd (Reader.loop maxLen sched r)) <= length sched)%nat
  /\ (fst (Reader.loop maxLen sched r) = r
      \/ (length (snd (Reader.loop maxLen sched r)) < length sched)%nat).
Proof.
  revert r. induction sched as [|t sched IH]; intros r; simpl.
  - auto.
  - destruct t as [bytes|]; simpl.
    + destruct (responseReceived (Reader.feed maxLen bytes r)); simpl.
      * split; [lia | right; lia].
      * destruct (IH (Reader.feed maxLen bytes r)) as [H1 _].
        split; [lia | right; lia].
    + split; [lia | left; reflexivity].
Qed.

Lemma exchange_consumes (request : list string) (b : Bot) :
  fst (exchange request b) <> EmptyString ->
  (length (rx (client (snd (exchange request b)))) < length (rx (client b)))%nat.
Proof.
  unfold exchange, readHTTPAnswer, Reader.run. simpl.
  pose proof (loop_consumes (maxMessageLength b) (rx (client b))
                (Reader.init EmptyString)) as [_ Hstep].
  destruct (Reader.loop _ _ _) as [r rest]. simpl in *.
  intros Hne. destruct Hstep as [-> | Hlt]; [now elim Hne | exact Hlt].
Qed.

Lemma sendGetToTelegram_consumes (command : string) (b : Bot) :
  fst (sendGetToTelegram command b) <> EmptyString ->
  (length (rx (client (snd (sendGetToTelegram command b))))
   < length (rx (client b)))%nat.
Proof.
  unfold sendGetToTelegram.
  destruct (connected (client (ensure_connection b))).
  - intros Hne. apply exchange_consumes in Hne.
    now rewrite ensure_connection_rx in Hne.
  - simpl. intros Hne. now elim Hne.
Qed.

(** Fuel beyond the length of the schedule changes nothing. *)
Lemma getUpdates_fuel_enough (n m : nat) (offset : Z) (b : Bot) :
  (length (rx (client b)) < n)%nat -> (n <= m)%nat ->
  getUpdates_fuel n offset b = getUpdates_fuel m offset b.
Proof.
  revert m offset b. induction n as [|n IH]; intros m offset b Hn Hm; [lia|].
  destruct m as [|m]; [lia|]. simpl.
  pose proof (sendGetToTelegram_consumes (getUpdates_command offset b) b) as Huse.
  destruct (sendGetToTelegram (getUpdates_command offset b) b) as [response b1].
  simpl in Huse.
  destruct (getUpdateIdFromResponse (stack_junk b1) response) as [updateId|];
    [|reflexivity].
  destruct (String.eqb response EmptyString) eqn:Hempty; [reflexivity|].
  destruct (deserializeJson response) as [doc|]; [reflexivity|].
  destruct (_ =? _); [|reflexivity].
  apply IH; [|lia]. rewrite closeClient_rx.
  apply string_eqb_empty in Hempty. specialize (Huse Hempty). lia.
Qed.

(** C2 (as amended). When the response is not empty, does not parse and
    has exactly [(unsigned) maxMessageLength] characters, [getUpdates]
    closes the transport and returns what a second [getUpdates] returns,
    whose offset is one more than the identifier that
    [getUpdateIdFromResponse] reads in the text of the response. *)
Theorem getUpdates_oversized (offset : Z) (b : Bot) (response : string)
    (b1 : Bot) (updateId : Z) :
  sendGetToTelegram (getUpdates_command offset b) b = (response, b1) ->
  response <> EmptyString ->
  deserializeJson response = None ->
  Z.of_nat (String.length response) = as_unsigned (maxMessageLength b) ->
  getUpdateIdFromResponse (stack_junk b1) response = Some updateId ->
  getUpdates offset b
  = getUpdates (WString.wrap_long (updateId + 1)) (closeClient b1).
Proof.
  intros Hget Hne Herr Hlen Hid. unfold getUpdates at 1. simpl.
  pose proof (sendGetToTelegram_consumes (getUpdates_command offset b) b) as Huse.
  pose proof (sendGetToTelegram_only_client (getUpdates_command offset b) b) as Hfr.
  rewrite Hget in *. simpl in Huse, Hfr. rewrite Hid.
  apply string_eqb_empty in Hne as Hne'. rewrite Hne', Herr.
  destruct (only_client_fields _ _ (closeClient_only_client b1)) as (_ & _ & Hmax1 & _).
  destruct (only_client_fields _ _ Hfr) as (_ & _ & Hmax & _).
  rewrite Hmax1, Hmax. apply Z.eqb_eq in Hlen. rewrite Hlen.
  unfold getUpdates. symmetry.
  apply getUpdates_fuel_enough; rewrite closeClient_rx; [lia|].
  specialize (Huse Hne). lia.
Qed.

End Frame.

(** ** processResult *)

Section Decoding.
Context {P : Platform}.

Lemma decode_message_frame (message : Json) (m : telegramMessage) (b : Bot) :
  only_client b (snd (decode_message message m b))
  /\ update_id (fst (decode_message message m b)) = update_id m.
Proof.
  unfold decode_message.
  destruct (JsonOps.containsKey message "text").
  { destruct (JsonOps.containsKey message "reply_to_message"); simpl;
      split; auto using only_client_refl. }
  destruct (JsonOps.containsKey message "location").
  { destruct (JsonOps.containsKey message "reply_to_message"); simpl;
      split; auto using only_client_refl. }
  destruct (JsonOps.containsKey message "document").
  { pose proof (getFile_only_client (str_at message "document" "file_id") b) as Hf.
    destruct (getFile _ b) as [[[path size]|] b']; simpl in Hf;
      destruct (JsonOps.containsKey message "reply_to_message"); simpl;
      split; auto. }
  destruct (JsonOps.containsKey message "contact");
    destruct (JsonOps.containsKey message "reply_to_message"); simpl;
    split; auto using only_client_refl.
Qed.

Lemma decode_frame (result : Json) (m : telegramMessage) (b : Bot) :
  only_client b (snd (decode result m b))
  /\ update_id (fst (decode result m b)) = update_id m.
Proof.
  unfold decode.
  destruct (JsonOps.containsKey result "message"); [apply decode_message_frame|].
  destruct (JsonOps.containsKey result "channel_post");
    [simpl; split; auto using only_client_refl|].
  destruct (JsonOps.containsKey result "callback_query");
    [simpl; split; auto using only_client_refl|].
  destruct (JsonOps.containsKey result "edited_message");
    [|simpl; split; auto using only_client_refl].
  simpl. split; [apply only_client_refl|]. unfold decode_edited_message.
  destruct (JsonOps.containsKey _ "text"); [reflexivity|].
  destruct (JsonOps.containsKey _ "location"); reflexivity.
Qed.

(** An element whose identifier is the watermark is skipped and nothing
    changes; any other element moves the watermark to its identifier and
    fills the record at [messageIndex], which has to exist. *)
Lemma processResult_cases (result : Json) (messageIndex : nat) (b : Bot)
    (decoded : bool) (b' : Bot) :
  processResult result messageIndex b = Some (decoded, b') ->
  (update_id_of result = last_message_received b /\ decoded = false /\ b' = b)
  \/ (update_id_of result <> last_message_received b
      /\ decoded = true
      /\ last_message_received b' = update_id_of result
      /\ (messageIndex < length (messages b))%nat
      /\ exists m, update_id m = update_id_of result
                   /\ messages b' = <[messageIndex := m]> (messages b)).
Proof.
  unfold processResult.
  destruct (last_message_received b =? update_id_of result) eqn:Hsame; simpl.
  - apply Z.eqb_eq in Hsame. intros [= <- <-]. left. auto.
  - apply Z.eqb_neq in Hsame.
    destruct (messages b !! messageIndex) as [slot|] eqn:Hslot; [|discriminate].
    pose proof (decode_frame result (assign (reset_slot (update_id_of result)) slot)
                  (set_last_message_received (update_id_of result) b)) as [Hfr Hid].
    destruct (decode _ _ _) as [m b2]. simpl in Hfr, Hid.
    intros [= <- <-]. right. destruct Hfr as [c ->]. simpl.
    repeat split; auto.
    + now apply lookup_lt_Some in Hslot.
    + exists m. split; [exact Hid | reflexivity].
Qed.

(** The record exists and the identifier is new: the element is decoded. *)
Lemma processResult_decodes (result : Json) (messageIndex : nat) (b : Bot)
    (slot : telegramMessage) :
  update_id_of result <> last_message_received b ->
  messages b !! messageIndex = Some slot ->
  let b0 := set_last_message_received (update_id_of result) b in
  let mb := decode result (assign (reset_slot (update_id_of result)) slot) b0 in
  processResult result messageIndex b
  = Some (true, set_messages (<[messageIndex := fst mb]> (messages (snd mb))) (snd mb)).
Proof.
  intros Hne Hslot. cbv zeta. unfold processResult.
  destruct (last_message_received b =? update_id_of result) eqn:Hsame.
  - apply Z.eqb_eq in Hsame. congruence.
  - simpl. rewrite Hslot. now destruct (decode _ _ _).
Qed.

End Decoding.

Section DecodedRecords.
Context {P : Platform}.

(** C7. An element with a [message] key whose message has a [text] key, once
    decoded (its identifier is not the watermark and the record at
    [messageIndex] exists): the text of the record is that [text] member
    (the very characters when it is a string), latitude and longitude are
    zero, the document flag is false and the three contact fields are
    empty. *)
Theorem message_text_decoded (result : Json) (messageIndex : nat) (b : Bot) :
  JsonOps.containsKey result "message" = true ->
  JsonOps.containsKey (JsonOps.member result "message") "text" = true ->
  update_id_of result <> last_message_received b ->
  (messageIndex < length (messages b))%nat ->
  exists b' m,
    processResult result messageIndex b = Some (true, b')
    /\ messages b' !! messageIndex = Some m
    /\ text m = as_String (JsonOps.member (JsonOps.member result "message") "text")
    /\ (forall s, JsonOps.member (JsonOps.member result "message") "text" = JStr s ->
                  text m = s)
    /\ longitude m = float_zero /\ latitude m = float_zero
    /\ hasDocument m = false
    /\ contact_phone_number m = EmptyString
    /\ contact_name m = EmptyString
    /\ contact_id m = EmptyString.
Proof.
  intros Hmsg Htext Hnew Hidx.
  destruct (lookup_lt_is_Some_2 (messages b) messageIndex Hidx) as [slot Hslot].
  rewrite (processResult_decodes result messageIndex b slot Hnew Hslot).
  unfold decode. rewrite Hmsg. unfold decode_message. rewrite Htext.
  destruct (JsonOps.containsKey _ "reply_to_message");
    (eexists _, _; split; [reflexivity|]; split;
     [simpl; apply list_lookup_insert_eq; exact Hidx|]);
    simpl; (repeat split; auto; intros s Hs; rewrite Hs; reflexivity).
Qed.

(** C8 (as amended). An element with a [callback_query] key and neither a
    [message] nor a [channel_post] key, once decoded: the text of the record
    is the [data] member of the query, its chat identifier is the one of
    the chat of the message nested in the query, and its reply text is the
    text of that nested message. *)
Theorem callback_query_decoded (result : Json) (messageIndex : nat) (b : Bot) :
  JsonOps.containsKey result "message" = false ->
  JsonOps.containsKey result "channel_post" = false ->
  JsonOps.containsKey result "callback_query" = true ->
  update_id_of result <> last_message_received b ->
  (messageIndex < length (messages b))%nat ->
  let query := JsonOps.member result "callback_query" in
  exists b' m,
    processResult result messageIndex b = Some (true, b')
    /\ messages b' !! messageIndex = Some m
    /\ type m = "callback_query"
    /\ text m = as_String (JsonOps.member query "data")
    /\ chat_id m = str_at (JsonOps.member query "message") "chat" "id"
    /\ reply_to_text m = as_String (JsonOps.member (JsonOps.member query "message") "text").
Proof.
  intros Hmsg Hpost Hquery Hnew Hidx query.
  destruct (lookup_lt_is_Some_2 (messages b) messageIndex Hidx) as [slot Hslot].
  rewrite (processResult_decodes result messageIndex b slot Hnew Hslot).
  unfold decode. rewrite Hmsg, Hpost, Hquery.
  eexists _, _. split; [reflexivity|]. split.
  { simpl. apply list_lookup_insert_eq. exact Hidx. }
  simpl. auto.
Qed.

End DecodedRecords.

(** C8, as stated, fails on an element that has a [message] key next to its
    [callback_query] key: the [message] branch is taken and the text of the
    record is the text of the message, not the [data] of the query. *)
Lemma callback_query_shadowed :
  let b := Fixture.bot (H := Fixture.std) 1500 0 [] in
  let query := JsonOps.member Fixture.callback_and_message "callback_query" in
  JsonOps.containsKey Fixture.callback_and_message "callback_query" = true
  /\ exists b' m,
       processResult (P := Fixture.std) Fixture.callback_and_message 0 b = Some (true, b')
       /\ messages b' !! 0%nat = Some m
       /\ text m = "plain"
       /\ text m <> as_String (P := Fixture.std) (JsonOps.member query "data")
       /\ chat_id m <> str_at (P := Fixture.std) (JsonOps.member query "message") "chat" "id".
Proof.
  cbv zeta. split; [reflexivity|].
  eexists _, _. split; [vm_compute; reflexivity|].
  split; [reflexivity|]. split; [reflexivity|].
  split; vm_compute; discriminate.
Qed.

(** An element without a [message] key leaves the document flag and the
    file fields of the record as it found them. *)
Lemma decode_keeps_file_fields `{Platform} (result : Json) (slot : telegramMessage)
    (b : Bot) :
  JsonOps.containsKey result "message" = false ->
  let m := fst (decode result (assign (reset_slot (update_id_of result)) slot) b) in
  hasDocument m = hasDocument slot
  /\ file_caption m = file_caption slot
  /\ file_name m = file_name slot
  /\ file_path m = file_path slot
  /\ file_size m = file_size slot.
Proof.
  intros Hmsg. unfold decode. rewrite Hmsg.
  destruct (JsonOps.containsKey result "channel_post"); [simpl; auto|].
  destruct (JsonOps.containsKey result "callback_query"); [simpl; auto|].
  destruct (JsonOps.containsKey result "edited_message"); [|simpl; auto].
  simpl. unfold decode_edited_message.
  destruct (JsonOps.containsKey _ "text"); [simpl; auto|].
  destruct (JsonOps.containsKey _ "location"); simpl; auto.
Qed.

(** C6: the code at a record that a document message left behind and an
    element with a [channel_post] key. The document flag and the file
    fields of the record keep what the earlier message wrote. *)
Theorem channel_post_keeps_document_fields :
  let b := Fixture.bot_with (H := Fixture.std)
             [Fixture.document_slot; Fixture.blank; Fixture.blank] 1500 1 [] in
  exists b' m,
    processResult (P := Fixture.std) Fixture.channel_post_update 0 b = Some (true, b')
    /\ messages b' !! 0%nat = Some m
    /\ type m = "channel_post"
    /\ text m = "news"
    /\ hasDocument m = true
    /\ file_name m = "a.pdf"
    /\ file_path m = "https://api.telegram.org/file/botT/a.pdf"
    /\ file_size m = 10.
Proof.
  cbv zeta. eexists _, _. split; [vm_compute; reflexivity|].
  repeat split; reflexivity.
Qed.

(** ** The watermark filter *)

Lemma deliver_app (w : Z) (l1 l2 : list Z) :
  deliver w (l1 ++ l2) = deliver w l1 ++ deliver (watermark_after w l1) l2.
Proof.
  revert w. induction l1 as [|i l1 IH]; intros w; simpl; [reflexivity|].
  destruct (w =? i) eqn:E.
  - apply Z.eqb_eq in E. subst i. apply IH.
  - simpl. now rewrite IH.
Qed.

Lemma watermark_after_app (w : Z) (l1 l2 : list Z) :
  watermark_after w (l1 ++ l2) = watermark_after (watermark_after w l1) l2.
Proof. unfold watermark_after. apply fold_left_app. Qed.

Lemma watermark_after_elem (w : Z) (l : list Z) :
  l <> [] -> watermark_after w l ∈ l.
Proof.
  revert w. induction l as [|i l IH]; intros w Hne; [congruence|].
  destruct l as [|j l]; [apply list_elem_of_here|].
  apply list_elem_of_further. apply (IH i). discriminate.
Qed.

Lemma deliver_all_same (w : Z) (l : list Z) :
  (forall i, i ∈ l -> i = w) -> deliver w l = [].
Proof.
  induction l as [|i l IH]; intros Hall; simpl; [reflexivity|].
  rewrite (Hall i (list_elem_of_here _ _)), Z.eqb_refl.
  apply IH. intros j Hj. apply Hall. now apply list_elem_of_further.
Qed.

(** Over identifiers that never decrease, what is delivered increases
    strictly and lies above the watermark. *)
Lemma deliver_above (w : Z) (l : list Z) :
  StronglySorted Z.le l -> Forall (fun i => w <= i) l ->
  Forall (fun i => w < i) (deliver w l).
Proof.
  revert w. induction l as [|x l IH]; intros w Hs Hw; simpl; [constructor|].
  apply StronglySorted_inv in Hs as [Hs Hx].
  apply Forall_cons in Hw as [Hwx Hw].
  destruct (w =? x) eqn:E.
  - apply IH; assumption.
  - apply Z.eqb_neq in E. constructor; [lia|].
    eapply Forall_impl; [apply IH; assumption|]. simpl. intros; lia.
Qed.

Lemma deliver_increasing (w : Z) (l : list Z) :
  StronglySorted Z.le l -> StronglySorted Z.lt (deliver w l).
Proof.
  revert w. induction l as [|x l IH]; intros w Hs; simpl; [constructor|].
  pose proof Hs as Hs'. apply StronglySorted_inv in Hs' as [Hl Hx].
  destruct (w =? x); [now apply IH|].
  constructor; [now apply IH|]. now apply deliver_above.
Qed.

Lemma increasing_NoDup (l : list Z) : StronglySorted Z.lt l -> NoDup l.
Proof.
  induction 1 as [|x l Hs IH Hx]; [apply NoDup_nil_2|].
  apply NoDup_cons. split; [|exact IH].
  intros Hin. rewrite Forall_forall in Hx. specialize (Hx _ Hin). lia.
Qed.

(** Over strictly increasing identifiers whose first is not the watermark,
    every element is delivered. *)
Lemma deliver_everything (w : Z) (l : list Z) :
  StronglySorted Z.lt l -> head l <> Some w -> deliver w l = l.
Proof.
  revert w. induction l as [|x l IH]; intros w Hs Hw; simpl; [reflexivity|].
  apply StronglySorted_inv in Hs as [Hs Hx].
  destruct (w =? x) eqn:E.
  - apply Z.eqb_eq in E. subst x. now elim Hw.
  - f_equal. apply IH; [exact Hs|].
    destruct l as [|y l]; [discriminate|]. simpl.
    apply Forall_cons in Hx as [Hxy _]. intros [= ->]. lia.
Qed.

Lemma watermark_after_maximum (first : Z) (others : list Z) :
  StronglySorted Z.lt (first :: others) ->
  watermark_after first others = maximum first others.
Proof.
  revert first. induction others as [|x l IH]; intros first Hs; [reflexivity|].
  apply StronglySorted_inv in Hs as [Hs Hx].
  apply Forall_cons in Hx as [Hfx _].
  unfold watermark_after, maximum in *. simpl.
  rewrite Z.max_r by lia. now apply IH.
Qed.

Lemma remove_dups_NoDup (l : list Z) : NoDup l -> remove_dups l = l.
Proof.
  induction l as [|x l IH]; intros Hnd; simpl; [reflexivity|].
  apply NoDup_cons in Hnd as [Hx Hl].
  destruct (decide_rel elem_of x l); [contradiction|]. now rewrite IH.
Qed.

(** ** getUpdates on a response that parses *)

Section Polling.
Context {P : Platform}.

Lemma member_absent (v : Json) (k : string) :
  JsonOps.containsKey v k = false -> JsonOps.member v k = JNull.
Proof.
  destruct v; simpl; try reflexivity.
  destruct (JsonOps.assoc k members); [discriminate | reflexivity].
Qed.

Lemma process_results_spec (results : list Json) (i : nat) (b : Bot)
    (n : nat) (b' : Bot) :
  process_results results i b = Some (n, b') ->
  let ids := map update_id_of results in
  let w := last_message_received b in
  last_message_received b' = watermark_after w ids
  /\ n = (i + length (deliver w ids))%nat
  /\ map update_id (take n (messages b'))
     = map update_id (take i (messages b)) ++ deliver w ids.
Proof.
  revert i b. induction results as [|result rest IH]; intros i b; simpl.
  - intros [= <- <-]. rewrite app_nil_r. repeat split. lia.
  - destruct (processResult result i b) as [[decoded b1]|] eqn:Hstep; [|discriminate].
    apply processResult_cases in Hstep
      as [(Hid & -> & ->) | (Hid & -> & Hw & Hidx & m & Hm & Hmsgs)].
    + intros Hrest. apply IH in Hrest. cbv zeta in Hrest.
      rewrite Hid. rewrite Z.eqb_refl. exact Hrest.
    + intros Hrest. apply IH in Hrest. cbv zeta in Hrest.
      destruct Hrest as (H1 & H2 & H3).
      assert (E : (last_message_received b =? update_id_of result) = false)
        by (apply Z.eqb_neq; congruence).
      rewrite E. rewrite Hw in *. unfold watermark_after in *. simpl.
      split; [exact H1|]. split; [lia|].
      rewrite H3, Hmsgs.
      rewrite (take_S_r _ _ m) by (now apply list_lookup_insert_eq).
      rewrite take_insert_ge by lia.
      rewrite map_app. simpl. rewrite Hm. now rewrite <- app_assoc.
Qed.

(** One poll: the watermark follows the identifiers met, the count is the
    number of elements that pass the filter, and their identifiers stand in
    the first records. *)
Lemma getUpdates_fuel_spec (fuel : nat) (offset : Z) (b : Bot) (n : nat) (b' : Bot) :
  getUpdates_fuel fuel offset b = Some (n, b') ->
  let w := last_message_received b in
  let ids := seen_fuel fuel offset b in
  last_message_received b' = watermark_after w ids
  /\ n = length (deliver w ids)
  /\ map update_id (take n (messages b')) = deliver w ids.
Proof.
  revert offset b. induction fuel as [|fuel IH]; intros offset b; simpl;
    [discriminate|].
  pose proof (sendGetToTelegram_only_client (getUpdates_command offset b) b) as Hfr.
  destruct (sendGetToTelegram (getUpdates_command offset b) b) as [response b1].
  simpl in Hfr. destruct (only_client_fields _ _ Hfr) as (Hw & _).
  destruct (only_client_fields _ _ (closeClient_only_client b1)) as (Hw1 & _ & Hmax & _).
  destruct (getUpdateIdFromResponse _ _) as [updateId|]; [|discriminate].
  destruct (String.eqb response EmptyString).
  { intros [= <- <-]. rewrite Hw1, Hw. repeat split. }
  destruct (deserializeJson response) as [doc|].
  - unfold ids_of.
    destruct (JsonOps.containsKey doc "result") eqn:Hkey; simpl.
    + destruct (JsonOps.items (JsonOps.member doc "result")) as [|r rs] eqn:Hitems.
      * simpl. intros [= <- <-]. rewrite Hw1, Hw. repeat split.
      * change (0 <? length (r :: rs))%nat with true. cbv iota.
        intros Hrun. apply process_results_spec in Hrun. cbv zeta in Hrun.
        rewrite Hw in Hrun. simpl in Hrun. exact Hrun.
    + rewrite (member_absent _ _ Hkey). simpl. intros [= <- <-].
      rewrite Hw1, Hw. repeat split.
  - destruct (_ =? _).
    + intros Hrun. apply IH in Hrun. cbv zeta in Hrun.
      rewrite Hw1, Hw in Hrun. exact Hrun.
    + intros [= <- <-]. rewrite Hw1, Hw. repeat split.
Qed.

Lemma getUpdates_spec (offset : Z) (b : Bot) (n : nat) (b' : Bot) :
  getUpdates offset b = Some (n, b') ->
  let w := last_message_received b in
  last_message_received b' = watermark_after w (seen_by offset b)
  /\ n = length (deliver w (seen_by offset b))
  /\ map update_id (take n (messages b')) = deliver w (seen_by offset b).
Proof. apply getUpdates_fuel_spec. Qed.

(** A sequence of polls behaves as one filter over all the identifiers. *)
Lemma polls_deliver (b : Bot) (views : list poll_view) (b' : Bot) :
  polls b views b' ->
  let ids := concat (map seen views) in
  let w := last_message_received b in
  concat (map delivered views) = deliver w ids
  /\ last_message_received b' = watermark_after w ids
  /\ Forall (fun v => count v = length (delivered v)) views.
Proof.
  induction 1 as [b | b offset n b2 b3 views b' Hrun Hkeep Hrest IH]; cbv zeta.
  - simpl. repeat split. constructor.
  - destruct (getUpdates_spec _ _ _ _ Hrun) as (Hw & Hn & Hd).
    cbv zeta in IH. destruct IH as (IH1 & IH2 & IH3). simpl.
    rewrite deliver_app, watermark_after_app, <- Hw, <- Hkeep.
    rewrite Hd, IH1. split; [reflexivity|]. split; [exact IH2|].
    constructor; [|exact IH3]. exact Hn.
Qed.

Lemma run_polls_sound (offsets : list Z) (b : Bot) (views : list poll_view)
    (b' : Bot) :
  run_polls offsets b = Some (views, b') -> polls b views b'.
Proof.
  revert b views b'. induction offsets as [|offset rest IH]; intros b views b'; simpl.
  - intros [= <- <-]. constructor.
  - destruct (getUpdates offset b) as [[n b2]|] eqn:Hrun; [|discriminate].
    destruct (run_polls rest b2) as [[views' b'']|] eqn:Hrest; [|discriminate].
    intros [= <- <-]. eapply polls_call; eauto.
Qed.

End Polling.

(** ** Sequences of polls *)

Section Sequences.
Context {P : Platform}.

Lemma counts_sum (views : list poll_view) :
  Forall (fun v => count v = length (delivered v)) views ->
  sum_list (map count views) = length (concat (map delivered views)).
Proof.
  induction 1 as [|v views Hv _ IH]; simpl; [reflexivity|].
  rewrite length_app. lia.
Qed.

(** C1 (as amended). Over a sequence of polls, what is delivered is what
    the not-equal filter against the single watermark passes: an element is
    delivered exactly when its identifier differs from the identifier
    delivered last. When the identifiers met over the whole sequence never
    decrease, no identifier is delivered twice. *)
Theorem no_redelivery_in_order (b : Bot) (views : list poll_view) (b' : Bot) :
  polls b views b' ->
  Sorted Z.le (concat (map seen views)) ->
  concat (map delivered views)
  = deliver (last_message_received b) (concat (map seen views))
  /\ NoDup (concat (map delivered views)).
Proof.
  intros Hpolls Hsorted.
  destruct (polls_deliver b views b' Hpolls) as (Hgot & _ & _).
  split; [exact Hgot|]. rewrite Hgot.
  apply increasing_NoDup, deliver_increasing.
  apply Sorted_StronglySorted; [|exact Hsorted].
  intros x y z. apply Z.le_trans.
Qed.

(** C4 (as amended). Over a sequence of polls whose identifiers increase
    strictly overall and whose first identifier is not the watermark held
    before the first poll, the counts returned add up to the number of
    distinct identifiers met, and the watermark ends at their maximum. *)
Theorem watermark_and_count_increasing (b : Bot) (views : list poll_view)
    (b' : Bot) :
  polls b views b' ->
  Sorted Z.lt (concat (map seen views)) ->
  head (concat (map seen views)) <> Some (last_message_received b) ->
  sum_list (map count views) = length (remove_dups (concat (map seen views)))
  /\ forall first others,
       concat (map seen views) = first :: others ->
       last_message_received b' = maximum first others.
Proof.
  intros Hpolls Hsorted Hfirst.
  destruct (polls_deliver b views b' Hpolls) as (Hgot & Hw & Hcount).
  assert (Hstrong : StronglySorted Z.lt (concat (map seen views))).
  { apply Sorted_StronglySorted; [|exact Hsorted]. intros x y z. apply Z.lt_trans. }
  rewrite (deliver_everything _ _ Hstrong Hfirst) in Hgot.
  split.
  - rewrite (counts_sum _ Hcount), Hgot.
    now rewrite (remove_dups_NoDup _ (increasing_NoDup _ Hstrong)).
  - intros first others Hids. rewrite Hw, Hids.
    rewrite Hids in Hstrong.
    change (watermark_after first others = maximum first others).
    now apply watermark_after_maximum.
Qed.

(** C5 (as amended). Two polls in a row on the same result array, all of
    whose elements carry one and the same identifier: the second poll
    returns 0. *)
Theorem second_poll_of_one_identifier (b : Bot) (v1 v2 : poll_view) (b' : Bot) :
  polls b [v1; v2] b' ->
  seen v2 = seen v1 ->
  (forall i j, i ∈ seen v1 -> j ∈ seen v1 -> i = j) ->
  count v2 = O.
Proof.
  intros Hpolls Hsame Hone.
  inversion Hpolls as [|? offset n b2 b3 views ? Hrun Hkeep Hrest]; subst.
  destruct (getUpdates_spec _ _ _ _ Hrun) as (Hw & _ & _).
  destruct (polls_deliver _ _ _ Hrest) as (Hgot & _ & Hcount).
  apply Forall_cons in Hcount as [Hcount _]. simpl in *.
  rewrite !app_nil_r in Hgot. rewrite Hcount, Hgot, Hsame, Hkeep, Hw.
  destruct (seen_by offset b) as [|i ids] eqn:Hids; [reflexivity|].
  rewrite deliver_all_same; [reflexivity|].
  intros j Hj. apply Hone; [exact Hj|].
  apply watermark_after_elem. discriminate.
Qed.

End Sequences.

(** ** The theorems at concrete inputs *)

(** C1 at two polls that meet the identifiers 3 and 5. *)
Lemma no_redelivery_in_order_witness :
  let b := Fixture.bot (H := Fixture.std) 1500 0 [Fixture.answer "B"; Fixture.answer "A"] in
  let views := [mkView [3] 1 [3]; mkView [5] 1 [5]] in
  polls (P := Fixture.std) b views (Fixture.final (H := Fixture.std) [0; 4] b)
  /\ Sorted Z.le [3; 5]
  /\ [3; 5] = deliver 0 [3; 5]
  /\ NoDup [3; 5].
Proof.
  cbv zeta.
  assert (Hpolls : polls (P := Fixture.std)
            (Fixture.bot (H := Fixture.std) 1500 0 [Fixture.answer "B"; Fixture.answer "A"])
            [mkView [3] 1 [3]; mkView [5] 1 [5]]
            (Fixture.final (H := Fixture.std) [0; 4]
               (Fixture.bot (H := Fixture.std) 1500 0
                  [Fixture.answer "B"; Fixture.answer "A"]))).
  { apply (run_polls_sound (P := Fixture.std) [0; 4]). vm_compute. reflexivity. }
  assert (Hsorted : Sorted Z.le [3; 5]).
  { repeat constructor. discriminate. }
  split; [exact Hpolls|]. split; [exact Hsorted|].
  exact (no_redelivery_in_order (P := Fixture.std) _ _ _ Hpolls Hsorted).
Defined.

(** C1, as stated, fails: three polls that meet the identifiers 5, 3 and 5
    deliver 5 twice, and deliver 3 although the watermark stands at 5. *)
Lemma redelivery_after_lower_identifier :
  let b := Fixture.bot (H := Fixture.std) 1500 0
             [Fixture.answer "A"; Fixture.answer "B"; Fixture.answer "A"] in
  let views := [mkView [5] 1 [5]; mkView [3] 1 [3]; mkView [5] 1 [5]] in
  polls (P := Fixture.std) b views (Fixture.final (H := Fixture.std) [0; 6; 4] b)
  /\ ~ NoDup (concat (map delivered views)).
Proof.
  cbv zeta. split.
  - apply (run_polls_sound (P := Fixture.std) [0; 6; 4]). vm_compute. reflexivity.
  - simpl. intros Hnd. apply NoDup_cons in Hnd as [Hin _].
    apply Hin. apply list_elem_of_further, list_elem_of_here.
Qed.

(** C4 at two polls that meet the identifiers 3, 5 and 8 from watermark 0. *)
Lemma watermark_and_count_increasing_witness :
  let b := Fixture.bot (H := Fixture.std) 1500 0 [Fixture.answer "C"; Fixture.answer "F"] in
  let views := [mkView [3; 5] 2 [3; 5]; mkView [8] 1 [8]] in
  polls (P := Fixture.std) b views (Fixture.final (H := Fixture.std) [0; 6] b)
  /\ Sorted Z.lt [3; 5; 8]
  /\ head [3; 5; 8] <> Some 0
  /\ sum_list [2; 1]%nat = length (remove_dups [3; 5; 8])
  /\ forall first others,
       [3; 5; 8] = first :: others ->
       last_message_received (Fixture.final (H := Fixture.std) [0; 6] b)
       = maximum first others.
Proof.
  cbv zeta.
  assert (Hpolls : polls (P := Fixture.std)
            (Fixture.bot (H := Fixture.std) 1500 0 [Fixture.answer "C"; Fixture.answer "F"])
            [mkView [3; 5] 2 [3; 5]; mkView [8] 1 [8]]
            (Fixture.final (H := Fixture.std) [0; 6]
               (Fixture.bot (H := Fixture.std) 1500 0
                  [Fixture.answer "C"; Fixture.answer "F"]))).
  { apply (run_polls_sound (P := Fixture.std) [0; 6]). vm_compute. reflexivity. }
  assert (Hsorted : Sorted Z.lt [3; 5; 8]).
  { repeat constructor. }
  assert (Hfirst : head [3; 5; 8] <> Some 0) by discriminate.
  split; [exact Hpolls|]. split; [exact Hsorted|]. split; [exact Hfirst|].
  exact (watermark_and_count_increasing (P := Fixture.std) _ _ _ Hpolls Hsorted Hfirst).
Defined.

(** C4, as stated, fails: the watermark stands at 3 and one poll meets the
    identifiers 3 and 5; it returns 1 where two distinct identifiers were
    met. *)
Lemma first_identifier_is_watermark :
  let b := Fixture.bot (H := Fixture.std) 1500 3 [Fixture.answer "C"] in
  let views := [mkView [3; 5] 1 [5]] in
  polls (P := Fixture.std) b views (Fixture.final (H := Fixture.std) [0] b)
  /\ Sorted Z.lt (concat (map seen views))
  /\ sum_list (map count views) <> length (remove_dups (concat (map seen views))).
Proof.
  cbv zeta. split; [|split].
  - apply (run_polls_sound (P := Fixture.std) [0]). vm_compute. reflexivity.
  - simpl. repeat constructor.
  - vm_compute. discriminate.
Qed.

(** C5 at two polls on a result array whose two elements carry 7. *)
Lemma second_poll_of_one_identifier_witness :
  let b := Fixture.bot (H := Fixture.std) 1500 0 [Fixture.answer "E"; Fixture.answer "E"] in
  let v1 := mkView [7; 7] 1 [7] in
  let v2 := mkView [7; 7] 0 [] in
  polls (P := Fixture.std) b [v1; v2] (Fixture.final (H := Fixture.std) [0; 8] b)
  /\ seen v2 = seen v1
  /\ (forall i j, i ∈ seen v1 -> j ∈ seen v1 -> i = j)
  /\ count v2 = O.
Proof.
  cbv zeta.
  assert (Hpolls : polls (P := Fixture.std)
            (Fixture.bot (H := Fixture.std) 1500 0 [Fixture.answer "E"; Fixture.answer "E"])
            [mkView [7; 7] 1 [7]; mkView [7; 7] 0 []]
            (Fixture.final (H := Fixture.std) [0; 8]
               (Fixture.bot (H := Fixture.std) 1500 0
                  [Fixture.answer "E"; Fixture.answer "E"]))).
  { apply (run_polls_sound (P := Fixture.std) [0; 8]). vm_compute. reflexivity. }
  assert (Hone : forall i j : Z, i ∈ [7; 7] -> j ∈ [7; 7] -> i = j).
  { intros i j Hi Hj.
    assert (Hseven : forall k : Z, k ∈ [7; 7] -> k = 7).
    { intros k Hk. apply elem_of_cons in Hk as [->|Hk]; [reflexivity|].
      apply elem_of_cons in Hk as [->|Hk]; [reflexivity|].
      now apply not_elem_of_nil in Hk. }
    rewrite (Hseven i Hi), (Hseven j Hj). reflexivity. }
  split; [exact Hpolls|]. split; [reflexivity|]. split; [exact Hone|].
  exact (second_poll_of_one_identifier (P := Fixture.std) _ _ _ _ Hpolls eq_refl Hone).
Defined.

(** C5, as stated, fails: two polls in a row on the result array with the
    identifiers 1 and 2; the first leaves the watermark at 2, and the second
    delivers both elements again. *)
Lemma second_poll_delivers_again :
  let b := Fixture.bot (H := Fixture.std) 1500 0 [Fixture.answer "D"; Fixture.answer "D"] in
  let v1 := mkView [1; 2] 2 [1; 2] in
  let v2 := mkView [1; 2] 2 [1; 2] in
  polls (P := Fixture.std) b [v1; v2] (Fixture.final (H := Fixture.std) [0; 3] b)
  /\ seen v2 = seen v1
  /\ count v2 <> O.
Proof.
  cbv zeta. split; [|split].
  - apply (run_polls_sound (P := Fixture.std) [0; 3]). vm_compute. reflexivity.
  - reflexivity.
  - discriminate.
Qed.

(** C2 at a buffer of three characters and the answer [#42]. *)
Lemma getUpdates_oversized_witness :
  let b := Fixture.oversized_bot in
  let b1 := Fixture.after_oversized_answer in
  sendGetToTelegram (P := Fixture.std) (getUpdates_command (P := Fixture.std) 0 b) b
  = ("#42", b1)
  /\ "#42" <> EmptyString
  /\ deserializeJson (Platform := Fixture.std) "#42" = None
  /\ Z.of_nat (String.length "#42") = as_unsigned (maxMessageLength b)
  /\ getUpdateIdFromResponse (stack_junk b1) "#42" = Some 42
  /\ getUpdates (P := Fixture.std) 0 b
     = getUpdates (P := Fixture.std) 43 (closeClient b1).
Proof.
  cbv zeta.
  assert (Hget : sendGetToTelegram (P := Fixture.std)
                   (getUpdates_command (P := Fixture.std) 0 Fixture.oversized_bot)
                   Fixture.oversized_bot
                 = ("#42", Fixture.after_oversized_answer)).
  { vm_compute. reflexivity. }
  assert (Hne : "#42" <> EmptyString) by discriminate.
  assert (Herr : deserializeJson (Platform := Fixture.std) "#42" = None)
    by reflexivity.
  assert (Hlen : Z.of_nat (String.length "#42")
                 = as_unsigned (maxMessageLength Fixture.oversized_bot))
    by reflexivity.
  assert (Hid : getUpdateIdFromResponse
                  (stack_junk Fixture.after_oversized_answer) "#42" = Some 42).
  { vm_compute. reflexivity. }
  repeat (split; [assumption|]).
  exact (getUpdates_oversized (P := Fixture.std) 0 Fixture.oversized_bot "#42"
           Fixture.after_oversized_answer 42 Hget Hne Herr Hlen Hid).
Defined.

(** C2, as stated, fails: the watermark is 100, the response that fills the
    buffer and does not parse carries the digits 42, and the second
    [getUpdates] asks for offset 43, not 101: the two requests differ. *)
Lemma oversized_offset_is_not_watermark :
  let b := Fixture.oversized_bot in
  let b1 := Fixture.after_oversized_answer in
  sendGetToTelegram (P := Fixture.std) (getUpdates_command (P := Fixture.std) 0 b) b
  = ("#42", b1)
  /\ deserializeJson (Platform := Fixture.std) "#42" = None
  /\ Z.of_nat (String.length "#42") = as_unsigned (maxMessageLength b)
  /\ last_message_received b1 = 100
  /\ getUpdates (P := Fixture.std) 0 b
     <> getUpdates (P := Fixture.std)
          (WString.wrap_long (last_message_received b1 + 1)) (closeClient b1).
Proof.
  cbv zeta. split; [vm_compute; reflexivity|].
  split; [reflexivity|]. split; [reflexivity|]. split; [reflexivity|].
  intros Heq.
  apply (f_equal (fun r : option (nat * Bot) =>
                    match r with
                    | Some (_, b') => oplog (client b')
                    | None => []
                    end)) in Heq.
  vm_compute in Heq. discriminate.
Qed.

(** C3, as stated, fails: the headers carry a content-length of 0 and no
    body follows. The count of body characters, 0, equals the
    content-length found, and the flag returned is false. *)
Lemma zero_content_length_never_complete :
  let bytes := Fixture.empty_body_answer in
  let c := mkClient true [] [Data bytes] [] in
  let r := Reader.feed 1500 bytes (Reader.init EmptyString) in
  exists h,
    Reader.header_text bytes true EmptyString = Some h
    /\ Reader.content_length h = Some 0
    /\ ch_count r = 0
    /\ readHTTPAnswer 1500 EmptyString c = (false, EmptyString, mkClient true [] [] [])
    /\ ~ (responseReceived r = true <-> ch_count r = 0).
Proof.
  cbv zeta. eexists. split; [vm_compute; reflexivity|].
  split; [vm_compute; reflexivity|]. split; [vm_compute; reflexivity|].
  split; [vm_compute; reflexivity|].
  intros [_ Hflag]. assert (Hc : ch_count (Reader.feed 1500 Fixture.empty_body_answer
                                             (Reader.init EmptyString)) = 0)
    by (vm_compute; reflexivity).
  specialize (Hflag Hc). vm_compute in Hflag. discriminate.
Qed.

(** C7 at an element with update id 5 and the text [hello]. *)
Lemma message_text_decoded_witness :
  let result := Fixture.text_update 5 "hello" in
  let b := Fixture.bot (H := Fixture.std) 1500 0 [] in
  JsonOps.containsKey result "message" = true
  /\ JsonOps.containsKey (JsonOps.member result "message") "text" = true
  /\ update_id_of (P := Fixture.std) result <> last_message_received b
  /\ (0 < length (messages b))%nat
  /\ exists b' m,
       processResult (P := Fixture.std) result 0 b = Some (true, b')
       /\ messages b' !! 0%nat = Some m
       /\ text m = "hello"
       /\ (forall s, JStr "hello" = JStr s -> text m = s)
       /\ longitude m = 0 /\ latitude m = 0
       /\ hasDocument m = false
       /\ contact_phone_number m = EmptyString
       /\ contact_name m = EmptyString
       /\ contact_id m = EmptyString.
Proof.
  cbv zeta.
  assert (Hnew : update_id_of (P := Fixture.std) (Fixture.text_update 5 "hello")
                 <> last_message_received (Fixture.bot (H := Fixture.std) 1500 0 []))
    by discriminate.
  assert (Hidx : (0 < length (messages (Fixture.bot (H := Fixture.std) 1500 0 [])))%nat)
    by (simpl; lia).
  split; [reflexivity|]. split; [reflexivity|]. split; [exact Hnew|].
  split; [exact Hidx|].
  exact (message_text_decoded (P := Fixture.std) (Fixture.text_update 5 "hello") 0
           (Fixture.bot (H := Fixture.std) 1500 0 []) eq_refl eq_refl Hnew Hidx).
Defined.

(** C8 at an element with a [callback_query] key only. *)
Lemma callback_query_decoded_witness :
  let result := Fixture.callback_query_update in
  let b := Fixture.bot (H := Fixture.std) 1500 0 [] in
  JsonOps.containsKey result "message" = false
  /\ JsonOps.containsKey result "channel_post" = false
  /\ JsonOps.containsKey result "callback_query" = true
  /\ update_id_of (P := Fixture.std) result <> last_message_received b
  /\ (0 < length (messages b))%nat
  /\ exists b' m,
       processResult (P := Fixture.std) result 0 b = Some (true, b')
       /\ messages b' !! 0%nat = Some m
       /\ type m = "callback_query"
       /\ text m = "pressed"
       /\ chat_id m = "77"
       /\ reply_to_text m = "choose".
Proof.
  cbv zeta.
  assert (Hnew : update_id_of (P := Fixture.std) Fixture.callback_query_update
                 <> last_message_received (Fixture.bot (H := Fixture.std) 1500 0 []))
    by discriminate.
  assert (Hidx : (0 < length (messages (Fixture.bot (H := Fixture.std) 1500 0 [])))%nat)
    by (simpl; lia).
  split; [reflexivity|]. split; [reflexivity|]. split; [reflexivity|].
  split; [exact Hnew|]. split; [exact Hidx|].
  exact (callback_query_decoded (P := Fixture.std) Fixture.callback_query_update 0
           (Fixture.bot (H := Fixture.std) 1500 0 []) eq_refl eq_refl eq_refl Hnew Hidx).
Defined.

(** ** Further facts about the engine and the processor *)

Section Further.
Context {P : Platform}.

(** [closeClient] is idempotent. *)
Lemma closeClient_idempotent (b : Bot) : closeClient (closeClient b) = closeClient b.
Proof.
  unfold closeClient at 1. now rewrite closeClient_disconnects.
Qed.

(** An empty response gives 0 updates and a closed transport, whatever the
    JSON library would make of it. *)
Lemma getUpdates_empty_response (offset : Z) (b b1 : Bot) (updateId : Z) :
  sendGetToTelegram (getUpdates_command offset b) b = (EmptyString, b1) ->
  getUpdateIdFromResponse (stack_junk b1) EmptyString = Some updateId ->
  getUpdates offset b = Some (O, closeClient b1).
Proof.
  intros Hget Hid. unfold getUpdates. simpl. now rewrite Hget, Hid.
Qed.

(** A transport that refuses to connect gives an empty body. *)
Lemma sendGetToTelegram_refused (command : string) (b : Bot) :
  connected (client b) = false ->
  connect_script (client b) = [] ->
  fst (sendGetToTelegram command b) = EmptyString.
Proof.
  intros Hc Hs. unfold sendGetToTelegram, ensure_connection, ClientOps.connect.
  rewrite Hc, Hs. reflexivity.
Qed.

End Further.

(** ** The definitions at work *)

Example of_Z_positive : WString.of_Z 42 = "42".
Proof. reflexivity. Qed.

Example of_Z_negative : WString.of_Z (-7) = "-7".
Proof. reflexivity. Qed.

Example toInt_leading_space : WString.toInt " 123" = 123.
Proof. reflexivity. Qed.

Example toInt_no_digits : WString.toInt "abc" = 0.
Proof. reflexivity. Qed.

Example toInt_saturates : WString.toInt "99999999999" = 2147483647.
Proof. reflexivity. Qed.

Example indexOf_finds :
  WString.indexOf "a: b content-length: 5" "content-length" 0 = Some 5%nat.
Proof. reflexivity. Qed.

Example substring_middle : WString.substring "hello world" 6 9 = "wor".
Proof. reflexivity. Qed.

Example remove_from_index : WString.remove_from "abcdef" (Some 2%nat) = "ab".
Proof. reflexivity. Qed.

Example content_length_of_headers :
  Reader.content_length
    ("HTTP/1.1 200 OK" +:+ WString.CRLF +:+ "Content-Length: 5" +:+ WString.CRLF
     +:+ String WString.CR EmptyString)
  = Some 5.
Proof. vm_compute. reflexivity. Qed.

Example read_hello :
  readHTTPAnswer 1500 EmptyString (mkClient true [] [Data Fixture.hello_answer] [])
  = (true, "hello", mkClient true [] [] []).
Proof. vm_compute. reflexivity. Qed.

(** The body stops at [maxMessageLength]; the announced length is never
    reached and the flag stays false. *)
Example read_hello_truncated :
  readHTTPAnswer 3 EmptyString (mkClient true [] [Data Fixture.hello_answer] [])
  = (false, "hel", mkClient true [] [] []).
Proof. vm_compute. reflexivity. Qed.

Example read_deadline_first :
  readHTTPAnswer 1500 EmptyString
    (mkClient true [] [Deadline; Data Fixture.hello_answer] [])
  = (false, EmptyString, mkClient true [] [Data Fixture.hello_answer] []).
Proof. vm_compute. reflexivity. Qed.

(** The last run of digits of the first line lies over the start of the
    earlier, longer one. *)
Example updateId_overlay :
  getUpdateIdFromResponse Fixture.zeroed "{update_id:858301205,message_id:1234}"
  = Some 123401205.
Proof. vm_compute. reflexivity. Qed.

Example updateId_first_character_skipped :
  getUpdateIdFromResponse Fixture.zeroed "123y" = Some 23.
Proof. vm_compute. reflexivity. Qed.

(** An array full of digits has no end for [atol]. *)
Example updateId_unterminated :
  getUpdateIdFromResponse (fun _ => "1"%char) "x123y" = None.
Proof. vm_compute. reflexivity. Qed.

Example send_by_byte_blocks :
  map String.length (send_by_byte (repeat "a"%char 1030) [])
  = [512; 512; 6]%nat.
Proof. vm_compute. reflexivity. Qed.

Example getUpdates_one_message :
  let b := Fixture.bot (H := Fixture.std) 1500 0 [Fixture.answer "A"] in
  option_map
    (fun r : nat * @Bot Fixture.std =>
       (fst r, last_message_received (snd r),
        option_map (text (P := Fixture.std)) (messages (snd r) !! 0%nat),
        connected (client (snd r))))
    (getUpdates (P := Fixture.std) 0 b)
  = Some (1%nat, 5, Some "a", true).
Proof. vm_compute. reflexivity. Qed.

(** A response that fills the buffer and does not parse, then one that
    does: the call returns what its self-call decodes. *)
Example getUpdates_skips_then_decodes :
  let b := Fixture.bot (H := Fixture.std) 3 100 [Fixture.answer "#42"; Fixture.answer "A"] in
  option_map
    (fun r : nat * @Bot Fixture.std => (fst r, last_message_received (snd r)))
    (getUpdates (P := Fixture.std) 0 b)
  = Some (1%nat, 5)
  /\ seen_by (P := Fixture.std) 0 b = [5].
Proof. vm_compute. split; reflexivity. Qed.

Example multipart_closes :
  let b := Fixture.bot (H := Fixture.std) 1500 0 [Fixture.answer "A"] in
  let r := sendMultipartFormDataToTelegram (P := Fixture.std)
             "sendPhoto" "photo" "img.jpg" "image/jpeg" "77" 3
             (ByByte (list_ascii_of_string "abc")) b in
  fst r = "A"
  /\ connected (client (snd r)) = false
  /\ last (oplog (client (snd r))) = Some OpStop.
Proof. vm_compute. repeat split. Qed.

(** * Further properties of the code *)

(** ** The body that readHTTPAnswer returns *)

Lemma append_assoc (s1 s2 s3 : string) : (s1 +:+ s2) +:+ s3 = s1 +:+ (s2 +:+ s3).
Proof.
  induction s1 as [|c s1 IH]; [reflexivity|].
  change (String c ((s1 +:+ s2) +:+ s3) = String c (s1 +:+ (s2 +:+ s3))).
  now rewrite IH.
Qed.

Lemma append_empty_r (s : string) : s +:+ EmptyString = s.
Proof.
  induction s as [|c s IH]; [reflexivity|].
  change (String c (s +:+ EmptyString) = String c s). now rewrite IH.
Qed.

Lemma length_string_of_list (l : list ascii) :
  String.length (string_of_list_ascii l) = length l.
Proof. induction l as [|c l IH]; simpl; [reflexivity | now rewrite IH]. Qed.

Section ReaderBody.
Variable maxLen : Z.

Lemma read_char_body (r : reader) (c : ascii) :
  finishedHeaders r = true ->
  let r1 := Reader.read_char maxLen r c in
  finishedHeaders r1 = true
  /\ if ch_count r <? maxLen
     then body r1 = WString.push (body r) c /\ ch_count r1 = ch_count r + 1
     else body r1 = body r /\ ch_count r1 = ch_count r.
Proof.
  intros Hfin. cbv zeta. unfold Reader.read_char. rewrite Hfin. simpl.
  destruct (ch_count r <? maxLen); simpl; auto.
Qed.

(** Behind the blank line every byte is appended while there is room. *)
Lemma feed_appends (bytes : list ascii) (r : reader) :
  finishedHeaders r = true ->
  let room := Z.to_nat (maxLen - ch_count r) in
  body (Reader.feed maxLen bytes r)
  = body r +:+ string_of_list_ascii (take room bytes)
  /\ ch_count (Reader.feed maxLen bytes r)
     = ch_count r + Z.of_nat (length (take room bytes)).
Proof.
  revert r. induction bytes as [|c bytes IH]; intros r Hfin; cbv zeta.
  - rewrite take_nil. simpl. rewrite append_empty_r. split; [reflexivity | lia].
  - change (Reader.feed maxLen (c :: bytes) r)
      with (Reader.feed maxLen bytes (Reader.read_char maxLen r c)).
    destruct (read_char_body r c Hfin) as [Hfin1 Hstep].
    destruct (IH _ Hfin1) as [Hb Hc]. rewrite Hb, Hc.
    destruct (ch_count r <? maxLen) eqn:Hroom.
    + apply Z.ltb_lt in Hroom. destruct Hstep as [-> ->].
      replace (Z.to_nat (maxLen - ch_count r))
        with (S (Z.to_nat (maxLen - (ch_count r + 1)))) by lia.
      simpl. unfold WString.push. rewrite append_assoc.
      split; [reflexivity | lia].
    + apply Z.ltb_ge in Hroom. destruct Hstep as [-> ->].
      replace (Z.to_nat (maxLen - ch_count r)) with O by lia.
      rewrite !take_0. split; [reflexivity | lia].
Qed.

(** In front of the blank line nothing is appended; behind it, the bytes
    that follow it. *)
Lemma feed_body_bytes (bytes : list ascii) (r : reader) :
  finishedHeaders r = false -> ch_count r = 0 ->
  let taken := take (Z.to_nat maxLen) (body_bytes bytes (currentLineIsBlank r)) in
  body (Reader.feed maxLen bytes r) = body r +:+ string_of_list_ascii taken
  /\ ch_count (Reader.feed maxLen bytes r) = Z.of_nat (length taken).
Proof.
  revert r. induction bytes as [|c bytes IH]; intros r Hfin Hzero; cbv zeta.
  - simpl. rewrite take_nil. simpl. rewrite append_empty_r. auto.
  - change (Reader.feed maxLen (c :: bytes) r)
      with (Reader.feed maxLen bytes (Reader.read_char maxLen r c)).
    simpl body_bytes.
    destruct (currentLineIsBlank r && Ascii.eqb c WString.LF) eqn:Hend.
    + assert (Hstep : finishedHeaders (Reader.read_char maxLen r c) = true
                      /\ ch_count (Reader.read_char maxLen r c) = 0
                      /\ body (Reader.read_char maxLen r c) = body r).
      { unfold Reader.read_char. rewrite Hfin, Hend. simpl.
        destruct (Reader.content_length (headers r)); simpl; auto. }
      destruct Hstep as (H1 & H2 & H3).
      destruct (feed_appends bytes _ H1) as [Hb Hc].
      rewrite H2, H3, Z.sub_0_r in *. rewrite Hb, Hc. split; [reflexivity | lia].
    + assert (Hstep : finishedHeaders (Reader.read_char maxLen r c) = false
                      /\ ch_count (Reader.read_char maxLen r c) = 0
                      /\ body (Reader.read_char maxLen r c) = body r
                      /\ currentLineIsBlank (Reader.read_char maxLen r c)
                         = (if Ascii.eqb c WString.LF then true
                            else if Ascii.eqb c WString.CR
                                 then currentLineIsBlank r else false)).
      { unfold Reader.read_char. rewrite Hfin, Hend. simpl. auto. }
      destruct Hstep as (H1 & H2 & H3 & H4).
      destruct (IH _ H1 H2) as [Hb Hc]. rewrite H3, H4 in *. auto.
Qed.

End ReaderBody.

(** The locals of the loop after the bytes [bytes], in the words of the
    specification. *)
Lemma feed_completion (maxLen : Z) (body0 : string) (bytes : list ascii) :
  let r := Reader.feed maxLen bytes (Reader.init body0) in
  responseReceived r = completion maxLen bytes
  /\ body r = body0 +:+ string_of_list_ascii (accumulated maxLen bytes)
  /\ ch_count r = Z.of_nat (length (accumulated maxLen bytes))
  /\ toRead r = default 0 (found_content_length bytes).
Proof.
  cbv zeta.
  pose proof (reader_inv_feed maxLen (String.length body0) bytes _
                (reader_inv_init maxLen _ body0 eq_refl)) as [_ _ _ Hf _].
  pose proof (feed_headers maxLen bytes (Reader.init body0) eq_refl eq_refl) as Hhd.
  destruct (feed_body_bytes maxLen bytes (Reader.init body0) eq_refl eq_refl)
    as [Hbody Hcount].
  simpl in Hhd, Hbody, Hcount.
  assert (Hto : toRead (Reader.feed maxLen bytes (Reader.init body0))
                = default 0 (found_content_length bytes)).
  { unfold found_content_length.
    destruct (Reader.header_text bytes true EmptyString); tauto. }
  unfold completion, accumulated. repeat split; auto.
  rewrite Hf, Hto, Hcount.
  destruct (found_content_length bytes) as [n|]; reflexivity.
Qed.

(** The loop over the schedule ends where [reading] says. *)
Lemma loop_reading (maxLen : Z) (body0 : string) (sched : list tick) :
  forall seen : list ascii,
    Reader.loop maxLen sched (Reader.feed maxLen seen (Reader.init body0))
    = (Reader.feed maxLen (fst (reading maxLen sched seen)) (Reader.init body0),
       snd (reading maxLen sched seen)).
Proof.
  induction sched as [|t sched IH]; intros seen; [reflexivity|].
  destruct t as [bytes|]; [|reflexivity].
  cbn [Reader.loop reading].
  assert (Hfeed : Reader.feed maxLen bytes (Reader.feed maxLen seen (Reader.init body0))
                  = Reader.feed maxLen (seen ++ bytes) (Reader.init body0)).
  { unfold Reader.feed. now rewrite fold_left_app. }
  rewrite Hfeed.
  destruct (feed_completion maxLen body0 (seen ++ bytes)) as (-> & _).
  destruct (completion maxLen (seen ++ bytes)); [reflexivity | apply IH].
Qed.

(** The whole of [readHTTPAnswer]: the bytes it reads, its flag, the body
    and the schedule it leaves. *)
Lemma readHTTPAnswer_reading (maxLen : Z) (body0 : string) (c : Client) :
  readHTTPAnswer maxLen body0 c
  = (completion maxLen (fst (reading maxLen (rx c) [])),
     body0 +:+ string_of_list_ascii (accumulated maxLen (fst (reading maxLen (rx c) []))),
     ClientOps.set_rx c (snd (reading maxLen (rx c) []))).
Proof.
  unfold readHTTPAnswer, Reader.run.
  change (Reader.init body0) with (Reader.feed maxLen [] (Reader.init body0)).
  rewrite loop_reading.
  destruct (feed_completion maxLen body0 (fst (reading maxLen (rx c) [])))
    as (-> & -> & _).
  reflexivity.
Qed.

(** C3 (as amended). [readHTTPAnswer] tests completion each time the
    transport has handed out the bytes it had, and ends at the first test
    that holds or at the deadline. [seen] being the bytes read by then: the
    body is the string given followed by the body bytes accumulated, never
    more than [maxMessageLength]; the flag returned is: with a positive
    content-length found in the headers, true exactly when the count of
    body bytes accumulated equals it; otherwise (none found, or a value
    that is not positive) true exactly when one body byte at least was
    accumulated. The locals [toRead] and [ch_count] of the loop are that
    content-length (0 when none was found) and that count. *)
Theorem readHTTPAnswer_completion (maxLen : Z) (body0 : string) (c : Client) :
  let seen := fst (reading maxLen (rx c) []) in
  let rest := snd (reading maxLen (rx c) []) in
  let count := Z.of_nat (length (accumulated maxLen seen)) in
  let r := Reader.feed maxLen seen (Reader.init body0) in
  readHTTPAnswer maxLen body0 c
  = (completion maxLen seen,
     body0 +:+ string_of_list_ascii (accumulated maxLen seen),
     ClientOps.set_rx c rest)
  /\ Reader.flatten (rx c) = seen ++ Reader.flatten rest
  /\ 0 <= count <= Z.max 0 maxLen
  /\ completion maxLen seen
     = match found_content_length seen with
       | Some n => if 0 <? n then count =? n else 0 <? count
       | None => 0 <? count
       end
  /\ readHTTPAnswer maxLen body0 c = (responseReceived r, body r, ClientOps.set_rx c rest)
  /\ ch_count r = count
  /\ toRead r = default 0 (found_content_length seen).
Proof.
  cbv zeta.
  destruct (feed_completion maxLen body0 (fst (reading maxLen (rx c) [])))
    as (Hflag & Hbody & Hcount & Hto).
  split; [apply readHTTPAnswer_reading|].
  split.
  { assert (Hflat : forall sched seen,
               seen ++ Reader.flatten sched
               = fst (reading maxLen sched seen)
                 ++ Reader.flatten (snd (reading maxLen sched seen))).
    { induction sched as [|t sched IH]; intros seen; [reflexivity|].
      destruct t as [bytes|]; [|reflexivity].
      cbn [reading]. unfold Reader.flatten at 1. simpl.
      fold (Reader.flatten sched). rewrite app_assoc.
      destruct (completion maxLen (seen ++ bytes)); [reflexivity | apply IH]. }
    apply (Hflat (rx c) []). }
  split.
  { unfold accumulated. rewrite length_take. lia. }
  split; [reflexivity|].
  split; [|auto].
  rewrite readHTTPAnswer_reading, Hflag, Hbody. reflexivity.
Qed.

(** A first body byte that arrives in a later burst ends the reading with
    true; with a buffer of no room the same stream is read to its end and
    the flag is false. *)
Example read_body_in_later_burst :
  let c := mkClient true []
             [Data (list_ascii_of_string ("HTTP/1.1 200 OK" +:+ WString.CRLF));
              Data (list_ascii_of_string (WString.CRLF +:+ "hey"));
              Data (list_ascii_of_string "more")] [] in
  readHTTPAnswer 1500 EmptyString c
  = (true, "hey", ClientOps.set_rx c [Data (list_ascii_of_string "more")])
  /\ readHTTPAnswer 0 EmptyString c = (false, EmptyString, ClientOps.set_rx c []).
Proof. cbv zeta. split; vm_compute; reflexivity. Qed.

(** X1. The string that [readHTTPAnswer] leaves in [body] is the string it
    was given followed by the first [maxMessageLength] bytes that come
    after the first blank line of the bytes it read; what it did not read
    stays in the transport. *)
Theorem readHTTPAnswer_body (maxLen : Z) (body0 : string) (c : Client) :
  exists bytes flag c',
    readHTTPAnswer maxLen body0 c
    = (flag,
       body0 +:+ string_of_list_ascii (take (Z.to_nat maxLen) (body_bytes bytes true)),
       c')
    /\ Reader.flatten (rx c) = bytes ++ Reader.flatten (rx c')
    /\ connected c' = connected c
    /\ oplog c' = oplog c.
Proof.
  destruct (loop_feed maxLen (rx c) (Reader.init body0)) as (bytes & Hfst & Hflat).
  destruct (feed_body_bytes maxLen bytes (Reader.init body0) eq_refl eq_refl)
    as [Hbody _].
  exists bytes. unfold readHTTPAnswer, Reader.run.
  destruct (Reader.loop maxLen (rx c) (Reader.init body0)) as [r rest].
  simpl in *. subst r. eexists _, _. rewrite Hbody. simpl. repeat split. exact Hflat.
Qed.

(** X2. [readHTTPAnswer] answers true only when it has appended at least
    one character to [body]. *)
Theorem readHTTPAnswer_true_grows (maxLen : Z) (body0 : string) (c : Client) :
  fst (fst (readHTTPAnswer maxLen body0 c)) = true ->
  (String.length body0 < String.length (snd (fst (readHTTPAnswer maxLen body0 c))))%nat.
Proof.
  destruct (loop_feed maxLen (rx c) (Reader.init body0)) as (bytes & Hfst & _).
  pose proof (reader_inv_feed maxLen (String.length body0) bytes _
                (reader_inv_init maxLen _ body0 eq_refl)) as [Hb Hl _ Hf _].
  unfold readHTTPAnswer, Reader.run.
  destruct (Reader.loop maxLen (rx c) (Reader.init body0)) as [r rest].
  simpl in *. subst r. intros Hflag. rewrite Hflag in Hf.
  destruct (0 <? toRead _) eqn:Hto.
  - apply Z.ltb_lt in Hto. symmetry in Hf. apply Z.eqb_eq in Hf. lia.
  - symmetry in Hf. apply Z.ltb_lt in Hf. lia.
Qed.

(** X3. An answer that arrives in one burst, whose headers carry a positive
    content-length and whose body has exactly that many bytes and fits the
    buffer, is read whole: the flag is true, [body] gains the body of the
    answer, and the rest of the schedule is left for the next call. *)
Theorem readHTTPAnswer_whole_answer (maxLen : Z) (body0 : string) (c : Client)
    (bytes : list ascii) (rest : list tick) (h : string) (n : Z) :
  rx c = Data bytes :: rest ->
  Reader.header_text bytes true EmptyString = Some h ->
  Reader.content_length h = Some n ->
  0 < n ->
  Z.of_nat (length (body_bytes bytes true)) = n ->
  n <= maxLen ->
  readHTTPAnswer maxLen body0 c
  = (true, body0 +:+ string_of_list_ascii (body_bytes bytes true),
     ClientOps.set_rx c rest).
Proof.
  intros Hrx Hh Hcl Hpos Hlen Hfit.
  unfold readHTTPAnswer, Reader.run. rewrite Hrx. simpl.
  pose proof (feed_headers maxLen bytes (Reader.init body0) eq_refl eq_refl) as Hhd.
  simpl in Hhd. rewrite Hh, Hcl in Hhd. simpl in Hhd. destruct Hhd as [_ Hto].
  destruct (feed_body_bytes maxLen bytes (Reader.init body0) eq_refl eq_refl)
    as [Hbody Hcount].
  simpl in Hbody, Hcount.
  rewrite take_ge in Hbody, Hcount by lia.
  pose proof (reader_inv_feed maxLen (String.length body0) bytes _
                (reader_inv_init maxLen _ body0 eq_refl)) as [_ _ _ Hf _].
  rewrite Hto, Hcount, Hlen in Hf.
  assert (Hn : (0 <? n) = true) by (apply Z.ltb_lt; lia).
  rewrite Hn, Z.eqb_refl in Hf. rewrite Hf. cbv beta iota zeta.
  rewrite Hf, Hbody. reflexivity.
Qed.

Lemma body_bytes_prefix (l1 l2 : list ascii) :
  forall blank, body_bytes (l1 ++ l2) blank = [] -> body_bytes l1 blank = [].
Proof.
  induction l1 as [|x l1 IH]; intros blank; simpl; [reflexivity|].
  destruct (blank && Ascii.eqb x WString.LF).
  - intros Hnil. now apply app_eq_nil in Hnil.
  - apply IH.
Qed.

Lemma completion_no_body (maxLen : Z) (bytes : list ascii) :
  body_bytes bytes true = [] -> completion maxLen bytes = false.
Proof.
  intros Hnil. unfold completion, accumulated. rewrite Hnil, take_nil.
  change (Z.of_nat (length (@nil ascii))) with 0.
  destruct (found_content_length bytes) as [n|]; [|reflexivity].
  destruct (0 <? n) eqn:Hn; [|reflexivity].
  apply Z.ltb_lt in Hn. apply Z.eqb_neq. lia.
Qed.

(** Bursts that bring no body byte do not end the reading. *)
Lemma reading_no_body (maxLen : Z) (early : list (list ascii)) :
  forall (seen : list ascii) (later : list tick),
    body_bytes (seen ++ concat early) true = [] ->
    reading maxLen (map Data early ++ later) seen
    = reading maxLen later (seen ++ concat early).
Proof.
  induction early as [|burst early IH]; intros seen later Hnil; simpl.
  - now rewrite app_nil_r.
  - simpl in Hnil. rewrite app_assoc in Hnil.
    rewrite (completion_no_body maxLen (seen ++ burst))
      by (eapply body_bytes_prefix; exact Hnil).
    rewrite (IH _ _ Hnil). now rewrite <- app_assoc.
Qed.

(** X4. Without a positive content-length, and with a positive
    [maxMessageLength], the first burst that brings a body byte ends the
    reading, however many bursts came before it: the flag is true, [body]
    gains what the bursts up to that one held behind the blank line (up to
    [maxMessageLength] bytes), and everything that comes later is left in
    the transport. *)
Theorem readHTTPAnswer_first_burst (maxLen : Z) (body0 : string) (c : Client)
    (early : list (list ascii)) (bytes : list ascii) (rest : list tick) :
  rx c = map Data early ++ Data bytes :: rest ->
  body_bytes (concat early) true = [] ->
  body_bytes (concat early ++ bytes) true <> [] ->
  default 0 (found_content_length (concat early ++ bytes)) <= 0 ->
  0 < maxLen ->
  readHTTPAnswer maxLen body0 c
  = (true,
     body0 +:+ string_of_list_ascii (accumulated maxLen (concat early ++ bytes)),
     ClientOps.set_rx c rest).
Proof.
  intros Hrx Hearly Hne Hcl Hroom.
  assert (Hdone : completion maxLen (concat early ++ bytes) = true).
  { unfold completion, accumulated.
    assert (Hsome : 0 < Z.of_nat (length (take (Z.to_nat maxLen)
                                            (body_bytes (concat early ++ bytes) true)))).
    { rewrite length_take.
      destruct (body_bytes (concat early ++ bytes) true); [congruence | simpl; lia]. }
    destruct (found_content_length (concat early ++ bytes)) as [n|]; simpl in Hcl.
    - assert (Hn : (0 <? n) = false) by (apply Z.ltb_ge; lia).
      rewrite Hn. now apply Z.ltb_lt.
    - now apply Z.ltb_lt. }
  rewrite readHTTPAnswer_reading, Hrx, (reading_no_body maxLen early [] _ Hearly).
  cbn [reading app]. rewrite Hdone. cbn [fst snd]. now rewrite Hdone.
Qed.

(** X5. A stream without a blank line gives no body: the flag is false and
    [body] is as it was given. *)
Theorem readHTTPAnswer_no_blank_line (maxLen : Z) (body0 : string) (c : Client) :
  Reader.header_text (Reader.flatten (rx c)) true EmptyString = None ->
  fst (readHTTPAnswer maxLen body0 c) = (false, body0).
Proof.
  intros Hnone.
  destruct (loop_feed maxLen (rx c) (Reader.init body0)) as (bytes & Hfst & Hflat).
  assert (Hprefix : forall l1 l2 blank acc,
             Reader.header_text (l1 ++ l2) blank acc = None ->
             Reader.header_text l1 blank acc = None).
  { induction l1 as [|x l1 IH]; intros l2 blank acc; simpl; [reflexivity|].
    destruct (blank && Ascii.eqb x WString.LF); [discriminate | apply IH]. }
  rewrite Hflat in Hnone. apply Hprefix in Hnone.
  pose proof (feed_headers maxLen bytes (Reader.init body0) eq_refl eq_refl) as Hhd.
  simpl in Hhd. rewrite Hnone in Hhd. destruct Hhd as [Hfin Hto].
  pose proof (reader_inv_feed maxLen (String.length body0) bytes _
                (reader_inv_init maxLen _ body0 eq_refl)) as [Hb _ _ Hf Hhd].
  specialize (Hhd Hfin).
  assert (Hsame : forall l r, finishedHeaders (Reader.feed maxLen l r) = false ->
                              body (Reader.feed maxLen l r) = body r).
  { induction l as [|x l IH]; intros r Hend; simpl in *; [reflexivity|].
    rewrite (IH _ Hend).
    destruct (finishedHeaders (Reader.read_char maxLen r x)) eqn:Hx.
    - destruct (feed_body maxLen l _ Hx) as [Hcontra _]. congruence.
    - unfold Reader.read_char in *. destruct (finishedHeaders r); simpl in *.
      + destruct (ch_count r <? maxLen); simpl in *; congruence.
      + destruct (currentLineIsBlank r && Ascii.eqb x WString.LF); simpl in *.
        * destruct (Reader.content_length (headers r)); simpl in *; congruence.
        * reflexivity. }
  unfold readHTTPAnswer, Reader.run.
  destruct (Reader.loop maxLen (rx c) (Reader.init body0)) as [r rest].
  simpl in *. subst r. rewrite Hf, Hto, Hhd. simpl.
  now rewrite (Hsame _ _ Hfin).
Qed.

(** ** The engine against a transport that refuses, and the upload *)

Section EngineFacts.
Context {P : Platform}.

(** X6. When the transport is not connected and refuses the connect, each
    of the three send functions returns the empty string; the one thing it
    did is the refused [connect]: nothing was written, nothing read, and no
    [stop] issued. *)
Theorem refused_connection (b : Bot) :
  connected (client b) = false ->
  head (connect_script (client b)) <> Some true ->
  let refused :=
    set_client (mkClient false (tail (connect_script (client b)))
                         (rx (client b)) (oplog (client b) ++ [OpConnect false])) b in
  (forall command, sendGetToTelegram command b = (EmptyString, refused))
  /\ (forall command payload,
         sendPostToTelegram command payload b = (EmptyString, refused))
  /\ (forall command binaryPropertyName fileName contentType chat_id fileSize src,
         sendMultipartFormDataToTelegram command binaryPropertyName fileName
           contentType chat_id fileSize src b = (EmptyString, refused)).
Proof.
  intros Hc Hs. cbv zeta.
  assert (He : ensure_connection b
               = set_client (mkClient false (tail (connect_script (client b)))
                               (rx (client b)) (oplog (client b) ++ [OpConnect false])) b).
  { unfold ensure_connection, ClientOps.connect. rewrite Hc.
    destruct (connect_script (client b)) as [|[|] script]; simpl; auto.
    now elim Hs. }
  split; [|split]; intros.
  - unfold sendGetToTelegram. rewrite He. reflexivity.
  - unfold sendPostToTelegram. rewrite He. reflexivity.
  - unfold sendMultipartFormDataToTelegram. rewrite He. reflexivity.
Qed.

End EngineFacts.

Lemma send_by_byte_from (bytes buffer : list ascii) :
  (length buffer < 512)%nat ->
  exists full rest,
    send_by_byte bytes buffer = full ++ rest
    /\ Forall (fun s => String.length s = 512%nat) full
    /\ (rest = [] \/ exists s, rest = [s] /\ (0 < String.length s < 512)%nat)
    /\ concat (map list_ascii_of_string (send_by_byte bytes buffer))
       = buffer ++ bytes.
Proof.
  revert buffer. induction bytes as [|x bytes IH]; intros buffer Hlen; simpl.
  - destruct (0 <? length buffer)%nat eqn:Hpos.
    + apply Nat.ltb_lt in Hpos. exists [], [string_of_list_ascii buffer].
      split; [reflexivity|]. split; [constructor|]. split.
      * right. eexists. split; [reflexivity|]. rewrite length_string_of_list. lia.
      * simpl. rewrite list_ascii_of_string_of_list_ascii. now rewrite !app_nil_r.
    + apply Nat.ltb_ge in Hpos. exists [], []. repeat split; auto.
      destruct buffer; [reflexivity | simpl in Hpos; lia].
  - destruct (length (buffer ++ [x]) =? 512)%nat eqn:Hfull.
    + apply Nat.eqb_eq in Hfull.
      destruct (IH [] ltac:(simpl; lia)) as (full & rest & Hsplit & Hall & Hrest & Hcat).
      exists (string_of_list_ascii (buffer ++ [x]) :: full), rest.
      split; [rewrite Hsplit; reflexivity|]. split.
      * constructor; [|exact Hall]. now rewrite length_string_of_list.
      * split; [exact Hrest|]. simpl. rewrite Hcat.
        rewrite list_ascii_of_string_of_list_ascii. simpl. now rewrite <- app_assoc.
    + apply Nat.eqb_neq in Hfull.
      assert (Hlen' : (length (buffer ++ [x]) < 512)%nat).
      { rewrite length_app in *. simpl in *. lia. }
      destruct (IH _ Hlen') as (full & rest & Hsplit & Hall & Hrest & Hcat).
      exists full, rest. repeat split; auto. rewrite Hcat. now rewrite <- app_assoc.
Qed.

(** X7. The bytes of a source that hands out single bytes reach the
    transport in order and unchanged, in writes of 512 bytes followed, when
    the count is not a multiple of 512, by one shorter write. *)
Theorem upload_in_blocks (bytes : list ascii) :
  exists full rest,
    send_data (ByByte bytes) = full ++ rest
    /\ Forall (fun s => String.length s = 512%nat) full
    /\ (rest = [] \/ exists s, rest = [s] /\ (0 < String.length s < 512)%nat)
    /\ concat (map list_ascii_of_string (send_data (ByByte bytes))) = bytes.
Proof.
  destruct (send_by_byte_from bytes [] ltac:(simpl; lia))
    as (full & rest & H1 & H2 & H3 & H4).
  exists full, rest. simpl. auto.
Qed.

Section UploadFacts.
Context {P : Platform}.

(** X8. When the transport is connected and [fileSize] is the number of
    bytes that the data source hands out, the number written after
    [Content-Length: ] by [sendMultipartFormDataToTelegram] is the number
    of bytes it writes after the blank line that ends the headers (as an
    [int]); the last operation of the call is the [stop]. *)
Theorem multipart_content_length
    (command binaryPropertyName fileName contentType chat_id : string)
    (fileSize : Z) (src : DataSource) (b : Bot) :
  connected (client (ensure_connection b)) = true ->
  fileSize = Z.of_nat (sum_list (map String.length (send_data src))) ->
  exists first body,
    oplog (client (snd (sendMultipartFormDataToTelegram command binaryPropertyName
                          fileName contentType chat_id fileSize src b)))
    = oplog (client (ensure_connection b))
      ++ map OpWrite
           (first
            ++ [ "Content-Length: ";
                 WString.of_Z
                   (WString.wrap_long (Z.of_nat (sum_list (map String.length body))));
                 WString.CRLF;
                 "Content-Type: multipart/form-data; boundary="; boundary;
                 WString.CRLF; WString.CRLF ]
            ++ body)
      ++ [OpStop].
Proof.
  intros Hconn Hsize. unfold sendMultipartFormDataToTelegram. rewrite Hconn.
  cbv zeta.
  match goal with
  | |- context [ClientOps.print ?st ++ send_data src ++ ClientOps.print ?en] =>
      set (start_request := st); set (end_request := en);
      clearbody start_request end_request
  end.
  match goal with |- context [exchange ?req ?b1] =>
    pose proof (exchange_client req b1) as Hex; destruct (exchange req b1) as [answer b2]
  end.
  simpl in Hex. destruct Hex as (Hc & _ & Hlog). simpl.
  unfold closeClient. rewrite Hc, Hconn. simpl. rewrite Hlog.
  exists [ "POST /"; buildCommand (ensure_connection b) command; " HTTP/1.1";
           WString.CRLF; "Host: " +:+ TELEGRAM_HOST; WString.CRLF;
           "User-Agent: arduino/1.0"; WString.CRLF; "Accept: */*"; WString.CRLF ],
         ([start_request] ++ send_data src ++ [end_request]).
  assert (Hsum : fileSize + Z.of_nat (String.length start_request)
                 + Z.of_nat (String.length end_request)
                 = Z.of_nat (sum_list (map String.length
                                         ([start_request] ++ send_data src ++ [end_request])))).
  { rewrite Hsize, !map_app, !sum_list_with_app. simpl. unfold id. lia. }
  rewrite <- Hsum, <- app_assoc. reflexivity.
Qed.

End UploadFacts.

(** ** What getUpdates keeps and what it closes *)

Section PollFacts.
Context {P : Platform}.

Lemma only_client_settings (b b' : Bot) : only_client b b' -> same_settings b b'.
Proof. intros [c ->]. repeat split. Qed.

Lemma same_settings_trans (b1 b2 b3 : Bot) :
  same_settings b1 b2 -> same_settings b2 b3 -> same_settings b1 b3.
Proof. unfold same_settings. intuition congruence. Qed.

Lemma processResult_settings (result : Json) (i : nat) (b : Bot) (decoded : bool)
    (b' : Bot) :
  processResult result i b = Some (decoded, b') -> same_settings b b'.
Proof.
  unfold processResult.
  destruct (negb (last_message_received b =? update_id_of result)).
  - destruct (messages _ !! i) as [slot|]; [|discriminate].
    pose proof (decode_frame result (assign (reset_slot (update_id_of result)) slot)
                  (set_last_message_received (update_id_of result) b)) as [Hfr _].
    destruct (decode _ _ _) as [m b2]. simpl in Hfr. destruct Hfr as [c ->].
    intros [= <- <-]. repeat split.
  - intros [= <- <-]. repeat split.
Qed.

Lemma process_results_frame (results : list Json) (i : nat) (b : Bot) (n : nat)
    (b' : Bot) :
  process_results results i b = Some (n, b') ->
  (i <= length (messages b))%nat ->
  same_settings b b'
  /\ length (messages b') = length (messages b)
  /\ (i <= n <= length (messages b))%nat.
Proof.
  revert i b. induction results as [|result rest IH]; intros i b; simpl.
  - intros [= <- <-] Hi. refine (conj _ (conj eq_refl _)); [|lia]. repeat split.
  - destruct (processResult result i b) as [[decoded b1]|] eqn:Hstep; [|discriminate].
    pose proof (processResult_settings _ _ _ _ _ Hstep) as Hset.
    apply processResult_cases in Hstep
      as [(_ & -> & ->) | (_ & -> & _ & Hidx & m & _ & Hmsgs)].
    + intros Hrest Hi. apply IH in Hrest; auto.
    + intros Hrest Hi. apply IH in Hrest.
      * rewrite Hmsgs, length_insert in Hrest.
        destruct Hrest as (H1 & H2 & H3).
        refine (conj _ (conj H2 _)); [|lia].
        eapply same_settings_trans; eauto.
      * rewrite Hmsgs, length_insert. lia.
Qed.

Lemma getUpdates_fuel_frame (fuel : nat) (offset : Z) (b : Bot) (n : nat) (b' : Bot) :
  getUpdates_fuel fuel offset b = Some (n, b') ->
  same_settings b b'
  /\ length (messages b') = length (messages b)
  /\ (n <= length (messages b))%nat.
Proof.
  revert offset b. induction fuel as [|fuel IH]; intros offset b; simpl;
    [discriminate|].
  pose proof (sendGetToTelegram_only_client (getUpdates_command offset b) b) as Hfr.
  destruct (sendGetToTelegram (getUpdates_command offset b) b) as [response b1].
  simpl in Hfr.
  assert (Hclose : only_client b (closeClient b1))
    by (eapply only_client_trans; [exact Hfr | apply closeClient_only_client]).
  assert (Hidle : same_settings b (closeClient b1)
                  /\ length (messages (closeClient b1)) = length (messages b)
                  /\ (0 <= length (messages b))%nat).
  { destruct (only_client_fields _ _ Hclose) as (_ & Hm & _).
    refine (conj _ (conj _ _)); [now apply only_client_settings | now rewrite Hm | lia]. }
  destruct (getUpdateIdFromResponse _ _) as [updateId|]; [|discriminate].
  destruct (String.eqb response EmptyString); [intros [= <- <-]; exact Hidle|].
  destruct (deserializeJson response) as [doc|].
  - destruct (_ && _).
    + intros Hrun. apply process_results_frame in Hrun; [|lia].
      destruct (only_client_fields _ _ Hfr) as (_ & Hm & _). rewrite Hm in Hrun.
      destruct Hrun as (H1 & H2 & H3).
      refine (conj _ (conj H2 _)); [|lia].
      apply (same_settings_trans b b1 b'); [now apply only_client_settings | exact H1].
    + intros [= <- <-]. exact Hidle.
  - destruct (_ =? _).
    + intros Hrun. apply IH in Hrun. destruct Hidle as (H1 & H2 & _).
      rewrite H2 in Hrun. destruct Hrun as (H3 & H4 & H5).
      refine (conj _ (conj H4 H5)).
      apply (same_settings_trans b (closeClient b1) b'); assumption.
    + intros [= <- <-]. exact Hidle.
Qed.

(** X9. A call of [getUpdates] that returns leaves the token, the buffer
    size, the long-poll settings and the identifier of the last message
    sent as they were; the array of records keeps its capacity, and the
    count returned never exceeds it. *)
Theorem getUpdates_keeps (offset : Z) (b : Bot) (n : nat) (b' : Bot) :
  getUpdates offset b = Some (n, b') ->
  same_settings b b'
  /\ length (messages b') = length (messages b)
  /\ (n <= length (messages b))%nat.
Proof. apply getUpdates_fuel_frame. Qed.

(** X10. A response that brings more new elements than [messages] has
    records takes [getUpdates] beyond the array: the call has no defined
    result. *)
Theorem getUpdates_overflow (offset : Z) (b : Bot) :
  (length (messages b)
   < length (deliver (last_message_received b) (seen_by offset b)))%nat ->
  getUpdates offset b = None.
Proof.
  intros Hmany. destruct (getUpdates offset b) as [[n b']|] eqn:Hrun; [|reflexivity].
  destruct (getUpdates_spec _ _ _ _ Hrun) as (_ & Hn & _).
  destruct (getUpdates_fuel_frame _ _ _ _ _ Hrun) as (_ & _ & Hle). lia.
Qed.

Lemma getUpdates_fuel_idle (fuel : nat) (offset : Z) (b : Bot) (n : nat) (b' : Bot) :
  getUpdates_fuel fuel offset b = Some (n, b') ->
  seen_fuel fuel offset b = [] ->
  n = O /\ connected (client b') = false /\ only_client b b'.
Proof.
  revert offset b. induction fuel as [|fuel IH]; intros offset b; simpl;
    [discriminate|].
  pose proof (sendGetToTelegram_only_client (getUpdates_command offset b) b) as Hfr.
  destruct (sendGetToTelegram (getUpdates_command offset b) b) as [response b1].
  simpl in Hfr.
  assert (Hclose : only_client b (closeClient b1))
    by (eapply only_client_trans; [exact Hfr | apply closeClient_only_client]).
  pose proof (closeClient_disconnects b1) as Hoff.
  destruct (getUpdateIdFromResponse _ _) as [updateId|]; [|discriminate].
  destruct (String.eqb response EmptyString); [intros [= <- <-]; auto|].
  destruct (deserializeJson response) as [doc|].
  - unfold ids_of. destruct (JsonOps.containsKey doc "result"); simpl.
    + destruct (JsonOps.items (JsonOps.member doc "result")) as [|r rs].
      * intros [= <- <-]; auto.
      * simpl. discriminate.
    + intros [= <- <-]; auto.
  - destruct (_ =? _).
    + intros Hrun Hseen. destruct (IH _ _ Hrun Hseen) as (H1 & H2 & H3).
      split; [exact H1|]. split; [exact H2|].
      eapply only_client_trans; eauto.
    + intros [= <- <-]; auto.
Qed.

(** X11. A call of [getUpdates] that steps through no element (empty
    response, response that does not parse, no result, empty result)
    returns 0 with the transport closed, and changes nothing but the
    transport. *)
Theorem getUpdates_nothing_seen (offset : Z) (b : Bot) (n : nat) (b' : Bot) :
  getUpdates offset b = Some (n, b') ->
  seen_by offset b = [] ->
  n = O /\ connected (client b') = false /\ only_client b b'.
Proof. apply getUpdates_fuel_idle. Qed.

End PollFacts.

(** ** The records that processResult fills *)

Section RecordFacts.
Context {P : Platform}.

Lemma getFile_disconnects (file_id : string) (b : Bot) :
  connected (client (snd (getFile file_id b))) = false.
Proof.
  unfold getFile. destruct (sendGetToTelegram _ b) as [response b1].
  destruct (deserializeJson response) as [doc|];
    [destruct (JsonOps.containsKey doc "result")|]; simpl;
    apply closeClient_disconnects.
Qed.

Lemma decode_without_file (result : Json) (m : telegramMessage) (b : Bot) :
  fetches_file result = false -> snd (decode result m b) = b.
Proof.
  unfold fetches_file, decode. cbv zeta.
  destruct (JsonOps.containsKey result "message"); simpl.
  - unfold decode_message.
    destruct (JsonOps.containsKey _ "text"); [reflexivity|].
    destruct (JsonOps.containsKey _ "location"); [reflexivity|].
    destruct (JsonOps.containsKey _ "document"); [discriminate|].
    destruct (JsonOps.containsKey _ "contact"); reflexivity.
  - intros _. destruct (JsonOps.containsKey result "channel_post"); [reflexivity|].
    destruct (JsonOps.containsKey result "callback_query"); [reflexivity|].
    destruct (JsonOps.containsKey result "edited_message"); reflexivity.
Qed.

(** [processResult] uses the transport for one kind of element only, a
    [message] with a [document] and neither [text] nor [location]; on any
    other element the transport is left exactly as it was. *)
Lemma processResult_leaves_transport (result : Json) (messageIndex : nat)
    (b : Bot) (decoded : bool) (b' : Bot) :
  processResult result messageIndex b = Some (decoded, b') ->
  fetches_file result = false ->
  client b' = client b.
Proof.
  unfold processResult. intros Hrun Hno.
  destruct (negb (last_message_received b =? update_id_of result)).
  - destruct (messages _ !! messageIndex) as [slot|]; [|discriminate].
    pose proof (decode_without_file result
                  (assign (reset_slot (update_id_of result)) slot)
                  (set_last_message_received (update_id_of result) b) Hno) as Hb.
    destruct (decode _ _ _) as [m b2]. simpl in Hb. subst b2.
    injection Hrun as _ <-. reflexivity.
  - injection Hrun as _ <-. reflexivity.
Qed.

(** X13. An element with none of the four keys that the dispatch knows is
    counted as a new message all the same: the watermark moves to its
    identifier, and the record keeps the type tag, the date, the chat and
    the message identifier that the record held before. *)
Theorem unknown_kind_decoded (result : Json) (messageIndex : nat) (b : Bot)
    (slot : telegramMessage) :
  JsonOps.containsKey result "message" = false ->
  JsonOps.containsKey result "channel_post" = false ->
  JsonOps.containsKey result "callback_query" = false ->
  JsonOps.containsKey result "edited_message" = false ->
  update_id_of result <> last_message_received b ->
  messages b !! messageIndex = Some slot ->
  exists b' m,
    processResult result messageIndex b = Some (true, b')
    /\ last_message_received b' = update_id_of result
    /\ messages b' !! messageIndex = Some m
    /\ update_id m = update_id_of result
    /\ type m = type slot /\ date m = date slot
    /\ chat_id m = chat_id slot /\ chat_title m = chat_title slot
    /\ message_id m = message_id slot
    /\ text m = EmptyString /\ from_id m = EmptyString.
Proof.
  intros H1 H2 H3 H4 Hnew Hslot.
  rewrite (processResult_decodes result messageIndex b slot Hnew Hslot).
  unfold decode. rewrite H1, H2, H3, H4.
  eexists _, _. split; [reflexivity|]. simpl. split; [reflexivity|]. split.
  { apply list_lookup_insert_eq. now apply lookup_lt_Some in Hslot. }
  repeat split.
Qed.

(** X14. An element with a [channel_post] key and no [message] key, once
    decoded: type tag, text, date, chat and message identifier come from
    the post; sender, location, reply, query and contact fields are
    empty. *)
Theorem channel_post_decoded (result : Json) (messageIndex : nat) (b : Bot) :
  JsonOps.containsKey result "message" = false ->
  JsonOps.containsKey result "channel_post" = true ->
  update_id_of result <> last_message_received b ->
  (messageIndex < length (messages b))%nat ->
  let post := JsonOps.member result "channel_post" in
  exists b' m,
    processResult result messageIndex b = Some (true, b')
    /\ messages b' !! messageIndex = Some m
    /\ type m = "channel_post"
    /\ text m = as_String (JsonOps.member post "text")
    /\ date m = as_String (JsonOps.member post "date")
    /\ chat_id m = str_at post "chat" "id"
    /\ chat_title m = str_at post "chat" "title"
    /\ message_id m = as_int (JsonOps.member post "message_id")
    /\ from_id m = EmptyString /\ from_name m = EmptyString
    /\ longitude m = float_zero /\ latitude m = float_zero
    /\ reply_to_message_id m = 0 /\ reply_to_text m = EmptyString
    /\ query_id m = EmptyString
    /\ contact_phone_number m = EmptyString
    /\ contact_name m = EmptyString /\ contact_id m = EmptyString.
Proof.
  intros Hmsg Hpost Hnew Hidx post.
  destruct (lookup_lt_is_Some_2 (messages b) messageIndex Hidx) as [slot Hslot].
  rewrite (processResult_decodes result messageIndex b slot Hnew Hslot).
  unfold decode. rewrite Hmsg, Hpost.
  eexists _, _. split; [reflexivity|]. split.
  { simpl. apply list_lookup_insert_eq. exact Hidx. }
  simpl. repeat split.
Qed.

(** X15. An element with an [edited_message] key and none of the three keys
    tried before it, once decoded: the text is taken when the message has a
    [text]; the position only when it has a [location] and no [text]. The
    reply and contact fields stay empty whatever the edited message
    carries. *)
Theorem edited_message_decoded (result : Json) (messageIndex : nat) (b : Bot) :
  JsonOps.containsKey result "message" = false ->
  JsonOps.containsKey result "channel_post" = false ->
  JsonOps.containsKey result "callback_query" = false ->
  JsonOps.containsKey result "edited_message" = true ->
  update_id_of result <> last_message_received b ->
  (messageIndex < length (messages b))%nat ->
  let message := JsonOps.member result "edited_message" in
  let has_text := JsonOps.containsKey message "text" in
  let has_location := JsonOps.containsKey message "location" in
  exists b' m,
    processResult result messageIndex b = Some (true, b')
    /\ messages b' !! messageIndex = Some m
    /\ type m = "edited_message"
    /\ from_id m = str_at message "from" "id"
    /\ chat_id m = str_at message "chat" "id"
    /\ message_id m = as_int (JsonOps.member message "message_id")
    /\ text m = (if has_text then as_String (JsonOps.member message "text")
                 else EmptyString)
    /\ longitude m
       = (if negb has_text && has_location
          then as_float (JsonOps.member (JsonOps.member message "location") "longitude")
          else float_zero)
    /\ latitude m
       = (if negb has_text && has_location
          then as_float (JsonOps.member (JsonOps.member message "location") "latitude")
          else float_zero)
    /\ reply_to_message_id m = 0 /\ reply_to_text m = EmptyString
    /\ contact_phone_number m = EmptyString
    /\ contact_name m = EmptyString /\ contact_id m = EmptyString.
Proof.
  intros H1 H2 H3 H4 Hnew Hidx message has_text has_location.
  destruct (lookup_lt_is_Some_2 (messages b) messageIndex Hidx) as [slot Hslot].
  rewrite (processResult_decodes result messageIndex b slot Hnew Hslot).
  unfold decode. rewrite H1, H2, H3, H4. unfold decode_edited_message.
  subst has_text has_location message.
  destruct (JsonOps.containsKey _ "text");
    [|destruct (JsonOps.containsKey _ "location")];
    (eexists _, _; split; [reflexivity|]; split;
     [simpl; apply list_lookup_insert_eq; exact Hidx|]);
    simpl; repeat split.
Qed.

(** X16. A [message] that triggers no file fetch, once decoded: of [text],
    [location] and [contact] only the first one present is read, in that
    order; the reply fields are read whenever the message has a
    [reply_to_message]; the document flag is false. *)
Theorem message_decoded (result : Json) (messageIndex : nat) (b : Bot) :
  JsonOps.containsKey result "message" = true ->
  fetches_file result = false ->
  update_id_of result <> last_message_received b ->
  (messageIndex < length (messages b))%nat ->
  let message := JsonOps.member result "message" in
  let has_text := JsonOps.containsKey message "text" in
  let has_location := JsonOps.containsKey message "location" in
  let has_contact := JsonOps.containsKey message "contact" in
  let has_reply := JsonOps.containsKey message "reply_to_message" in
  exists b' m,
    processResult result messageIndex b = Some (true, b')
    /\ messages b' !! messageIndex = Some m
    /\ type m = "message"
    /\ from_id m = str_at message "from" "id"
    /\ from_name m = str_at message "from" "first_name"
    /\ chat_id m = str_at message "chat" "id"
    /\ message_id m = as_int (JsonOps.member message "message_id")
    /\ hasDocument m = false
    /\ text m = (if has_text then as_String (JsonOps.member message "text")
                 else EmptyString)
    /\ longitude m
       = (if negb has_text && has_location
          then as_float (JsonOps.member (JsonOps.member message "location") "longitude")
          else float_zero)
    /\ contact_phone_number m
       = (if negb has_text && negb has_location && has_contact
          then str_at message "contact" "phone_number" else EmptyString)
    /\ reply_to_message_id m
       = (if has_reply
          then as_int (JsonOps.member (JsonOps.member message "reply_to_message")
                                      "message_id")
          else 0)
    /\ reply_to_text m
       = (if has_reply
          then as_String (JsonOps.member (JsonOps.member message "reply_to_message")
                                         "text")
          else EmptyString)
    /\ latitude m
       = (if negb has_text && has_location
          then as_float (JsonOps.member (JsonOps.member message "location") "latitude")
          else float_zero)
    /\ contact_name m
       = (if negb has_text && negb has_location && has_contact
          then str_at message "contact" "first_name" else EmptyString)
    /\ contact_id m
       = (if negb has_text && negb has_location && has_contact
          then str_at message "contact" "user_id" else EmptyString).
Proof.
  intros Hmsg Hno Hnew Hidx message has_text has_location has_contact has_reply.
  destruct (lookup_lt_is_Some_2 (messages b) messageIndex Hidx) as [slot Hslot].
  rewrite (processResult_decodes result messageIndex b slot Hnew Hslot).
  unfold fetches_file in Hno. rewrite Hmsg in Hno. cbv zeta in Hno.
  unfold decode. rewrite Hmsg. unfold decode_message.
  subst has_text has_location has_contact has_reply message.
  destruct (JsonOps.containsKey _ "text");
    [|destruct (JsonOps.containsKey _ "location");
      [|destruct (JsonOps.containsKey _ "document"); [discriminate|];
        destruct (JsonOps.containsKey _ "contact")]];
    destruct (JsonOps.containsKey _ "reply_to_message");
    (eexists _, _; split; [reflexivity|]; split;
     [simpl; apply list_lookup_insert_eq; exact Hidx|]);
    simpl; repeat split.
Qed.

(** X17. A [message] with a [document] and neither [text] nor [location],
    once decoded: caption and file name come from the message; when
    [getFile] succeeds the record gets the path and the size it returns
    and the document flag is true, otherwise the flag is false and path and
    size are what the record held before. Either way the transport is
    closed when [processResult] returns. *)
Theorem document_decoded (result : Json) (messageIndex : nat) (b : Bot)
    (slot : telegramMessage) :
  fetches_file result = true ->
  update_id_of result <> last_message_received b ->
  messages b !! messageIndex = Some slot ->
  let message := JsonOps.member result "message" in
  let fetched := getFile (str_at message "document" "file_id")
                         (set_last_message_received (update_id_of result) b) in
  exists b' m,
    processResult result messageIndex b = Some (true, b')
    /\ messages b' !! messageIndex = Some m
    /\ client b' = client (snd fetched)
    /\ connected (client b') = false
    /\ file_caption m = as_String (JsonOps.member message "caption")
    /\ file_name m = str_at message "document" "file_name"
    /\ match fst fetched with
       | Some (path, size) =>
           hasDocument m = true /\ file_path m = path /\ file_size m = size
       | None =>
           hasDocument m = false /\ file_path m = file_path slot
           /\ file_size m = file_size slot
       end.
Proof.
  intros Hfile Hnew Hslot message fetched. subst message.
  rewrite (processResult_decodes result messageIndex b slot Hnew Hslot).
  unfold fetches_file in Hfile. cbv zeta in Hfile.
  apply andb_prop in Hfile as [Hfile Hdoc]. apply andb_prop in Hfile as [Hfile Hloc].
  apply andb_prop in Hfile as [Hmsg Htext].
  apply negb_true_iff in Htext, Hloc.
  unfold decode. rewrite Hmsg. unfold decode_message.
  rewrite Htext, Hloc, Hdoc.
  pose proof (getFile_only_client
                (str_at (JsonOps.member result "message") "document" "file_id")
                (set_last_message_received (update_id_of result) b)) as Hfr.
  pose proof (getFile_disconnects
                (str_at (JsonOps.member result "message") "document" "file_id")
                (set_last_message_received (update_id_of result) b)) as Hoff.
  fold fetched in Hfr, Hoff |- *.
  assert (Hidx : (messageIndex < length (messages b))%nat)
    by (now apply lookup_lt_Some in Hslot).
  destruct fetched as [[[path size]|] b1]; simpl in Hfr, Hoff; destruct Hfr as [c ->];
    destruct (JsonOps.containsKey _ "reply_to_message");
    (eexists _, _; split; [reflexivity|]; split;
     [simpl; apply list_lookup_insert_eq; exact Hidx|]);
    simpl; repeat split; exact Hoff.
Qed.

End RecordFacts.

(** ** getFile, checkForOkResponse and getUpdateIdFromResponse *)

Section SmallFacts.
Context {P : Platform}.

(** X18. [getFile] closes the transport whatever the answer. It fails
    exactly when the answer does not parse or has no [result]; when it
    succeeds, the path it hands back is the file path of the result behind
    [https://api.telegram.org/file/bot<token>/]. *)
Theorem getFile_result (file_id : string) (b : Bot) :
  let sent := sendGetToTelegram (buildCommand b "getFile?file_id=" +:+ file_id) b in
  let fetched := getFile file_id b in
  snd fetched = closeClient (snd sent)
  /\ connected (client (snd fetched)) = false
  /\ match deserializeJson (fst sent) with
     | Some doc =>
         if JsonOps.containsKey doc "result" then
           fst fetched
           = Some ("https://api.telegram.org/file/bot" +:+ _token b +:+ "/"
                   +:+ as_String (JsonOps.member (JsonOps.member doc "result")
                                                 "file_path"),
                   as_long (JsonOps.member (JsonOps.member doc "result") "file_size"))
         else fst fetched = None
     | None => fst fetched = None
     end.
Proof.
  cbv zeta. pose proof (getFile_disconnects file_id b) as Hoff.
  pose proof (sendGetToTelegram_only_client
                (buildCommand b "getFile?file_id=" +:+ file_id) b) as Hfr.
  unfold getFile in *.
  destruct (sendGetToTelegram _ b) as [response b1]. simpl in Hfr |- *.
  destruct (only_client_trans _ _ _ Hfr (closeClient_only_client b1)) as [c Hc].
  destruct (deserializeJson response) as [doc|];
    [destruct (JsonOps.containsKey doc "result")|]; simpl in *;
    repeat split; auto.
  rewrite Hc. reflexivity.
Qed.

(** X19. [checkForOkResponse] drops the error of the parser. A response
    that fails to parse after the parser has read [ok: true] and a positive
    [message_id] of the result is taken as an acknowledgement, and that
    identifier becomes the identifier of the last message sent. *)
Theorem checkForOkResponse_unparsed (response : string) (b : Bot) (id : Z) :
  deserializeJson response = None ->
  response <> EmptyString ->
  JsonOps.member (deserializeJson_partial response) "ok" = JBool true ->
  as_int (JsonOps.member (JsonOps.member (deserializeJson_partial response) "result")
                         "message_id") = id ->
  0 < id ->
  checkForOkResponse response b = (true, set_last_sent_message_id id b).
Proof.
  intros Herr Hne Hok Hid Hpos. unfold checkForOkResponse, document_of.
  apply String.eqb_neq in Hne. rewrite Herr, Hne, Hok, Hid. simpl.
  apply Z.ltb_lt in Hpos. now rewrite Hpos.
Qed.

End SmallFacts.

Lemma substring_one_char (s : string) (m : nat) (c : ascii) :
  String.substring m 1 s = String c EmptyString -> c ∈ list_ascii_of_string s.
Proof.
  revert m. induction s as [|a s IH]; intros m; destruct m as [|m]; simpl;
    try discriminate.
  - destruct s; simpl; intros [= ->]; apply list_elem_of_here.
  - intros Hsub. apply list_elem_of_further. now apply (IH m).
Qed.

Lemma indexOf_absent (s : string) :
  WString.LF ∉ list_ascii_of_string s ->
  WString.indexOf s (String WString.LF EmptyString) 0 = None.
Proof.
  intros Hno. unfold WString.indexOf.
  destruct (String.length s <=? 0)%nat; [reflexivity|].
  destruct (String.index 0 (String WString.LF EmptyString) s) as [m|] eqn:Hidx;
    [|reflexivity].
  apply String.index_correct1 in Hidx. simpl in Hidx.
  now apply substring_one_char in Hidx.
Qed.

(** Over characters that are neither CR nor digits out of place the scan
    goes on, at an index inside the array. *)
Lemma scan_digits_prefix (pre l : list ascii) (i : nat) (buf : nat -> ascii) :
  Forall (fun x => x <> WString.CR) pre ->
  (i <= updateId_size)%nat ->
  scan_digits (pre ++ l) i buf = None
  \/ exists i' buf', (i' <= updateId_size)%nat
                     /\ scan_digits (pre ++ l) i buf = scan_digits l i' buf'.
Proof.
  revert i buf. induction pre as [|x pre IH]; intros i buf Hpre Hi; simpl.
  - right. exists i, buf. auto.
  - apply Forall_cons in Hpre as [Hx Hpre].
    destruct (WString.is_digit x).
    + destruct (i <? updateId_size)%nat eqn:Hroom; [|now left].
      apply Nat.ltb_lt in Hroom. apply IH; [exact Hpre | lia].
    + destruct (Ascii.eqb x WString.CR) eqn:Hcr.
      * apply Ascii.eqb_eq in Hcr. contradiction.
      * apply IH; [exact Hpre | unfold updateId_size; lia].
Qed.

Lemma scan_digits_run (ds post : list ascii) (i : nat) (buf : nat -> ascii) :
  Forall (fun x => WString.is_digit x = true) ds ->
  (i <= updateId_size)%nat ->
  (updateId_size < i + length ds)%nat ->
  scan_digits (ds ++ post) i buf = None.
Proof.
  revert i buf. induction ds as [|d ds IH]; intros i buf Hds Hi Hlong; simpl in *.
  - lia.
  - apply Forall_cons in Hds as [Hd Hds]. rewrite Hd.
    destruct (i <? updateId_size)%nat eqn:Hroom; [|reflexivity].
    apply Nat.ltb_lt in Hroom. apply IH; [exact Hds | lia | lia].
Qed.

(** X20. A response of one line that holds, somewhere behind its first
    character and before any carriage return, a run of more than 20 digits
    takes [getUpdateIdFromResponse] beyond its array of 20 characters: the
    function has no defined result, whatever the array held. (A C string
    ends at its first NUL: the characters before the run are taken to hold
    none, so that the scan does reach the run.) *)
Theorem updateId_overrun (junk : nat -> ascii) (c : ascii)
    (pre ds post : list ascii) :
  WString.LF ∉ c :: pre ++ ds ++ post ->
  c <> WString.CR ->
  Forall (fun x => x <> WString.CR) pre ->
  WString.NUL ∉ c :: pre ->
  Forall (fun x => WString.is_digit x = true) ds ->
  (20 < length ds)%nat ->
  getUpdateIdFromResponse junk (string_of_list_ascii (c :: pre ++ ds ++ post)) = None.
Proof.
  intros Hlf Hc Hpre _ Hds Hlong. unfold getUpdateIdFromResponse.
  rewrite indexOf_absent by (now rewrite list_ascii_of_string_of_list_ascii).
  unfold WString.remove_from. rewrite list_ascii_of_string_of_list_ascii.
  unfold scan_updateId.
  destruct (Ascii.eqb c WString.CR) eqn:Hcr;
    [apply Ascii.eqb_eq in Hcr; contradiction|].
  destruct (scan_digits_prefix pre (ds ++ post) 0 junk Hpre ltac:(unfold updateId_size; lia))
    as [-> | (i' & buf' & Hi' & ->)]; [reflexivity|].
  rewrite scan_digits_run; auto. unfold updateId_size in *. lia.
Qed.

(** ** The helpers and their retries *)

Section Attempts.
Context {P : Platform}.

Lemma exchange_burst (request : list string) (b : Bot) (bytes : list ascii)
    (rest : list tick) (response : string) :
  rx (client b) = Data bytes :: rest ->
  burst_response (maxMessageLength b) bytes = Some response ->
  exchange request b
  = (response,
     set_client (mkClient (connected (client b)) (connect_script (client b)) rest
                          (oplog (client b) ++ map OpWrite request)) b).
Proof.
  intros Hrx Hburst. unfold burst_response in Hburst.
  unfold exchange, readHTTPAnswer, Reader.run. simpl. rewrite Hrx. simpl.
  destruct (responseReceived (Reader.feed _ bytes _)) eqn:Hflag; [|discriminate].
  injection Hburst as <-. reflexivity.
Qed.

Lemma sendPostToTelegram_exchange (command : string) (payload : Json) (b : Bot) :
  connected (client (ensure_connection b)) = true ->
  sendPostToTelegram command payload b
  = exchange (post_request command payload) (ensure_connection b).
Proof. intros Hc. unfold sendPostToTelegram. rewrite Hc. reflexivity. Qed.

Lemma sendGetToTelegram_exchange (command : string) (b : Bot) :
  connected (client (ensure_connection b)) = true ->
  sendGetToTelegram command b = exchange (get_request command) (ensure_connection b).
Proof. intros Hc. unfold sendGetToTelegram. rewrite Hc. reflexivity. Qed.

Lemma checkForOkResponse_reads (response : string) (b : Bot) :
  checkForOkResponse response b
  = (ok_of response,
     if 0 <? message_id_of response
     then set_last_sent_message_id (message_id_of response) b else b).
Proof. reflexivity. Qed.

Lemma ensure_connection_connected (b : Bot) :
  connected (client b) = true -> ensure_connection b = b.
Proof. intros Hc. unfold ensure_connection. now rewrite Hc. Qed.

Lemma ensure_connection_fields (b : Bot) :
  _token (ensure_connection b) = _token b
  /\ maxMessageLength (ensure_connection b) = maxMessageLength b
  /\ last_sent_message_id (ensure_connection b) = last_sent_message_id b
  /\ messages (ensure_connection b) = messages b
  /\ last_message_received (ensure_connection b) = last_message_received b.
Proof. unfold ensure_connection. destruct (connected (client b)); simpl; auto. Qed.

Variable attempt : Bot -> string * Bot.
Variable request : list string.
Variable token : string.
Variable maxLen : Z.

Hypothesis attempt_exchange :
  forall b, _token b = token ->
            connected (client (ensure_connection b)) = true ->
            attempt b = exchange request (ensure_connection b).

Lemma send_loop_step (budget : nat) (response0 : string) (b : Bot)
    (sent : bool) (response : string) (b2 : Bot) :
  (let (response', b1) := attempt b in
   let (sent', b2') := checkForOkResponse response' b1 in (sent', response', b2'))
  = (sent, response, b2) ->
  send_loop (S budget) attempt response0 b
  = if sent then (true, response, b2) else send_loop budget attempt response b2.
Proof.
  intros Hstep. cbn [send_loop]. destruct (attempt b) as [response' b1].
  destruct (checkForOkResponse response' b1) as [sent' b2'].
  injection Hstep as -> -> ->. reflexivity.
Qed.

(** One turn of the loop on an answer of one burst. *)
Lemma attempt_step (b : Bot) (bytes : list ascii) (rest : list tick)
    (response : string) :
  _token b = token -> maxMessageLength b = maxLen ->
  connected (client (ensure_connection b)) = true ->
  rx (client b) = Data bytes :: rest ->
  burst_response maxLen bytes = Some response ->
  exists b2,
    (let (response', b1) := attempt b in
     let (sent, b2') := checkForOkResponse response' b1 in (sent, response', b2'))
    = (ok_of response, response, b2)
    /\ _token b2 = token /\ maxMessageLength b2 = maxLen
    /\ connected (client b2) = true
    /\ rx (client b2) = rest
    /\ oplog (client b2)
       = oplog (client (ensure_connection b)) ++ map OpWrite request
    /\ messages b2 = messages b
    /\ last_message_received b2 = last_message_received b
    /\ last_sent_message_id b2
       = if 0 <? message_id_of response then message_id_of response
         else last_sent_message_id b.
Proof.
  intros Htok Hmax Hc Hrx Hburst.
  destruct (ensure_connection_fields b) as (Et & Em & El & Ems & Elm).
  rewrite (attempt_exchange b Htok Hc).
  rewrite (exchange_burst request (ensure_connection b) bytes rest response);
    [| now rewrite ensure_connection_rx | now rewrite Em, Hmax].
  rewrite checkForOkResponse_reads. eexists. split; [reflexivity|].
  destruct (0 <? message_id_of response); simpl; repeat split; congruence.
Qed.

(** The loop against answers that decline until one acknowledges. *)
Lemma send_loop_acknowledged (failures : list (list ascii)) :
  forall (budget : nat) (response0 : string) (b : Bot) (good : list ascii)
         (rest : list tick) (response : string),
  _token b = token -> maxMessageLength b = maxLen ->
  connected (client (ensure_connection b)) = true ->
  rx (client b) = map Data failures ++ Data good :: rest ->
  Forall (fun bytes => declines maxLen bytes = true) failures ->
  burst_response maxLen good = Some response ->
  ok_of response = true ->
  (length failures < budget)%nat ->
  exists b',
    send_loop budget attempt response0 b = (true, response, b')
    /\ _token b' = token
    /\ connected (client b') = true
    /\ rx (client b') = rest
    /\ oplog (client b')
       = oplog (client (ensure_connection b))
         ++ concat (replicate (S (length failures)) (map OpWrite request))
    /\ messages b' = messages b
    /\ last_message_received b' = last_message_received b
    /\ (0 < message_id_of response ->
        last_sent_message_id b' = message_id_of response).
Proof.
  induction failures as [|bad failures IH];
    intros budget response0 b good rest response Htok Hmax Hc Hrx Hbad Hgood Hok Hbudget.
  - destruct budget as [|budget]; [simpl in Hbudget; lia|].
    destruct (attempt_step b good rest response Htok Hmax Hc Hrx Hgood)
      as (b2 & Hstep & Ht & Hm & Hc2 & Hrx2 & Hlog & Hms & Hlm & Hls).
    rewrite (send_loop_step _ _ _ _ _ _ Hstep), Hok. exists b2.
    simpl. rewrite app_nil_r. repeat split; auto.
    intros Hpos. rewrite Hls. apply Z.ltb_lt in Hpos. now rewrite Hpos.
  - destruct budget as [|budget]; [simpl in Hbudget; lia|].
    apply Forall_cons in Hbad as [Hdecl Hbad]. unfold declines in Hdecl.
    destruct (burst_response maxLen bad) as [refusal|] eqn:Hburst; [|discriminate].
    apply negb_true_iff in Hdecl.
    destruct (attempt_step b bad (map Data failures ++ Data good :: rest) refusal
                Htok Hmax Hc Hrx Hburst)
      as (b2 & Hstep & Ht & Hm & Hc2 & Hrx2 & Hlog & Hms & Hlm & Hls).
    rewrite (send_loop_step _ _ _ _ _ _ Hstep), Hdecl.
    assert (Hc2' : connected (client (ensure_connection b2)) = true)
      by now rewrite (ensure_connection_connected b2 Hc2).
    destruct (IH budget refusal b2 good rest response Ht Hm Hc2' Hrx2 Hbad Hgood Hok
                ltac:(simpl in Hbudget; lia))
      as (b' & Hloop & Ht' & Hc' & Hrx' & Hlog' & Hms' & Hlm' & Hls').
    exists b'. rewrite Hloop. repeat split; auto; try congruence.
    rewrite Hlog', (ensure_connection_connected b2 Hc2), Hlog.
    change (length (bad :: failures)) with (S (length failures)).
    rewrite <- app_assoc. reflexivity.
Qed.

(** The loop against answers that decline for as long as the clock lets it
    run. *)
Lemma send_loop_exhausted (failures : list (list ascii)) :
  forall (response0 : string) (b : Bot) (bad : list ascii) (rest : list tick),
  _token b = token -> maxMessageLength b = maxLen ->
  connected (client (ensure_connection b)) = true ->
  rx (client b) = map Data (bad :: failures) ++ rest ->
  Forall (fun bytes => declines maxLen bytes = true) (bad :: failures) ->
  exists response' b',
    send_loop (S (length failures)) attempt response0 b = (false, response', b')
    /\ burst_response maxLen (List.last failures bad) = Some response'
    /\ _token b' = token
    /\ connected (client b') = true
    /\ rx (client b') = rest
    /\ oplog (client b')
       = oplog (client (ensure_connection b))
         ++ concat (replicate (S (length failures)) (map OpWrite request))
    /\ messages b' = messages b
    /\ last_message_received b' = last_message_received b.
Proof.
  induction failures as [|next failures IH];
    intros response0 b bad rest Htok Hmax Hc Hrx Hbad;
    apply Forall_cons in Hbad as [Hdecl Hbad]; unfold declines in Hdecl;
    destruct (burst_response maxLen bad) as [refusal|] eqn:Hburst; try discriminate;
    apply negb_true_iff in Hdecl.
  - destruct (attempt_step b bad rest refusal Htok Hmax Hc Hrx Hburst)
      as (b2 & Hstep & Ht & Hm & Hc2 & Hrx2 & Hlog & Hms & Hlm & Hls).
    rewrite (send_loop_step _ _ _ _ _ _ Hstep), Hdecl. exists refusal, b2.
    simpl. rewrite app_nil_r. repeat split; auto.
  - destruct (attempt_step b bad (map Data (next :: failures) ++ rest) refusal
                Htok Hmax Hc Hrx Hburst)
      as (b2 & Hstep & Ht & Hm & Hc2 & Hrx2 & Hlog & Hms & Hlm & Hls).
    assert (Hshift : forall (l : list (list ascii)) x y,
               List.last (x :: l) y = List.last l x).
    { induction l as [|z l IHl]; intros x y; [reflexivity|].
      change (List.last (x :: z :: l) y) with (List.last (z :: l) y).
      change (List.last (z :: l) x) with (List.last (z :: l) x).
      now rewrite !IHl. }
    rewrite Hshift.
    change (length (next :: failures)) with (S (length failures)).
    rewrite (send_loop_step _ _ _ _ _ _ Hstep), Hdecl.
    assert (Hc2' : connected (client (ensure_connection b2)) = true)
      by now rewrite (ensure_connection_connected b2 Hc2).
    destruct (IH refusal b2 next rest Ht Hm Hc2' Hrx2 Hbad)
      as (response' & b' & Hloop & Hlast & Ht' & Hc' & Hrx' & Hlog' & Hms' & Hlm').
    exists response', b'. rewrite Hloop. repeat split; auto; try congruence.
    rewrite Hlog', (ensure_connection_connected b2 Hc2), Hlog.
    rewrite <- app_assoc. reflexivity.
Qed.

End Attempts.

Section HelperFacts.
Context {P : Platform}.
Variable serialized : string -> Json.

Lemma closeClient_connected (b : Bot) :
  connected (client b) = true ->
  closeClient b = set_client (ClientOps.stop (client b)) b.
Proof. intros Hc. unfold closeClient. now rewrite Hc. Qed.

Lemma post_attempt (b : Bot) (name : string) (payload : Json) :
  forall b1, _token b1 = _token b ->
             connected (client (ensure_connection b1)) = true ->
             sendPostToTelegram (buildCommand b1 name) payload b1
             = exchange (post_request (buildCommand b name) payload)
                        (ensure_connection b1).
Proof.
  intros b1 Htok Hc. rewrite (sendPostToTelegram_exchange _ _ _ Hc).
  unfold buildCommand. now rewrite Htok.
Qed.

Lemma get_attempt (b : Bot) (tail : string) :
  forall b1, _token b1 = _token b ->
             connected (client (ensure_connection b1)) = true ->
             sendGetToTelegram (buildCommand b1 tail) b1
             = exchange (get_request (buildCommand b tail)) (ensure_connection b1).
Proof.
  intros b1 Htok Hc. rewrite (sendGetToTelegram_exchange _ _ Hc).
  unfold buildCommand. now rewrite Htok.
Qed.

Lemma sendMessage_payload_text (chat_id text parse_mode : string) (message_id : Z)
    (disable_web_page_preview disable_notification : bool) :
  JsonOps.containsKey
    (sendMessage_payload chat_id text parse_mode message_id
       disable_web_page_preview disable_notification) "text" = true.
Proof.
  unfold sendMessage_payload, build.
  destruct (message_id =? 0), (nonempty parse_mode), disable_web_page_preview,
    disable_notification; reflexivity.
Qed.

Lemma sendPhoto_payload_photo (chat_id photo caption : string)
    (disable_notification : bool) (reply_to_message_id : Z) (keyboard : string) :
  JsonOps.containsKey
    (sendPhoto_payload serialized chat_id photo caption disable_notification
       reply_to_message_id keyboard) "photo" = true.
Proof.
  unfold sendPhoto_payload, build.
  destruct (reply_to_message_id =? 0), (0 <? String.length caption)%nat,
    (0 <? String.length keyboard)%nat, disable_notification; reflexivity.
Qed.

(** X21. [sendMessage] repeats its request until an answer acknowledges
    it; an answer acknowledges or declines by the [ok] of the document that
    the parser leaves, the error of the parser being dropped (so an answer
    that does not parse may do either). Against answers of one burst each,
    of which the first
    [length failures] decline and the next acknowledges, with a clock that
    lets the loop run often enough, it returns true; it has connected if
    it had to, written the same POST request (to [editMessageText] when a
    [message_id] is given, to [sendMessage] otherwise) once per answer, and
    stopped the transport; the answers behind the acknowledgement are still
    to be read; a positive [message_id] in the acknowledgement is the new
    [last_sent_message_id]. The request is sent also when [text] is
    empty. *)
Theorem sendMessage_acknowledged (chat_id text parse_mode : string) (message_id : Z)
    (disable_web_page_preview disable_notification : bool) (budget : nat) (b : Bot)
    (failures : list (list ascii)) (good : list ascii) (rest : list tick)
    (response : string) :
  connected (client (ensure_connection b)) = true ->
  rx (client b) = map Data failures ++ Data good :: rest ->
  Forall (fun bytes => declines (maxMessageLength b) bytes = true) failures ->
  burst_response (maxMessageLength b) good = Some response ->
  ok_of response = true ->
  (length failures < budget)%nat ->
  let request :=
    post_request
      (buildCommand b (if message_id =? 0 then "sendMessage" else "editMessageText"))
      (sendMessage_payload chat_id text parse_mode message_id
         disable_web_page_preview disable_notification) in
  let result :=
    sendMessage chat_id text parse_mode message_id disable_web_page_preview
      disable_notification budget b in
  fst result = true
  /\ connected (client (snd result)) = false
  /\ rx (client (snd result)) = rest
  /\ oplog (client (snd result))
     = oplog (client (ensure_connection b))
       ++ concat (replicate (S (length failures)) (map OpWrite request))
       ++ [OpStop]
  /\ (0 < message_id_of response ->
      last_sent_message_id (snd result) = message_id_of response)
  /\ messages (snd result) = messages b
  /\ last_message_received (snd result) = last_message_received b.
Proof.
  intros Hc Hrx Hbad Hgood Hok Hbudget. cbv zeta.
  change (sendMessage chat_id text parse_mode message_id disable_web_page_preview
            disable_notification budget b)
    with (sendPostMessage
            (sendMessage_payload chat_id text parse_mode message_id
               disable_web_page_preview disable_notification)
            (negb (message_id =? 0)) budget b).
  unfold sendPostMessage. rewrite sendMessage_payload_text.
  set (payload := sendMessage_payload _ _ _ _ _ _).
  set (name := if message_id =? 0 then "sendMessage" else "editMessageText").
  set (attempt := fun b0 : Bot => sendPostToTelegram _ payload b0).
  assert (Hattempt : forall b1, _token b1 = _token b ->
             connected (client (ensure_connection b1)) = true ->
             attempt b1 = exchange (post_request (buildCommand b name) payload)
                                   (ensure_connection b1)).
  { intros b1 Htok Hc1. unfold attempt, name.
    destruct (message_id =? 0); simpl; now apply post_attempt. }
  destruct (send_loop_acknowledged attempt _ (_token b) (maxMessageLength b) Hattempt
              failures budget EmptyString b good rest response
              eq_refl eq_refl Hc Hrx Hbad Hgood Hok Hbudget)
    as (b' & Hloop & Ht & Hc' & Hrx' & Hlog & Hms & Hlm & Hls).
  rewrite Hloop. simpl. rewrite (closeClient_connected b' Hc'). simpl.
  rewrite Hlog, <- app_assoc. repeat split; auto.
Qed.

(** X22. [sendPhoto] returns the text of the answer that acknowledged the
    request (by the [ok] of the document that the parser leaves, parsed or
    not): against answers of one burst each, of which the first
    [length failures] decline and the next acknowledges, what it returns is
    the body of that answer, after one POST to [sendPhoto] per answer and
    with the transport stopped. *)
Theorem sendPhoto_acknowledged (chat_id photo caption : string)
    (disable_notification : bool) (reply_to_message_id : Z) (keyboard : string)
    (budget : nat) (b : Bot)
    (failures : list (list ascii)) (good : list ascii) (rest : list tick)
    (response : string) :
  connected (client (ensure_connection b)) = true ->
  rx (client b) = map Data failures ++ Data good :: rest ->
  Forall (fun bytes => declines (maxMessageLength b) bytes = true) failures ->
  burst_response (maxMessageLength b) good = Some response ->
  ok_of response = true ->
  (length failures < budget)%nat ->
  let request :=
    post_request (buildCommand b "sendPhoto")
      (sendPhoto_payload serialized chat_id photo caption disable_notification
         reply_to_message_id keyboard) in
  let result :=
    sendPhoto serialized chat_id photo caption disable_notification
      reply_to_message_id keyboard budget b in
  fst result = response
  /\ connected (client (snd result)) = false
  /\ rx (client (snd result)) = rest
  /\ oplog (client (snd result))
     = oplog (client (ensure_connection b))
       ++ concat (replicate (S (length failures)) (map OpWrite request))
       ++ [OpStop].
Proof.
  intros Hc Hrx Hbad Hgood Hok Hbudget. cbv zeta.
  change (sendPhoto serialized chat_id photo caption disable_notification
            reply_to_message_id keyboard budget b)
    with (sendPostPhoto
            (sendPhoto_payload serialized chat_id photo caption disable_notification
               reply_to_message_id keyboard) budget b).
  unfold sendPostPhoto. rewrite sendPhoto_payload_photo.
  set (payload := sendPhoto_payload _ _ _ _ _ _ _).
  destruct (send_loop_acknowledged
              (fun b0 => sendPostToTelegram (buildCommand b0 "sendPhoto") payload b0)
              _ (_token b) (maxMessageLength b) (post_attempt b "sendPhoto" payload)
              failures budget EmptyString b good rest response
              eq_refl eq_refl Hc Hrx Hbad Hgood Hok Hbudget)
    as (b' & Hloop & Ht & Hc' & Hrx' & Hlog & Hms & Hlm & Hls).
  rewrite Hloop. simpl. rewrite (closeClient_connected b' Hc'). simpl.
  rewrite Hlog, <- app_assoc. repeat split; auto.
Qed.

(** X23. [sendSimpleMessage] gives up when the clock stops its loop: against
    answers of one burst each that all decline (the document that the
    parser leaves, parsed or not, has no true [ok]), as many as the loop has
    turns, it returns false after as many GET requests, each with the chat,
    the text and the parse mode put into the URL as they were given, and
    with the transport stopped. *)
Theorem sendSimpleMessage_gives_up (chat_id text parse_mode : string) (b : Bot)
    (failures : list (list ascii)) (rest : list tick) :
  text <> EmptyString ->
  failures <> [] ->
  connected (client (ensure_connection b)) = true ->
  rx (client b) = map Data failures ++ rest ->
  Forall (fun bytes => declines (maxMessageLength b) bytes = true) failures ->
  let request :=
    get_request ("bot" +:+ _token b +:+ "/sendMessage?chat_id=" +:+ chat_id
                 +:+ "&text=" +:+ text +:+ "&parse_mode=" +:+ parse_mode) in
  let result := sendSimpleMessage chat_id text parse_mode (length failures) b in
  fst result = false
  /\ connected (client (snd result)) = false
  /\ rx (client (snd result)) = rest
  /\ oplog (client (snd result))
     = oplog (client (ensure_connection b))
       ++ concat (replicate (length failures) (map OpWrite request))
       ++ [OpStop].
Proof.
  intros Htext Hne Hc Hrx Hbad. cbv zeta.
  destruct failures as [|bad failures]; [now elim Hne|].
  unfold sendSimpleMessage.
  assert (Hnonempty : nonempty text = true).
  { unfold nonempty. apply negb_true_iff. now apply String.eqb_neq. }
  rewrite Hnonempty.
  set (attempt := fun b0 : Bot => sendGetToTelegram _ b0).
  set (request := get_request _).
  assert (Hattempt : forall b1, _token b1 = _token b ->
             connected (client (ensure_connection b1)) = true ->
             attempt b1 = exchange request (ensure_connection b1)).
  { intros b1 Htok Hc1. unfold attempt, request.
    rewrite (sendGetToTelegram_exchange _ _ Hc1). unfold buildCommand.
    rewrite Htok, !append_assoc. reflexivity. }
  destruct (send_loop_exhausted attempt request (_token b) (maxMessageLength b)
              Hattempt failures EmptyString b bad rest eq_refl eq_refl Hc Hrx Hbad)
    as (response' & b' & Hloop & _ & Ht & Hc' & Hrx' & Hlog & _).
  change (length (bad :: failures)) with (S (length failures)).
  rewrite Hloop. simpl. rewrite (closeClient_connected b' Hc'). simpl.
  rewrite Hlog, <- app_assoc. repeat split; auto.
Qed.

(** X24. [deleteMessage] and [answerCallbackQuery] send their request once
    and do not repeat it: against an answer of one burst, with the
    transport connected or connecting, each returns what the document that
    the parser leaves of the answer (parsed or not) says under [ok], has
    written one POST request and stopped the transport,
    and has left what follows the answer unread. *)
Theorem single_request_helpers (b : Bot) (bytes : list ascii) (rest : list tick)
    (response : string) (chat_id : string) (message_id : Z) :
  connected (client (ensure_connection b)) = true ->
  rx (client b) = Data bytes :: rest ->
  burst_response (maxMessageLength b) bytes = Some response ->
  message_id <> 0 ->
  (let result := deleteMessage chat_id message_id b in
      fst result = ok_of response
      /\ connected (client (snd result)) = false
      /\ rx (client (snd result)) = rest
      /\ oplog (client (snd result))
         = oplog (client (ensure_connection b))
           ++ map OpWrite
                (post_request (buildCommand b "deleteMessage")
                   (JObj [("chat_id", JStr chat_id); ("message_id", JInt message_id)]))
           ++ [OpStop])
  /\ (forall query_id text show_alert url cache_time,
         let result := answerCallbackQuery query_id text show_alert url cache_time b in
         fst result = ok_of response
         /\ connected (client (snd result)) = false
         /\ rx (client (snd result)) = rest
         /\ exists payload,
             JsonOps.member payload "callback_query_id" = JStr query_id
             /\ oplog (client (snd result))
                = oplog (client (ensure_connection b))
                  ++ map OpWrite
                       (post_request (buildCommand b "answerCallbackQuery") payload)
                  ++ [OpStop]).
Proof.
  intros Hc Hrx Hburst Hid. apply Z.eqb_neq in Hid.
  assert (Hpost : forall name payload,
             exists b2,
               (let (response', b1) := sendPostToTelegram (buildCommand b name) payload b in
                let (sent, b2') := checkForOkResponse response' b1 in
                (sent, closeClient b2'))
               = (ok_of response, b2)
               /\ connected (client b2) = false
               /\ rx (client b2) = rest
               /\ oplog (client b2)
                  = oplog (client (ensure_connection b))
                    ++ map OpWrite (post_request (buildCommand b name) payload)
                    ++ [OpStop]).
  { intros name payload.
    destruct (attempt_step
                (fun b0 => sendPostToTelegram (buildCommand b0 name) payload b0)
                _ (_token b) (maxMessageLength b) (post_attempt b name payload)
                b bytes rest response eq_refl eq_refl Hc Hrx Hburst)
      as (b2 & Hstep & _ & _ & Hc2 & Hrx2 & Hlog & _).
    cbv beta in Hstep.
    destruct (sendPostToTelegram (buildCommand b name) payload b) as [response' b1].
    destruct (checkForOkResponse response' b1) as [sent b2'].
    injection Hstep as -> -> ->. eexists. split; [reflexivity|].
    rewrite (closeClient_connected b2 Hc2). simpl.
    rewrite Hlog, <- app_assoc. auto. }
  split.
  - cbv zeta. unfold deleteMessage. rewrite Hid.
    destruct (Hpost "deleteMessage"
                (JObj [("chat_id", JStr chat_id); ("message_id", JInt message_id)]))
      as (b2 & Hrun & Hoff & Hrx2 & Hlog).
    destruct (sendPostToTelegram _ _ b) as [response' b1].
    destruct (checkForOkResponse response' b1) as [sent b2'].
    injection Hrun as -> <-. auto.
  - intros query_id text show_alert url cache_time. cbv zeta.
    unfold answerCallbackQuery.
    set (payload := build _).
    destruct (Hpost "answerCallbackQuery" payload) as (b2 & Hrun & Hoff & Hrx2 & Hlog).
    destruct (sendPostToTelegram _ _ b) as [response' b1].
    destruct (checkForOkResponse response' b1) as [sent b2'].
    injection Hrun as -> <-. repeat split; auto.
    exists payload. split; [|exact Hlog].
    unfold payload, build.
    destruct (0 <? String.length text)%nat, (0 <? String.length url)%nat; reflexivity.
Qed.

(** X25. Every helper returns with the transport disconnected, whatever
    was answered and however often it tried; the one exception is
    [deleteMessage] with [message_id] 0, which leaves the connection as it
    found it. *)
Theorem helpers_close_transport (b : Bot) (budget : nat) :
  connected (client (snd (getMe b))) = false
  /\ (forall file_id, connected (client (snd (getFile file_id b))) = false)
  /\ (forall commandArray,
         connected (client (snd (setMyCommands serialized commandArray budget b)))
         = false)
  /\ (forall chat_id text parse_mode,
         connected (client (snd (sendSimpleMessage chat_id text parse_mode budget b)))
         = false)
  /\ (forall payload edit,
         connected (client (snd (sendPostMessage payload edit budget b))) = false)
  /\ (forall chat_id text parse_mode message_id preview notification,
         connected (client (snd (sendMessage chat_id text parse_mode message_id
                                   preview notification budget b))) = false)
  /\ (forall chat_id text parse_mode keyboard resize oneTime selective,
         connected (client (snd (sendMessageWithReplyKeyboard serialized chat_id text
                                   parse_mode keyboard resize oneTime selective
                                   budget b))) = false)
  /\ (forall chat_id text parse_mode keyboard message_id,
         connected (client (snd (sendMessageWithInlineKeyboard serialized chat_id text
                                   parse_mode keyboard message_id budget b))) = false)
  /\ (forall payload,
         connected (client (snd (sendPostPhoto payload budget b))) = false)
  /\ (forall chat_id photo caption notification reply_to keyboard,
         connected (client (snd (sendPhoto serialized chat_id photo caption
                                   notification reply_to keyboard budget b))) = false)
  /\ (forall chat_id contentType fileSize src,
         connected (client (snd (sendPhotoByBinary chat_id contentType fileSize
                                   src b))) = false)
  /\ (forall chat_id text,
         connected (client (snd (sendChatAction chat_id text budget b))) = false)
  /\ (forall query_id text show_alert url cache_time,
         connected (client (snd (answerCallbackQuery query_id text show_alert url
                                   cache_time b))) = false)
  /\ (forall chat_id message_id,
         connected (client (snd (deleteMessage chat_id message_id b)))
         = if message_id =? 0 then connected (client b) else false).
Proof.
  assert (Hmessage : forall payload edit,
             connected (client (snd (sendPostMessage payload edit budget b))) = false).
  { intros. unfold sendPostMessage.
    destruct (if JsonOps.containsKey payload "text" then _ else _) as [[sent r] b1].
    apply closeClient_disconnects. }
  assert (Hphoto : forall payload,
             connected (client (snd (sendPostPhoto payload budget b))) = false).
  { intros. unfold sendPostPhoto.
    destruct (if JsonOps.containsKey payload "photo" then _ else _) as [[sent r] b1].
    apply closeClient_disconnects. }
  repeat split; intros; auto.
  - unfold getMe. destruct (sendGetToTelegram _ b) as [response b1].
    destruct (deserializeJson response) as [doc|];
      [destruct (JsonOps.containsKey doc "result")|]; apply closeClient_disconnects.
  - apply getFile_disconnects.
  - unfold setMyCommands. destruct (send_loop _ _ _ _) as [[sent r] b1].
    apply closeClient_disconnects.
  - unfold sendSimpleMessage.
    destruct (if nonempty _ then _ else _) as [[sent r] b1].
    apply closeClient_disconnects.
  - apply Hmessage.
  - apply Hmessage.
  - apply Hmessage.
  - apply Hphoto.
  - unfold sendPhotoByBinary, sendMultipartFormDataToTelegram.
    destruct (if connected (client (ensure_connection b)) then _ else _) as [a b2].
    apply closeClient_disconnects.
  - unfold sendChatAction.
    destruct (if nonempty _ then _ else _) as [[sent r] b1].
    apply closeClient_disconnects.
  - unfold answerCallbackQuery. destruct (sendPostToTelegram _ _ b) as [response b1].
    destruct (checkForOkResponse response b1) as [answer b2].
    apply closeClient_disconnects.
  - unfold deleteMessage. destruct (_ =? 0); [reflexivity|].
    destruct (sendPostToTelegram _ _ b) as [response b1].
    destruct (checkForOkResponse response b1) as [sent b2].
    apply closeClient_disconnects.
Qed.

End HelperFacts.

(** ** The helpers without a connection, and the connection after a poll *)

Section Offline.
Context {P : Platform}.
Variable serialized : string -> Json.

Lemma ensure_connection_refused (b : Bot) :
  connected (client b) = false ->
  Forall (fun ok => ok = false) (connect_script (client b)) ->
  connected (client (ensure_connection b)) = false
  /\ Forall (fun ok => ok = false) (connect_script (client (ensure_connection b))).
Proof.
  intros Hc Hs. unfold ensure_connection, ClientOps.connect. rewrite Hc.
  destruct (connect_script (client b)) as [|ok script]; simpl.
  - auto.
  - apply Forall_cons in Hs as [-> Hs]. auto.
Qed.

Lemma ok_of_empty : deserializeJson EmptyString = None -> ok_of EmptyString = false.
Proof. intros Herr. unfold ok_of, document_of. now rewrite Herr. Qed.

Lemma sendPostToTelegram_offline (command : string) (payload : Json) (b : Bot) :
  connected (client (ensure_connection b)) = false ->
  sendPostToTelegram command payload b = (EmptyString, ensure_connection b).
Proof. intros Hc. unfold sendPostToTelegram. now rewrite Hc. Qed.

Lemma sendGetToTelegram_offline (command : string) (b : Bot) :
  connected (client (ensure_connection b)) = false ->
  sendGetToTelegram command b = (EmptyString, ensure_connection b).
Proof. intros Hc. unfold sendGetToTelegram. now rewrite Hc. Qed.

Lemma send_loop_offline (attempt : Bot -> string * Bot) :
  (forall b1, connected (client (ensure_connection b1)) = false ->
              attempt b1 = (EmptyString, ensure_connection b1)) ->
  deserializeJson EmptyString = None ->
  forall (budget : nat) (b : Bot),
    connected (client b) = false ->
    Forall (fun ok => ok = false) (connect_script (client b)) ->
    exists b', send_loop budget attempt EmptyString b = (false, EmptyString, b').
Proof.
  intros Hattempt Herr. induction budget as [|budget IH]; intros b Hc Hs.
  - eexists. reflexivity.
  - destruct (ensure_connection_refused b Hc Hs) as [Hc1 Hs1].
    cbn [send_loop]. rewrite (Hattempt b Hc1), checkForOkResponse_reads.
    rewrite (ok_of_empty Herr).
    apply IH; destruct (0 <? message_id_of EmptyString); assumption.
Qed.

(** X26. Without a connection and with a transport that refuses every
    connect, no helper reports success: the ones that return a flag return
    false, the ones that return the answer return the empty string, and
    [getMe] and [getFile] fail. (The JSON library is taken to reject the
    empty text, as ArduinoJson does.) *)
Theorem offline_helpers (b : Bot) (budget : nat) :
  connected (client b) = false ->
  Forall (fun ok => ok = false) (connect_script (client b)) ->
  deserializeJson EmptyString = None ->
  fst (getMe b) = None
  /\ (forall file_id, fst (getFile file_id b) = None)
  /\ (forall commandArray,
         fst (setMyCommands serialized commandArray budget b) = false)
  /\ (forall chat_id text parse_mode,
         fst (sendSimpleMessage chat_id text parse_mode budget b) = false)
  /\ (forall chat_id text parse_mode message_id preview notification,
         fst (sendMessage chat_id text parse_mode message_id preview notification
                budget b) = false)
  /\ (forall chat_id text parse_mode keyboard resize oneTime selective,
         fst (sendMessageWithReplyKeyboard serialized chat_id text parse_mode
                keyboard resize oneTime selective budget b) = false)
  /\ (forall chat_id text parse_mode keyboard message_id,
         fst (sendMessageWithInlineKeyboard serialized chat_id text parse_mode
                keyboard message_id budget b) = false)
  /\ (forall chat_id photo caption notification reply_to keyboard,
         fst (sendPhoto serialized chat_id photo caption notification reply_to
                keyboard budget b) = EmptyString)
  /\ (forall chat_id contentType fileSize src,
         fst (sendPhotoByBinary chat_id contentType fileSize src b) = EmptyString)
  /\ (forall chat_id text, fst (sendChatAction chat_id text budget b) = false)
  /\ (forall query_id text show_alert url cache_time,
         fst (answerCallbackQuery query_id text show_alert url cache_time b) = false)
  /\ (forall chat_id message_id, fst (deleteMessage chat_id message_id b) = false).
Proof.
  intros Hc Hs Herr.
  destruct (ensure_connection_refused b Hc Hs) as [Hc1 _].
  assert (Hpost : forall (name : Bot -> string) payload,
             exists b', send_loop budget
                          (fun b0 => sendPostToTelegram (name b0) payload b0)
                          EmptyString b = (false, EmptyString, b')).
  { intros. apply send_loop_offline; auto.
    intros b1 H1. now apply sendPostToTelegram_offline. }
  assert (Hget : forall (name : Bot -> string),
             exists b', send_loop budget (fun b0 => sendGetToTelegram (name b0) b0)
                          EmptyString b = (false, EmptyString, b')).
  { intros. apply send_loop_offline; auto.
    intros b1 H1. now apply sendGetToTelegram_offline. }
  assert (Hmessage : forall payload edit,
             fst (sendPostMessage payload edit budget b) = false).
  { intros. unfold sendPostMessage.
    destruct (JsonOps.containsKey payload "text"); [|reflexivity].
    destruct (Hpost (fun b0 => if edit then buildCommand b0 "editMessageText"
                               else buildCommand b0 "sendMessage") payload)
      as (b' & ->). reflexivity. }
  assert (Hphoto : forall payload,
             fst (sendPostPhoto payload budget b) = EmptyString).
  { intros. unfold sendPostPhoto.
    destruct (JsonOps.containsKey payload "photo"); [|reflexivity].
    destruct (Hpost (fun b0 => buildCommand b0 "sendPhoto") payload) as (b' & ->).
    reflexivity. }
  repeat split; intros.
  - unfold getMe. rewrite (sendGetToTelegram_offline _ _ Hc1), Herr. reflexivity.
  - unfold getFile. rewrite (sendGetToTelegram_offline _ _ Hc1), Herr. reflexivity.
  - unfold setMyCommands.
    destruct (Hpost (fun b0 => buildCommand b0 "setMyCommands")
                (build [set_member "commands" (serialized commandArray)]))
      as (b' & ->). reflexivity.
  - unfold sendSimpleMessage. destruct (nonempty _); [|reflexivity].
    match goal with |- context [send_loop budget (fun b0 => sendGetToTelegram (@?name b0) b0)] =>
      destruct (Hget name) as (b' & ->) end. reflexivity.
  - apply Hmessage.
  - apply Hmessage.
  - apply Hmessage.
  - apply Hphoto.
  - unfold sendPhotoByBinary, sendMultipartFormDataToTelegram. rewrite Hc1.
    reflexivity.
  - unfold sendChatAction. destruct (nonempty _); [|reflexivity].
    match goal with |- context [send_loop budget (fun b0 => sendGetToTelegram (@?name b0) b0)] =>
      destruct (Hget name) as (b' & ->) end. reflexivity.
  - unfold answerCallbackQuery.
    rewrite (sendPostToTelegram_offline _ _ _ Hc1), checkForOkResponse_reads.
    now rewrite (ok_of_empty Herr).
  - unfold deleteMessage. destruct (_ =? 0); [reflexivity|].
    rewrite (sendPostToTelegram_offline _ _ _ Hc1), checkForOkResponse_reads.
    now rewrite (ok_of_empty Herr).
Qed.

Lemma process_results_client (results : list Json) :
  forall (i : nat) (b : Bot) (n : nat) (b' : Bot),
  process_results results i b = Some (n, b') ->
  Forall (fun result => fetches_file result = false) results ->
  client b' = client b.
Proof.
  induction results as [|result results IH]; intros i b n b' Hrun Hno; simpl in Hrun.
  - now injection Hrun as _ <-.
  - apply Forall_cons in Hno as [Hone Hno].
    destruct (processResult result i b) as [[decoded b1]|] eqn:Hstep; [|discriminate].
    apply (processResult_leaves_transport _ _ _ _ _ Hstep) in Hone.
    destruct decoded; apply IH in Hrun; auto; congruence.
Qed.

(** X27. After a poll that stepped through elements, none of them a
    document to fetch, [getUpdates] leaves the transport as the request
    left it: connected, no [stop] issued, so that a reply can use the same
    connection. (X11 is the other side: a poll that steps through nothing
    closes it.) *)
Theorem getUpdates_keeps_connection (offset : Z) (b : Bot) (n : nat) (b' : Bot)
    (doc : Json) :
  let sent := sendGetToTelegram (getUpdates_command offset b) b in
  getUpdates offset b = Some (n, b') ->
  fst sent <> EmptyString ->
  deserializeJson (fst sent) = Some doc ->
  JsonOps.containsKey doc "result" = true ->
  JsonOps.items (JsonOps.member doc "result") <> [] ->
  Forall (fun result => fetches_file result = false)
         (JsonOps.items (JsonOps.member doc "result")) ->
  client b' = client (snd sent) /\ connected (client b') = true.
Proof.
  cbv zeta. intros Hrun Hne Hdoc Hkey Hitems Hno.
  assert (Hconn : connected (client (snd (sendGetToTelegram
                                            (getUpdates_command offset b) b))) = true).
  { revert Hne. unfold sendGetToTelegram.
    destruct (connected (client (ensure_connection b))) eqn:Hc.
    - intros _.
      match goal with |- context [exchange ?req ?b1] =>
        destruct (exchange_client req b1) as (H1 & _) end.
      congruence.
    - simpl. intros Hne. now elim Hne. }
  unfold getUpdates in Hrun. cbn [getUpdates_fuel] in Hrun.
  destruct (sendGetToTelegram (getUpdates_command offset b) b) as [response b1].
  simpl in *.
  destruct (getUpdateIdFromResponse _ _) as [updateId|]; [|discriminate].
  apply String.eqb_neq in Hne. rewrite Hne, Hdoc, Hkey in Hrun.
  destruct (JsonOps.items (JsonOps.member doc "result")) as [|r rs] eqn:Hrs;
    [now elim Hitems|].
  change (true && (0 <? length (r :: rs))%nat) with true in Hrun. cbv iota in Hrun.
  apply process_results_client in Hrun; [|exact Hno].
  split; congruence.
Qed.

(** X12. [getMe] against an answer of one burst that parses and has a
    [result]: it succeeds with the [first_name] and the [username] of the
    result, after one GET of [getMe], and closes the transport. *)
Theorem getMe_reads (b : Bot) (bytes : list ascii) (rest : list tick)
    (response : string) (doc : Json) :
  connected (client (ensure_connection b)) = true ->
  rx (client b) = Data bytes :: rest ->
  burst_response (maxMessageLength b) bytes = Some response ->
  deserializeJson response = Some doc ->
  JsonOps.containsKey doc "result" = true ->
  fst (getMe b)
  = Some (as_String (JsonOps.member (JsonOps.member doc "result") "first_name"),
          as_String (JsonOps.member (JsonOps.member doc "result") "username"))
  /\ connected (client (snd (getMe b))) = false
  /\ rx (client (snd (getMe b))) = rest
  /\ oplog (client (snd (getMe b)))
     = oplog (client (ensure_connection b))
       ++ map OpWrite (get_request (buildCommand b "getMe")) ++ [OpStop].
Proof.
  intros Hc Hrx Hburst Hdoc Hkey. unfold getMe.
  rewrite (sendGetToTelegram_exchange _ _ Hc).
  destruct (ensure_connection_fields b) as (_ & Hmax & _).
  rewrite (exchange_burst _ (ensure_connection b) bytes rest response);
    [| now rewrite ensure_connection_rx | now rewrite Hmax].
  rewrite Hdoc, Hkey. unfold closeClient. simpl. rewrite Hc. simpl.
  rewrite <- app_assoc. auto.
Qed.

End Offline.

(** * The further properties at concrete inputs *)

(** X2 at an answer with a body of five characters. *)
Lemma readHTTPAnswer_true_grows_witness :
  let c := Scenario.hello_client in
  fst (fst (readHTTPAnswer 1500 "x" c)) = true
  /\ (String.length "x" < String.length (snd (fst (readHTTPAnswer 1500 "x" c))))%nat.
Proof.
  cbv zeta.
  assert (Hflag : fst (fst (readHTTPAnswer 1500 "x" Scenario.hello_client)) = true)
    by (vm_compute; reflexivity).
  split; [exact Hflag|].
  exact (readHTTPAnswer_true_grows 1500 "x" Scenario.hello_client Hflag).
Defined.

(** X3 at the same answer: content-length 5, body [hello]. *)
Lemma readHTTPAnswer_whole_answer_witness :
  let c := Scenario.hello_client in
  rx c = Data Fixture.hello_answer :: [Deadline]
  /\ Reader.header_text Fixture.hello_answer true EmptyString
     = Some Scenario.hello_headers
  /\ Reader.content_length Scenario.hello_headers = Some 5
  /\ 0 < 5
  /\ Z.of_nat (length (body_bytes Fixture.hello_answer true)) = 5
  /\ 5 <= 1500
  /\ readHTTPAnswer 1500 "x" c = (true, "xhello", ClientOps.set_rx c [Deadline]).
Proof.
  cbv zeta.
  assert (Hh : Reader.header_text Fixture.hello_answer true EmptyString
               = Some Scenario.hello_headers) by (vm_compute; reflexivity).
  assert (Hcl : Reader.content_length Scenario.hello_headers = Some 5)
    by (vm_compute; reflexivity).
  assert (Hlen : Z.of_nat (length (body_bytes Fixture.hello_answer true)) = 5)
    by (vm_compute; reflexivity).
  split; [reflexivity|]. split; [exact Hh|]. split; [exact Hcl|].
  split; [lia|]. split; [exact Hlen|]. split; [lia|].
  exact (readHTTPAnswer_whole_answer 1500 "x" Scenario.hello_client
           Fixture.hello_answer [Deadline] Scenario.hello_headers 5
           eq_refl Hh Hcl ltac:(lia) Hlen ltac:(lia)).
Defined.

(** X4 at an answer in three bursts: the status line, the blank line with a
    body longer than the buffer, and more of the body. *)
Lemma readHTTPAnswer_first_burst_witness :
  let early := [list_ascii_of_string ("HTTP/1.1 200 OK" +:+ WString.CRLF)] in
  let bytes := list_ascii_of_string (WString.CRLF +:+ "abcdef") in
  let rest := [Data (list_ascii_of_string "more")] in
  let c := mkClient true [] (map Data early ++ Data bytes :: rest) [] in
  rx c = map Data early ++ Data bytes :: rest
  /\ body_bytes (concat early) true = []
  /\ body_bytes (concat early ++ bytes) true <> []
  /\ default 0 (found_content_length (concat early ++ bytes)) <= 0
  /\ 0 < 4
  /\ readHTTPAnswer 4 "x" c = (true, "xabcd", ClientOps.set_rx c rest).
Proof.
  cbv zeta.
  assert (Hne : body_bytes
                  (concat [list_ascii_of_string ("HTTP/1.1 200 OK" +:+ WString.CRLF)]
                   ++ list_ascii_of_string (WString.CRLF +:+ "abcdef")) true <> [])
    by (vm_compute; discriminate).
  assert (Hcl : default 0 (found_content_length
                             (concat [list_ascii_of_string
                                        ("HTTP/1.1 200 OK" +:+ WString.CRLF)]
                              ++ list_ascii_of_string (WString.CRLF +:+ "abcdef"))) <= 0)
    by (vm_compute; discriminate).
  split; [reflexivity|]. split; [vm_compute; reflexivity|]. split; [exact Hne|].
  split; [exact Hcl|]. split; [lia|].
  exact (readHTTPAnswer_first_burst 4 "x"
           (mkClient true []
              (map Data [list_ascii_of_string ("HTTP/1.1 200 OK" +:+ WString.CRLF)]
               ++ Data (list_ascii_of_string (WString.CRLF +:+ "abcdef"))
                  :: [Data (list_ascii_of_string "more")]) [])
           [list_ascii_of_string ("HTTP/1.1 200 OK" +:+ WString.CRLF)]
           (list_ascii_of_string (WString.CRLF +:+ "abcdef"))
           [Data (list_ascii_of_string "more")]
           eq_refl eq_refl Hne Hcl ltac:(lia)).
Defined.

(** X5 at a status line that nothing follows. *)
Lemma readHTTPAnswer_no_blank_line_witness :
  let c := mkClient true [] [Data (list_ascii_of_string "HTTP/1.1 200 OK")] [] in
  Reader.header_text (Reader.flatten (rx c)) true EmptyString = None
  /\ fst (readHTTPAnswer 1500 "x" c) = (false, "x").
Proof.
  cbv zeta.
  assert (Hnone : Reader.header_text
                    (Reader.flatten
                       (rx (mkClient true []
                              [Data (list_ascii_of_string "HTTP/1.1 200 OK")] [])))
                    true EmptyString = None) by (vm_compute; reflexivity).
  split; [exact Hnone|].
  exact (readHTTPAnswer_no_blank_line 1500 "x" _ Hnone).
Defined.

(** X6 at a bot whose transport refuses. *)
Lemma refused_connection_witness :
  let b := Scenario.offline_bot in
  let refused :=
    set_client (mkClient false [false; false] [] [OpConnect false]) b in
  connected (client b) = false
  /\ head (connect_script (client b)) <> Some true
  /\ sendGetToTelegram (P := Scenario.std) "botT/getMe" b = (EmptyString, refused)
  /\ sendPostToTelegram (P := Scenario.std) "botT/sendMessage" JNull b
     = (EmptyString, refused)
  /\ sendMultipartFormDataToTelegram (P := Scenario.std) "sendPhoto" "photo" "img.jpg"
       "image/jpeg" "70" 3 (ByByte (list_ascii_of_string "abc")) b
     = (EmptyString, refused).
Proof.
  cbv zeta.
  assert (Hs : head (connect_script (client Scenario.offline_bot)) <> Some true)
    by discriminate.
  split; [reflexivity|]. split; [exact Hs|].
  destruct (refused_connection (P := Scenario.std) Scenario.offline_bot eq_refl Hs)
    as (Hget & Hpost & Hupload).
  split; [apply Hget|]. split; [apply Hpost | apply Hupload].
Defined.

(** X8 at an upload of five bytes in two buffers. *)
Lemma multipart_content_length_witness :
  let b := Scenario.bot ["ok"] in
  let src := ByBuffer ["abc"; "de"] in
  connected (client (ensure_connection b)) = true
  /\ 5 = Z.of_nat (sum_list (map String.length (send_data src)))
  /\ exists first body,
       oplog (client (snd (sendMultipartFormDataToTelegram (P := Scenario.std)
                             "sendPhoto" "photo" "img.jpg" "image/jpeg" "70" 5 src b)))
       = oplog (client (ensure_connection b))
         ++ map OpWrite
              (first
               ++ [ "Content-Length: ";
                    WString.of_Z
                      (WString.wrap_long (Z.of_nat (sum_list (map String.length body))));
                    WString.CRLF;
                    "Content-Type: multipart/form-data; boundary="; boundary;
                    WString.CRLF; WString.CRLF ]
               ++ body)
         ++ [OpStop].
Proof.
  cbv zeta. split; [reflexivity|]. split; [reflexivity|].
  exact (multipart_content_length (P := Scenario.std) "sendPhoto" "photo" "img.jpg"
           "image/jpeg" "70" 5 (ByBuffer ["abc"; "de"]) (Scenario.bot ["ok"])
           eq_refl eq_refl).
Defined.

(** X9 at a poll that brings one message. *)
Lemma getUpdates_keeps_witness :
  let b := Scenario.bot ["A"] in
  let b' := Scenario.after_poll b in
  getUpdates (P := Scenario.std) 0 b = Some (1%nat, b')
  /\ same_settings b b'
  /\ length (messages b') = length (messages b)
  /\ (1 <= length (messages b))%nat.
Proof.
  cbv zeta.
  assert (Hrun : getUpdates (P := Scenario.std) 0 (Scenario.bot ["A"])
                 = Some (1%nat, Scenario.after_poll (Scenario.bot ["A"])))
    by (vm_compute; reflexivity).
  split; [exact Hrun|].
  exact (getUpdates_keeps (P := Scenario.std) 0 (Scenario.bot ["A"]) 1
           (Scenario.after_poll (Scenario.bot ["A"])) Hrun).
Defined.

(** X10 at a response with four new elements for three records. *)
Lemma getUpdates_overflow_witness :
  let b := Scenario.bot ["four"] in
  (length (messages b)
   < length (deliver (last_message_received b) (seen_by (P := Scenario.std) 0 b)))%nat
  /\ getUpdates (P := Scenario.std) 0 b = None.
Proof.
  cbv zeta.
  assert (Hmany : (length (messages (Scenario.bot ["four"]))
                   < length (deliver (last_message_received (Scenario.bot ["four"]))
                               (seen_by (P := Scenario.std) 0 (Scenario.bot ["four"]))))%nat)
    by (vm_compute; lia).
  split; [exact Hmany|].
  exact (getUpdates_overflow (P := Scenario.std) 0 (Scenario.bot ["four"]) Hmany).
Defined.

(** X11 at a response that does not parse. *)
Lemma getUpdates_nothing_seen_witness :
  let b := Scenario.bot ["zzz"] in
  let b' := Scenario.after_poll b in
  getUpdates (P := Scenario.std) 0 b = Some (0%nat, b')
  /\ seen_by (P := Scenario.std) 0 b = []
  /\ 0%nat = 0%nat /\ connected (client b') = false /\ only_client b b'.
Proof.
  cbv zeta.
  assert (Hrun : getUpdates (P := Scenario.std) 0 (Scenario.bot ["zzz"])
                 = Some (0%nat, Scenario.after_poll (Scenario.bot ["zzz"])))
    by (vm_compute; reflexivity).
  assert (Hseen : seen_by (P := Scenario.std) 0 (Scenario.bot ["zzz"]) = [])
    by (vm_compute; reflexivity).
  split; [exact Hrun|]. split; [exact Hseen|].
  exact (getUpdates_nothing_seen (P := Scenario.std) 0 (Scenario.bot ["zzz"]) 0
           (Scenario.after_poll (Scenario.bot ["zzz"])) Hrun Hseen).
Defined.

(** X13 at an element of an unknown kind, decoded into a record that a
    document message had filled. *)
Lemma unknown_kind_decoded_witness :
  let result := Scenario.poll_update in
  let slot := Fixture.document_slot (H := Scenario.std) in
  let b := Fixture.bot_with (H := Scenario.std)
             [slot; Fixture.blank; Fixture.blank] 1500 0 [] in
  JsonOps.containsKey result "message" = false
  /\ JsonOps.containsKey result "channel_post" = false
  /\ JsonOps.containsKey result "callback_query" = false
  /\ JsonOps.containsKey result "edited_message" = false
  /\ update_id_of (P := Scenario.std) result <> last_message_received b
  /\ messages b !! 0%nat = Some slot
  /\ exists b' m,
       processResult (P := Scenario.std) result 0 b = Some (true, b')
       /\ last_message_received b' = 3
       /\ messages b' !! 0%nat = Some m
       /\ update_id m = 3
       /\ type m = "message" /\ date m = date slot
       /\ chat_id m = chat_id slot /\ chat_title m = chat_title slot
       /\ message_id m = message_id slot
       /\ text m = EmptyString /\ from_id m = EmptyString.
Proof.
  cbv zeta.
  assert (Hnew : update_id_of (P := Scenario.std) Scenario.poll_update
                 <> last_message_received
                      (Fixture.bot_with (H := Scenario.std)
                         [Fixture.document_slot (H := Scenario.std); Fixture.blank;
                          Fixture.blank] 1500 0 [])) by discriminate.
  repeat (split; [reflexivity|]). split; [exact Hnew|]. split; [reflexivity|].
  exact (unknown_kind_decoded (P := Scenario.std) Scenario.poll_update 0
           (Fixture.bot_with (H := Scenario.std)
              [Fixture.document_slot (H := Scenario.std); Fixture.blank; Fixture.blank]
              1500 0 [])
           (Fixture.document_slot (H := Scenario.std))
           eq_refl eq_refl eq_refl eq_refl Hnew eq_refl).
Defined.

(** X14 at a channel post with a text. *)
Lemma channel_post_decoded_witness :
  let result := Fixture.channel_post_update in
  let b := Scenario.bot [] in
  JsonOps.containsKey result "message" = false
  /\ JsonOps.containsKey result "channel_post" = true
  /\ update_id_of (P := Scenario.std) result <> last_message_received b
  /\ (0 < length (messages b))%nat
  /\ exists b' m,
       processResult (P := Scenario.std) result 0 b = Some (true, b')
       /\ messages b' !! 0%nat = Some m
       /\ type m = "channel_post"
       /\ text m = "news"
       /\ date m = "null"
       /\ chat_id m = "null"
       /\ chat_title m = "null"
       /\ message_id m = 0
       /\ from_id m = EmptyString /\ from_name m = EmptyString
       /\ longitude m = 0 /\ latitude m = 0
       /\ reply_to_message_id m = 0 /\ reply_to_text m = EmptyString
       /\ query_id m = EmptyString
       /\ contact_phone_number m = EmptyString
       /\ contact_name m = EmptyString /\ contact_id m = EmptyString.
Proof.
  cbv zeta.
  assert (Hnew : update_id_of (P := Scenario.std) Fixture.channel_post_update
                 <> last_message_received (Scenario.bot [])) by discriminate.
  assert (Hidx : (0 < length (messages (Scenario.bot [])))%nat) by (simpl; lia).
  split; [reflexivity|]. split; [reflexivity|]. split; [exact Hnew|].
  split; [exact Hidx|].
  exact (channel_post_decoded (P := Scenario.std) Fixture.channel_post_update 0
           (Scenario.bot []) eq_refl eq_refl Hnew Hidx).
Defined.

(** X15 at an edited message with a text. *)
Lemma edited_message_decoded_witness :
  let result := Scenario.edited_update in
  let b := Scenario.bot [] in
  JsonOps.containsKey result "message" = false
  /\ JsonOps.containsKey result "channel_post" = false
  /\ JsonOps.containsKey result "callback_query" = false
  /\ JsonOps.containsKey result "edited_message" = true
  /\ update_id_of (P := Scenario.std) result <> last_message_received b
  /\ (0 < length (messages b))%nat
  /\ exists b' m,
       processResult (P := Scenario.std) result 0 b = Some (true, b')
       /\ messages b' !! 0%nat = Some m
       /\ type m = "edited_message"
       /\ from_id m = "7"
       /\ chat_id m = "70"
       /\ message_id m = 40
       /\ text m = "fixed"
       /\ longitude m = 0
       /\ latitude m = 0
       /\ reply_to_message_id m = 0 /\ reply_to_text m = EmptyString
       /\ contact_phone_number m = EmptyString
       /\ contact_name m = EmptyString /\ contact_id m = EmptyString.
Proof.
  cbv zeta.
  assert (Hnew : update_id_of (P := Scenario.std) Scenario.edited_update
                 <> last_message_received (Scenario.bot [])) by discriminate.
  assert (Hidx : (0 < length (messages (Scenario.bot [])))%nat) by (simpl; lia).
  repeat (split; [reflexivity|]). split; [exact Hnew|]. split; [exact Hidx|].
  exact (edited_message_decoded (P := Scenario.std) Scenario.edited_update 0
           (Scenario.bot []) eq_refl eq_refl eq_refl eq_refl Hnew Hidx).
Defined.

(** X16 at a message with a location. *)
Lemma message_decoded_witness :
  let result := Scenario.location_update in
  let b := Scenario.bot [] in
  JsonOps.containsKey result "message" = true
  /\ fetches_file result = false
  /\ update_id_of (P := Scenario.std) result <> last_message_received b
  /\ (0 < length (messages b))%nat
  /\ exists b' m,
       processResult (P := Scenario.std) result 0 b = Some (true, b')
       /\ messages b' !! 0%nat = Some m
       /\ type m = "message"
       /\ from_id m = "7"
       /\ from_name m = "Ann"
       /\ chat_id m = "70"
       /\ message_id m = 60
       /\ hasDocument m = false
       /\ text m = EmptyString
       /\ longitude m = 13
       /\ contact_phone_number m = EmptyString
       /\ reply_to_message_id m = 0
       /\ reply_to_text m = EmptyString
       /\ latitude m = 52
       /\ contact_name m = EmptyString
       /\ contact_id m = EmptyString.
Proof.
  cbv zeta.
  assert (Hnew : update_id_of (P := Scenario.std) Scenario.location_update
                 <> last_message_received (Scenario.bot [])) by discriminate.
  assert (Hidx : (0 < length (messages (Scenario.bot [])))%nat) by (simpl; lia).
  repeat (split; [reflexivity|]). split; [exact Hnew|]. split; [exact Hidx|].
  exact (message_decoded (P := Scenario.std) Scenario.location_update 0
           (Scenario.bot []) eq_refl eq_refl Hnew Hidx).
Defined.

(** X17 at a document whose [getFile] request is answered. *)
Lemma document_decoded_witness :
  let result := Scenario.document_update in
  let b := Scenario.bot ["file"] in
  fetches_file result = true
  /\ update_id_of (P := Scenario.std) result <> last_message_received b
  /\ messages b !! 0%nat = Some (Fixture.blank (H := Scenario.std))
  /\ exists b' m,
       processResult (P := Scenario.std) result 0 b = Some (true, b')
       /\ messages b' !! 0%nat = Some m
       /\ connected (client b') = false
       /\ file_caption m = "report"
       /\ file_name m = "a.pdf"
       /\ hasDocument m = true
       /\ file_path m = "https://api.telegram.org/file/botT/docs/a.pdf"
       /\ file_size m = 10.
Proof.
  cbv zeta.
  assert (Hnew : update_id_of (P := Scenario.std) Scenario.document_update
                 <> last_message_received (Scenario.bot ["file"])) by discriminate.
  split; [reflexivity|]. split; [exact Hnew|]. split; [reflexivity|].
  destruct (document_decoded (P := Scenario.std) Scenario.document_update 0
              (Scenario.bot ["file"]) (Fixture.blank (H := Scenario.std))
              eq_refl Hnew eq_refl)
    as (b' & m & Hrun & Hm & _ & Hoff & Hcap & Hname & Hfile).
  exists b', m. vm_compute in Hfile. destruct Hfile as (Hdoc & Hpath & Hsize).
  repeat split; assumption.
Defined.

(** X19 at an acknowledgement that is cut off. *)
Lemma checkForOkResponse_unparsed_witness :
  let b := Scenario.bot [] in
  deserializeJson (Platform := Scenario.std) "cut" = None
  /\ "cut" <> EmptyString
  /\ JsonOps.member (deserializeJson_partial (Platform := Scenario.std) "cut") "ok"
     = JBool true
  /\ as_int (Platform := Scenario.std)
       (JsonOps.member
          (JsonOps.member (deserializeJson_partial (Platform := Scenario.std) "cut")
                          "result") "message_id") = 42
  /\ 0 < 42
  /\ checkForOkResponse (P := Scenario.std) "cut" b
     = (true, set_last_sent_message_id 42 b).
Proof.
  cbv zeta.
  assert (Hne : "cut" <> EmptyString) by discriminate.
  split; [reflexivity|]. split; [exact Hne|]. split; [reflexivity|].
  split; [reflexivity|]. split; [lia|].
  exact (checkForOkResponse_unparsed (P := Scenario.std) "cut" (Scenario.bot []) 42
           eq_refl Hne eq_refl eq_refl ltac:(lia)).
Defined.

(** X20 at a response that holds a run of 21 digits. *)
Lemma updateId_overrun_witness :
  let c := "{"%char in
  (WString.LF ∉ c :: [] ++ Scenario.long_run ++ [])
  /\ c <> WString.CR
  /\ Forall (fun x => x <> WString.CR) []
  /\ (WString.NUL ∉ c :: [])
  /\ Forall (fun x => WString.is_digit x = true) Scenario.long_run
  /\ (20 < length Scenario.long_run)%nat
  /\ getUpdateIdFromResponse Fixture.zeroed
       (string_of_list_ascii (c :: [] ++ Scenario.long_run ++ [])) = None.
Proof.
  cbv zeta.
  assert (Hlf : WString.LF ∉ "{"%char :: [] ++ Scenario.long_run ++ [])
    by (apply (bool_decide_unpack _); vm_compute; exact I).
  assert (Hc : "{"%char <> WString.CR) by discriminate.
  assert (Hnul : WString.NUL ∉ "{"%char :: [])
    by (apply (bool_decide_unpack _); vm_compute; exact I).
  assert (Hds : Forall (fun x => WString.is_digit x = true) Scenario.long_run)
    by (apply (bool_decide_unpack _); vm_compute; exact I).
  assert (Hlong : (20 < length Scenario.long_run)%nat) by (vm_compute; lia).
  split; [exact Hlf|]. split; [exact Hc|]. split; [constructor|].
  split; [exact Hnul|]. split; [exact Hds|]. split; [exact Hlong|].
  exact (updateId_overrun Fixture.zeroed "{"%char [] Scenario.long_run []
           Hlf Hc (List.Forall_nil _) Hnul Hds Hlong).
Defined.

(** X21 at a transport that declines once, then sends an acknowledgement
    that is cut off after the message identifier 42, and has one more
    answer waiting. *)
Lemma sendMessage_acknowledged_witness :
  let b := Scenario.bot ["no"; "cut"; "later"] in
  let failures := [WString.LF :: list_ascii_of_string "no"] in
  let good := WString.LF :: list_ascii_of_string "cut" in
  let rest := [Fixture.answer "later"] in
  let request :=
    post_request (P := Scenario.std) "botT/sendMessage"
      (JObj [("chat_id", JStr "70"); ("text", JStr "hi")]) in
  let result :=
    sendMessage (P := Scenario.std) "70" "hi" EmptyString 0 false false 3 b in
  connected (client (ensure_connection b)) = true
  /\ rx (client b) = map Data failures ++ Data good :: rest
  /\ Forall (fun bytes => declines (P := Scenario.std) (maxMessageLength b) bytes = true)
            failures
  /\ burst_response (maxMessageLength b) good = Some "cut"
  /\ ok_of (P := Scenario.std) "cut" = true
  /\ (length failures < 3)%nat
  /\ fst result = true
  /\ connected (client (snd result)) = false
  /\ rx (client (snd result)) = rest
  /\ oplog (client (snd result))
     = [OpConnect true] ++ map OpWrite request ++ map OpWrite request ++ [OpStop]
  /\ last_sent_message_id (snd result) = 42.
Proof.
  cbv zeta.
  assert (Hbad : Forall (fun bytes =>
                           declines (P := Scenario.std)
                             (maxMessageLength (Scenario.bot ["no"; "cut"; "later"]))
                             bytes = true)
                        [WString.LF :: list_ascii_of_string "no"])
    by (constructor; [vm_compute; reflexivity | constructor]).
  assert (Hbudget : (length [WString.LF :: list_ascii_of_string "no"] < 3)%nat)
    by (simpl; lia).
  split; [reflexivity|]. split; [reflexivity|]. split; [exact Hbad|].
  split; [vm_compute; reflexivity|]. split; [reflexivity|]. split; [exact Hbudget|].
  destruct (sendMessage_acknowledged (P := Scenario.std) "70" "hi" EmptyString 0
              false false 3 (Scenario.bot ["no"; "cut"; "later"])
              [WString.LF :: list_ascii_of_string "no"]
              (WString.LF :: list_ascii_of_string "cut") [Fixture.answer "later"] "cut"
              eq_refl eq_refl Hbad eq_refl eq_refl Hbudget)
    as (Hsent & Hoff & Hrx & Hlog & Hid & _).
  split; [exact Hsent|]. split; [exact Hoff|]. split; [exact Hrx|].
  split; [exact Hlog|]. apply Hid. vm_compute. reflexivity.
Defined.

(** X22 at the same transport. *)
Lemma sendPhoto_acknowledged_witness :
  let b := Scenario.bot ["no"; "ok"; "later"] in
  let failures := [WString.LF :: list_ascii_of_string "no"] in
  let good := WString.LF :: list_ascii_of_string "ok" in
  let rest := [Fixture.answer "later"] in
  let result :=
    sendPhoto (P := Scenario.std) Scenario.raw "70" "http://x/y.jpg" EmptyString
      false 0 EmptyString 3 b in
  connected (client (ensure_connection b)) = true
  /\ rx (client b) = map Data failures ++ Data good :: rest
  /\ Forall (fun bytes => declines (P := Scenario.std) (maxMessageLength b) bytes = true)
            failures
  /\ burst_response (maxMessageLength b) good = Some "ok"
  /\ ok_of (P := Scenario.std) "ok" = true
  /\ (length failures < 3)%nat
  /\ fst result = "ok"
  /\ connected (client (snd result)) = false
  /\ rx (client (snd result)) = rest.
Proof.
  cbv zeta.
  assert (Hbad : Forall (fun bytes =>
                           declines (P := Scenario.std)
                             (maxMessageLength (Scenario.bot ["no"; "ok"; "later"]))
                             bytes = true)
                        [WString.LF :: list_ascii_of_string "no"])
    by (constructor; [vm_compute; reflexivity | constructor]).
  assert (Hbudget : (length [WString.LF :: list_ascii_of_string "no"] < 3)%nat)
    by (simpl; lia).
  split; [reflexivity|]. split; [reflexivity|]. split; [exact Hbad|].
  split; [vm_compute; reflexivity|]. split; [reflexivity|]. split; [exact Hbudget|].
  destruct (sendPhoto_acknowledged (P := Scenario.std) Scenario.raw "70"
              "http://x/y.jpg" EmptyString false 0 EmptyString 3
              (Scenario.bot ["no"; "ok"; "later"])
              [WString.LF :: list_ascii_of_string "no"]
              (WString.LF :: list_ascii_of_string "ok") [Fixture.answer "later"] "ok"
              eq_refl eq_refl Hbad eq_refl eq_refl Hbudget)
    as (Hsent & Hoff & Hrx & _).
  auto.
Defined.

(** X23 at a transport that declines twice, with a loop of two turns. *)
Lemma sendSimpleMessage_gives_up_witness :
  let b := Scenario.bot ["no"; "no"; "ok"] in
  let failures := [WString.LF :: list_ascii_of_string "no";
                   WString.LF :: list_ascii_of_string "no"] in
  let rest := [Fixture.answer "ok"] in
  let request :=
    get_request (P := Scenario.std)
      "botT/sendMessage?chat_id=70&text=hi there&parse_mode=" in
  let result := sendSimpleMessage (P := Scenario.std) "70" "hi there" EmptyString 2 b in
  "hi there" <> EmptyString
  /\ failures <> []
  /\ connected (client (ensure_connection b)) = true
  /\ rx (client b) = map Data failures ++ rest
  /\ Forall (fun bytes => declines (P := Scenario.std) (maxMessageLength b) bytes = true)
            failures
  /\ fst result = false
  /\ connected (client (snd result)) = false
  /\ rx (client (snd result)) = rest
  /\ oplog (client (snd result))
     = [OpConnect true] ++ map OpWrite request ++ map OpWrite request ++ [OpStop].
Proof.
  cbv zeta.
  assert (Htext : "hi there" <> EmptyString) by discriminate.
  assert (Hne : [WString.LF :: list_ascii_of_string "no";
                 WString.LF :: list_ascii_of_string "no"] <> []) by discriminate.
  assert (Hbad : Forall (fun bytes =>
                           declines (P := Scenario.std)
                             (maxMessageLength (Scenario.bot ["no"; "no"; "ok"]))
                             bytes = true)
                        [WString.LF :: list_ascii_of_string "no";
                         WString.LF :: list_ascii_of_string "no"])
    by (repeat constructor).
  split; [exact Htext|]. split; [exact Hne|]. split; [reflexivity|].
  split; [reflexivity|]. split; [exact Hbad|].
  exact (sendSimpleMessage_gives_up (P := Scenario.std) "70" "hi there" EmptyString
           (Scenario.bot ["no"; "no"; "ok"])
           [WString.LF :: list_ascii_of_string "no";
            WString.LF :: list_ascii_of_string "no"]
           [Fixture.answer "ok"] Htext Hne eq_refl eq_refl Hbad).
Defined.

(** X24 at a transport that declines: neither helper asks again, though an
    acknowledgement waits. *)
Lemma single_request_helpers_witness :
  let b := Scenario.bot ["no"; "ok"] in
  let bytes := WString.LF :: list_ascii_of_string "no" in
  let rest := [Fixture.answer "ok"] in
  let deleted := deleteMessage (P := Scenario.std) "70" 12 b in
  let answered :=
    answerCallbackQuery (P := Scenario.std) "q1" "done" false EmptyString 0 b in
  connected (client (ensure_connection b)) = true
  /\ rx (client b) = Data bytes :: rest
  /\ burst_response (maxMessageLength b) bytes = Some "no"
  /\ 12 <> 0
  /\ fst deleted = false
  /\ rx (client (snd deleted)) = rest
  /\ connected (client (snd deleted)) = false
  /\ fst answered = false
  /\ rx (client (snd answered)) = rest
  /\ connected (client (snd answered)) = false.
Proof.
  cbv zeta.
  assert (Hid : 12 <> 0) by discriminate.
  split; [reflexivity|]. split; [reflexivity|]. split; [vm_compute; reflexivity|].
  split; [exact Hid|].
  destruct (single_request_helpers (P := Scenario.std) (Scenario.bot ["no"; "ok"])
              (WString.LF :: list_ascii_of_string "no") [Fixture.answer "ok"] "no"
              "70" 12 eq_refl eq_refl eq_refl Hid)
    as ((Hd1 & Hd2 & Hd3 & _) & Hanswer).
  destruct (Hanswer "q1" "done" false EmptyString 0) as (Ha1 & Ha2 & Ha3 & _).
  repeat split; assumption.
Defined.

(** X26 at a bot whose transport refuses every connect. *)
Lemma offline_helpers_witness :
  let b := Scenario.offline_bot in
  connected (client b) = false
  /\ Forall (fun ok => ok = false) (connect_script (client b))
  /\ deserializeJson (Platform := Scenario.std) EmptyString = None
  /\ fst (getMe (P := Scenario.std) b) = None
  /\ fst (sendMessage (P := Scenario.std) "70" "hi" EmptyString 0 false false 2 b)
     = false
  /\ fst (sendPhoto (P := Scenario.std) Scenario.raw "70" "http://x/y.jpg" EmptyString
            false 0 EmptyString 2 b) = EmptyString
  /\ fst (deleteMessage (P := Scenario.std) "70" 12 b) = false.
Proof.
  cbv zeta.
  assert (Hs : Forall (fun ok => ok = false)
                      (connect_script (client Scenario.offline_bot)))
    by (repeat constructor).
  split; [reflexivity|]. split; [exact Hs|]. split; [reflexivity|].
  destruct (offline_helpers (P := Scenario.std) Scenario.raw Scenario.offline_bot 2
              eq_refl Hs eq_refl)
    as (Hme & _ & _ & _ & Hmessage & _ & _ & Hphoto & _ & _ & _ & Hdelete).
  split; [exact Hme|]. split; [apply Hmessage|]. split; [apply Hphoto | apply Hdelete].
Defined.

(** X27 at a poll that brings one text message. *)
Lemma getUpdates_keeps_connection_witness :
  let b := Scenario.bot ["A"] in
  let b' := Scenario.after_poll b in
  let doc := Fixture.batch [Fixture.text_update 5 "a"] in
  let sent := sendGetToTelegram (P := Scenario.std)
                (getUpdates_command (P := Scenario.std) 0 b) b in
  getUpdates (P := Scenario.std) 0 b = Some (1%nat, b')
  /\ fst sent <> EmptyString
  /\ deserializeJson (Platform := Scenario.std) (fst sent) = Some doc
  /\ JsonOps.containsKey doc "result" = true
  /\ JsonOps.items (JsonOps.member doc "result") <> []
  /\ Forall (fun result => fetches_file result = false)
            (JsonOps.items (JsonOps.member doc "result"))
  /\ client b' = client (snd sent) /\ connected (client b') = true.
Proof.
  cbv zeta.
  assert (Hrun : getUpdates (P := Scenario.std) 0 (Scenario.bot ["A"])
                 = Some (1%nat, Scenario.after_poll (Scenario.bot ["A"])))
    by (vm_compute; reflexivity).
  assert (Hne : fst (sendGetToTelegram (P := Scenario.std)
                       (getUpdates_command (P := Scenario.std) 0 (Scenario.bot ["A"]))
                       (Scenario.bot ["A"])) <> EmptyString)
    by (vm_compute; discriminate).
  assert (Hdoc : deserializeJson (Platform := Scenario.std)
                   (fst (sendGetToTelegram (P := Scenario.std)
                           (getUpdates_command (P := Scenario.std) 0 (Scenario.bot ["A"]))
                           (Scenario.bot ["A"])))
                 = Some (Fixture.batch [Fixture.text_update 5 "a"]))
    by (vm_compute; reflexivity).
  assert (Hitems : JsonOps.items
                     (JsonOps.member (Fixture.batch [Fixture.text_update 5 "a"]) "result")
                   <> []) by discriminate.
  assert (Hno : Forall (fun result => fetches_file result = false)
                  (JsonOps.items
                     (JsonOps.member (Fixture.batch [Fixture.text_update 5 "a"]) "result")))
    by (repeat constructor).
  split; [exact Hrun|]. split; [exact Hne|]. split; [exact Hdoc|].
  split; [reflexivity|]. split; [exact Hitems|]. split; [exact Hno|].
  exact (getUpdates_keeps_connection (P := Scenario.std) 0 (Scenario.bot ["A"]) 1
           (Scenario.after_poll (Scenario.bot ["A"]))
           (Fixture.batch [Fixture.text_update 5 "a"])
           Hrun Hne Hdoc eq_refl Hitems Hno).
Defined.

(** X12 at an answer that names the bot. *)
Lemma getMe_reads_witness :
  let b := Scenario.bot ["me"] in
  let bytes := WString.LF :: list_ascii_of_string "me" in
  connected (client (ensure_connection b)) = true
  /\ rx (client b) = Data bytes :: []
  /\ burst_response (maxMessageLength b) bytes = Some "me"
  /\ deserializeJson (Platform := Scenario.std) "me" = Some Scenario.me_answer
  /\ JsonOps.containsKey Scenario.me_answer "result" = true
  /\ fst (getMe (P := Scenario.std) b) = Some ("Rover", "rover_bot")
  /\ connected (client (snd (getMe (P := Scenario.std) b))) = false
  /\ rx (client (snd (getMe (P := Scenario.std) b))) = []
  /\ oplog (client (snd (getMe (P := Scenario.std) b)))
     = [OpConnect true]
       ++ map OpWrite (get_request (P := Scenario.std) "botT/getMe") ++ [OpStop].
Proof.
  cbv zeta.
  split; [reflexivity|]. split; [reflexivity|]. split; [vm_compute; reflexivity|].
  split; [reflexivity|]. split; [reflexivity|].
  exact (getMe_reads (P := Scenario.std) (Scenario.bot ["me"])
           (WString.LF :: list_ascii_of_string "me") [] "me" Scenario.me_answer
           eq_refl eq_refl eq_refl eq_refl eq_refl).
Defined.
